(** * gorilla-sessions-mongo: a session store backed by a MongoDB collection

    A shallow embedding of the package [sessions_mongo] (store, session
    record translation, store options, configuration error) together with
    the parts of its collaborators that the store calls:
    [primitive.ObjectID] and [encoding/hex], [securecookie.EncodeMulti] and
    [DecodeMulti], [sessions.NewSession] and [sessions.NewCookie],
    [http.SetCookie] and [Request.Cookie], and the driver operations
    [Ping], [CreateOne], [UpdateOne], [FindOne] and [FindOneAndDelete].

    Go code mutates objects and returns [error] values; here every function
    with an effect is a computation in the monad [M] over a [World] holding
    the heap of [sessions.Options] objects, the collection, the clock, the
    identifier generator and the log.  A [nil] dereference is the failure of
    the monad. *)

From Stdlib Require Import ZArith NArith Lia String Ascii List Bool DecimalString.
From stdpp Require Import base option list gmap strings fin_maps.

Set Warnings "-register-all".

Local Open Scope string_scope.
Local Open Scope list_scope.
Local Open Scope Z_scope.

(** ** Time *)

(** [time.Duration]: a count of nanoseconds (int64). *)
Definition Duration := Z.
(** [time.Time] in UTC: nanoseconds since the epoch. *)
Definition Time := Z.

Definition Second : Duration := 1000000000.

(** [Duration.Seconds] returns a float64, [float64(d/Second) +
    float64(d%Second)/1e9].  The store uses it in two ways only: compared
    with zero, and converted to an integer.  The comparison is exact: both
    summands have the sign of [d] and neither operation loses a non-zero
    value, so the float is [<= 0] exactly when [d <= 0].  The conversion
    [int(d.Seconds())] is modelled on the exact value, the quotient of [d]
    by [Second] truncated toward zero ([Z.quot]); the float64 sum is not
    modelled, and it can round up to the next whole second for durations
    of 2^24 seconds or more that end within a few nanoseconds of it. *)
Definition Seconds_le_0 (d : Duration) : bool := d <=? 0.
Definition int_Seconds (d : Duration) : Z := Z.quot d Second.

(** [int32(x)] for an integer [x]: wrap-around to 32 bits. *)
Definition int32 (x : Z) : Z := (x + 2 ^ 31) mod 2 ^ 32 - 2 ^ 31.

(** ** Errors *)

Inductive error : Type :=
| ErrInvalidHex                        (* primitive.ErrInvalidHex *)
| InvalidByteError (c : ascii)         (* encoding/hex *)
| ErrLength                            (* encoding/hex *)
| ErrNoDocuments                       (* mongo.ErrNoDocuments *)
| ErrNoCookie                          (* http.ErrNoCookie *)
| errNoCodecs                          (* securecookie: no codecs provided *)
| errDecodeType                        (* a codec decoding into a destination of another type *)
| CodecError (msg : string)            (* an error of a codec *)
| MultiError (errs : list error)       (* securecookie.MultiError *)
| DriverError (msg : string)           (* any other failure of the driver: network, cancelled context *)
| InvalidTTLErr (invalidTTL : Duration). (* errs.go *)

(** errs.go: [NewInvalidTTLErr]. *)
Definition NewInvalidTTLErr (ttl : Duration) : error := InvalidTTLErr ttl.

(** The value an [InvalidTTLErr] carries, [None] for any other error. *)
Definition invalidTTL_of (e : error) : option Duration :=
  match e with InvalidTTLErr t => Some t | _ => None end.

(** The identifier-format errors: what [primitive.ObjectIDFromHex] returns. *)
Definition is_format_error (e : error) : bool :=
  match e with
  | ErrInvalidHex | InvalidByteError _ | ErrLength => true
  | _ => false
  end.

(** ** encoding/hex and primitive.ObjectID *)

(** An [ObjectID] is a [[12]byte]; bytes are numbers below 256. *)
Definition ObjectID := list N.

Definition fromHexChar (c : ascii) : option N :=
  let n := N_of_ascii c in
  if ((48 <=? n) && (n <=? 57))%N then Some (n - 48)%N
  else if ((97 <=? n) && (n <=? 102))%N then Some (n - 97 + 10)%N
  else if ((65 <=? n) && (n <=? 70))%N then Some (n - 65 + 10)%N
  else None.

(** [hex.DecodeString]: pairs of digits from left to right; the first
    invalid character is reported, an odd length after that. *)
Fixpoint hex_DecodeString (s : string) : error + list N :=
  match s with
  | EmptyString => inr []
  | String a EmptyString =>
      match fromHexChar a with
      | None => inl (InvalidByteError a)
      | Some _ => inl ErrLength
      end
  | String a (String b rest) =>
      match fromHexChar a with
      | None => inl (InvalidByteError a)
      | Some x =>
          match fromHexChar b with
          | None => inl (InvalidByteError b)
          | Some y =>
              match hex_DecodeString rest with
              | inl e => inl e
              | inr bs => inr ((x * 16 + y)%N :: bs)
              end
          end
      end
  end.

(** [primitive.ObjectIDFromHex] (driver v1.4.4). *)
Definition primitive_ObjectIDFromHex (s : string) : error + ObjectID :=
  match hex_DecodeString s with
  | inl e => inl e
  | inr b => if (length b =? 12)%nat then inr b else inl ErrInvalidHex
  end.

Definition hexdigit (n : N) : ascii :=
  if (n <? 10)%N then ascii_of_N (48 + n) else ascii_of_N (97 + n - 10).

(** [ObjectID.Hex]: two lower-case digits for each byte. *)
Fixpoint primitive_Hex (oid : ObjectID) : string :=
  match oid with
  | [] => EmptyString
  | b :: bs => String (hexdigit (b / 16)) (String (hexdigit (b mod 16)) (primitive_Hex bs))
  end.

(** The [n] low bytes of [x], most significant first. *)
Fixpoint be_bytes (n : nat) (x : N) : list N :=
  match n with
  | O => []
  | S k => be_bytes k (x / 256) ++ [(x mod 256)%N]
  end.

(** ** securecookie: codecs *)

(** The session values, [map[interface{}]interface{}]. *)
Abbreviation Values := (gmap string string).

(** What is handed to a codec as [interface{}]: the session identifier or
    the session values. *)
Inductive payload : Type :=
| PString (s : string)
| PValues (v : Values).

Definition as_string (p : payload) : option string :=
  match p with PString s => Some s | PValues _ => None end.
Definition as_values (p : payload) : option Values :=
  match p with PValues v => Some v | PString _ => None end.

(** [securecookie.Codec]: the interface with [Encode] and [Decode].  A codec
    is a pair of functions; a failed [Decode] leaves its destination as it
    was. *)
Record securecookie_Codec : Type := {
  Encode : string -> payload -> error + string;
  Decode : string -> string -> error + payload;
}.

Fixpoint encode_loop (name : string) (value : payload)
    (codecs : list securecookie_Codec) (errors : list error) : error + string :=
  match codecs with
  | [] => inl (MultiError errors)
  | codec :: rest =>
      match Encode codec name value with
      | inr encoded => inr encoded
      | inl err => encode_loop name value rest (errors ++ [err])
      end
  end.

(** Modelled from the spec: [securecookie.EncodeMulti] is not under src/
    (module github.com/gorilla/securecookie v1.1.1 of go.mod).  Spec 4.5: the
    capabilities are used in order, and no capability succeeding is always a
    hard failure, never unencoded data.  With no codec at all the library
    returns its "no codecs provided" error, otherwise the first codec that
    encodes wins and the errors of the others are collected. *)
Definition securecookie_EncodeMulti (name : string) (value : payload)
    (codecs : list securecookie_Codec) : error + string :=
  match codecs with
  | [] => inl errNoCodecs
  | _ => encode_loop name value codecs []
  end.

(** One codec decoding into a destination of type [T]. *)
Definition decode_into {T} (dst : payload -> option T)
    (codec : securecookie_Codec) (name value : string) : error + T :=
  match Decode codec name value with
  | inl e => inl e
  | inr p => match dst p with Some t => inr t | None => inl errDecodeType end
  end.

Fixpoint decode_loop {T} (dst : payload -> option T) (name value : string)
    (codecs : list securecookie_Codec) (errors : list error) : error + T :=
  match codecs with
  | [] => inl (MultiError errors)
  | codec :: rest =>
      match decode_into dst codec name value with
      | inr t => inr t
      | inl err => decode_loop dst name value rest (errors ++ [err])
      end
  end.

(** Modelled from the spec: [securecookie.DecodeMulti] is not under src/.
    Spec 4.5: capabilities are tried in order until one verifies, and a
    failure of all of them is one aggregate error.  The result is what the
    library writes to [dst]. *)
Definition securecookie_DecodeMulti {T} (dst : payload -> option T)
    (name value : string) (codecs : list securecookie_Codec) : error + T :=
  match codecs with
  | [] => inl errNoCodecs
  | _ => decode_loop dst name value codecs []
  end.

(** ** gorilla/sessions and net/http: the data *)

(** [sessions.Options]. *)
Record sessions_Options : Type := {
  Path : string;
  Domain : string;
  MaxAge : Z;
  Secure : bool;
  HttpOnly : bool;
  SameSite : Z;
}.

(** [new(sessions.Options)]: the zero value. *)
Definition zero_Options : sessions_Options :=
  {| Path := ""; Domain := ""; MaxAge := 0; Secure := false;
     HttpOnly := false; SameSite := 0 |}.

Definition set_MaxAge (n : Z) (o : sessions_Options) : sessions_Options :=
  {| Path := Path o; Domain := Domain o; MaxAge := n; Secure := Secure o;
     HttpOnly := HttpOnly o; SameSite := SameSite o |}.

(** A [*sessions.Options]: [None] is [nil], [Some l] the address [l]. *)
Abbreviation loc := N.
Definition ptr := option loc.

(** [sessions.Session]; the unexported back pointer to the store is left
    out. *)
Record sessions_Session : Type := {
  ID : string;
  SValues : Values;
  SOptions : ptr;
  IsNew : bool;
  name : string;
}.

Definition with_ID (id : string) (s : sessions_Session) : sessions_Session :=
  {| ID := id; SValues := SValues s; SOptions := SOptions s;
     IsNew := IsNew s; name := name s |}.
Definition with_Values (v : Values) (s : sessions_Session) : sessions_Session :=
  {| ID := ID s; SValues := v; SOptions := SOptions s;
     IsNew := IsNew s; name := name s |}.
Definition with_Options (p : ptr) (s : sessions_Session) : sessions_Session :=
  {| ID := ID s; SValues := SValues s; SOptions := p;
     IsNew := IsNew s; name := name s |}.
Definition with_IsNew (b : bool) (s : sessions_Session) : sessions_Session :=
  {| ID := ID s; SValues := SValues s; SOptions := SOptions s;
     IsNew := b; name := name s |}.

(** [http.Cookie], the fields [sessions.NewCookie] fills; [Expires = None]
    is the zero time. *)
Record http_Cookie : Type := {
  CName : string;
  CValue : string;
  CPath : string;
  CDomain : string;
  CExpires : option Time;
  CMaxAge : Z;
  CSecure : bool;
  CHttpOnly : bool;
  CSameSite : Z;
}.

(** The response: the cookies handed to [http.SetCookie], in order.  How
    the transport writes them as [Set-Cookie] headers is outside the model. *)
Record ResponseWriter : Type := {
  SetCookies : list http_Cookie;
}.

Definition http_SetCookie (w : ResponseWriter) (cookie : http_Cookie) : ResponseWriter :=
  {| SetCookies := SetCookies w ++ [cookie] |}.

(** The request: its cookies as (name, value), in order. *)
Record Request : Type := {
  Cookies : list (string * string);
}.

(** [Request.Cookie]: the first cookie of that name, or [ErrNoCookie]. *)
Fixpoint find_cookie (key : string) (cs : list (string * string)) : error + string :=
  match cs with
  | [] => inl ErrNoCookie
  | (n, v) :: rest => if String.eqb n key then inr v else find_cookie key rest
  end.
Definition Request_Cookie (r : Request) (key : string) : error + string :=
  find_cookie key (Cookies r).

(** ** The collection *)

(** One document of the collection: [{_id, data, last_modified}], the shape
    of the struct [session] of the package. *)
Record document : Type := {
  doc_id : ObjectID;
  doc_data : string;
  doc_last_modified : Time;
}.

(** [mongo.IndexModel] with the options the store sets. *)
Record IndexModel : Type := {
  Keys : list (string * Z);
  ExpireAfterSeconds : Z;
}.

Inductive Level : Type := LDebug | LInfo | LError.

(** The first document with [_id = id] gets the fields of [$set]. *)
Fixpoint update_first (id : ObjectID) (data : string) (lm : Time)
    (ds : list document) : option (list document) :=
  match ds with
  | [] => None
  | d :: rest =>
      if decide (doc_id d = id)
      then Some ({| doc_id := doc_id d; doc_data := data; doc_last_modified := lm |} :: rest)
      else match update_first id data lm rest with
           | Some rest' => Some (d :: rest')
           | None => None
           end
  end.

(** An update with [upsert]: without a match a document is inserted, built
    from the filter and the [$set] fields. *)
Definition upsert (id : ObjectID) (data : string) (lm : Time)
    (ds : list document) : list document :=
  match update_first id data lm ds with
  | Some ds' => ds'
  | None => ds ++ [{| doc_id := id; doc_data := data; doc_last_modified := lm |}]
  end.

Fixpoint find_first (id : ObjectID) (ds : list document) : option document :=
  match ds with
  | [] => None
  | d :: rest => if decide (doc_id d = id) then Some d else find_first id rest
  end.

Fixpoint delete_first (id : ObjectID) (ds : list document) : option (list document) :=
  match ds with
  | [] => None
  | d :: rest =>
      if decide (doc_id d = id) then Some rest
      else match delete_first id rest with
           | Some rest' => Some (d :: rest')
           | None => None
           end
  end.

(** How many documents have this [_id]. *)
Definition count_id (id : ObjectID) (ds : list document) : nat :=
  length (filter (fun d => doc_id d = id) ds).

(** The unique index on [_id] that every collection has. *)
Definition unique_ids (ds : list document) : Prop :=
  NoDup (map doc_id ds).

(** ** The world and the monad of effects *)

(** Everything the store reads or changes outside its arguments.
    [faults] is the script of the backing store: each driver operation takes
    the head; [Some e] makes the operation fail with [e] and write nothing,
    [None] (or an exhausted script) lets it run. *)
Record World : Type := {
  heap : gmap N sessions_Options;
  docs : list document;
  indexes : list IndexModel;
  faults : list (option error);
  now : Time;
  oid_counter : N;
  logs : list (Level * string);
}.

Definition set_heap (h : gmap N sessions_Options) (w : World) : World :=
  {| heap := h; docs := docs w; indexes := indexes w; faults := faults w;
     now := now w; oid_counter := oid_counter w; logs := logs w |}.
Definition set_docs (ds : list document) (w : World) : World :=
  {| heap := heap w; docs := ds; indexes := indexes w; faults := faults w;
     now := now w; oid_counter := oid_counter w; logs := logs w |}.
Definition set_indexes (ix : list IndexModel) (w : World) : World :=
  {| heap := heap w; docs := docs w; indexes := ix; faults := faults w;
     now := now w; oid_counter := oid_counter w; logs := logs w |}.
Definition set_faults (fs : list (option error)) (w : World) : World :=
  {| heap := heap w; docs := docs w; indexes := indexes w; faults := fs;
     now := now w; oid_counter := oid_counter w; logs := logs w |}.
Definition set_now (t : Time) (w : World) : World :=
  {| heap := heap w; docs := docs w; indexes := indexes w; faults := faults w;
     now := t; oid_counter := oid_counter w; logs := logs w |}.
Definition set_oid_counter (c : N) (w : World) : World :=
  {| heap := heap w; docs := docs w; indexes := indexes w; faults := faults w;
     now := now w; oid_counter := c; logs := logs w |}.
Definition set_logs (l : list (Level * string)) (w : World) : World :=
  {| heap := heap w; docs := docs w; indexes := indexes w; faults := faults w;
     now := now w; oid_counter := oid_counter w; logs := l |}.

(** A computation: from a world to a result and the next world, or [None]
    when the Go code panics (a nil or dangling pointer is dereferenced). *)
Definition M (A : Type) : Type := World -> option (A * World).

#[global] Instance M_ret : MRet M := fun A (a : A) w => Some (a, w).
#[global] Instance M_bind : MBind M := fun A B (f : A -> M B) (m : M A) w =>
  match m w with
  | Some (a, w') => f a w'
  | None => None
  end.

Definition get_world : M World := fun w => Some (w, w).
Definition modify_world (f : World -> World) : M unit := fun w => Some (tt, f w).

(** [*p] *)
Definition get_opts (p : ptr) : M sessions_Options := fun w =>
  match p with
  | Some l => match heap w !! l with Some o => Some (o, w) | None => None end
  | None => None
  end.

(** [&o] for a fresh object [o]: an address not yet in the heap. *)
Definition alloc_opts (o : sessions_Options) : M ptr := fun w =>
  let l := fresh (dom (heap w)) in
  Some (Some l, set_heap (<[l := o]> (heap w)) w).

(** [*p = o] *)
Definition put_opts (p : ptr) (o : sessions_Options) : M unit := fun w =>
  match p with
  | Some l =>
      match heap w !! l with
      | Some _ => Some (tt, set_heap (<[l := o]> (heap w)) w)
      | None => None
      end
  | None => None
  end.

(** [time.Now().UTC()]: the clock is read and moves on. *)
Definition time_Now : M Time := fun w => Some (now w, set_now (now w + 1) w).

(** [primitive.NewObjectID]: twelve bytes that no earlier call returned,
    here the bytes of a counter. *)
Definition primitive_NewObjectID : M ObjectID := fun w =>
  Some (be_bytes 12 (oid_counter w), set_oid_counter (oid_counter w + 1)%N w).

(** The next entry of the script of the backing store. *)
Definition head_fault (w : World) : option error :=
  match faults w with
  | [] => None
  | f :: _ => f
  end.
Definition pop_fault (w : World) : World := set_faults (tail (faults w)) w.
Definition next_fault : M (option error) := fun w =>
  Some (head_fault w, pop_fault w).

(** go-kit loggers: [log.NewNopLogger] drops the message, any other logger
    is a sink.  The error [Log] returns is dropped by every caller. *)
Inductive Logger : Type := NopLogger | SinkLogger.

Definition Log (logger : Logger) (lvl : Level) (message : string) : M unit := fun w =>
  match logger with
  | NopLogger => Some (tt, w)
  | SinkLogger => Some (tt, set_logs (logs w ++ [(lvl, message)]) w)
  end.

(** *** Driver operations *)

(** [Client.Ping] *)
Definition mongo_Ping : M (option error) := next_fault.

(** [Indexes().CreateOne] *)
Definition mongo_CreateOne (model : IndexModel) : M (option error) :=
  f ← next_fault;
  match f with
  | Some e => mret (Some e)
  | None =>
      w ← get_world;
      modify_world (set_indexes (indexes w ++ [model]));;
      mret None
  end.

(** [UpdateOne(ctx, {_id: id}, {$set: {data, last_modified}}, upsert)] *)
Definition mongo_UpdateOne (id : ObjectID) (data : string) (lm : Time) : M (option error) :=
  f ← next_fault;
  match f with
  | Some e => mret (Some e)
  | None =>
      w ← get_world;
      modify_world (set_docs (upsert id data lm (docs w)));;
      mret None
  end.

(** [FindOne(ctx, {_id: id}).Decode(&s)] *)
Definition mongo_FindOne (id : ObjectID) : M (error + document) :=
  f ← next_fault;
  match f with
  | Some e => mret (inl e)
  | None =>
      w ← get_world;
      match find_first id (docs w) with
      | Some d => mret (inr d)
      | None => mret (inl ErrNoDocuments)
      end
  end.

(** [FindOneAndDelete(ctx, {_id: id}).Err()] *)
Definition mongo_FindOneAndDelete (id : ObjectID) : M (option error) :=
  f ← next_fault;
  match f with
  | Some e => mret (Some e)
  | None =>
      w ← get_world;
      match delete_first id (docs w) with
      | Some ds => modify_world (set_docs ds);; mret None
      | None => mret (Some ErrNoDocuments)
      end
  end.

(** *** gorilla/sessions *)

(** [sessions.NewSession(store, name)]: empty values, [new(Options)], and
    the zero value of every other field. *)
Definition sessions_NewSession (key : string) : M sessions_Session :=
  p ← alloc_opts zero_Options;
  mret {| ID := ""; SValues := ∅; SOptions := p; IsNew := false; name := key |}.

(** [sessions.NewCookie(name, value, options)] (v1.2.1) *)
Definition sessions_NewCookie (key value : string) (options : ptr) : M http_Cookie :=
  o ← get_opts options;
  expires ← (if 0 <? MaxAge o then
               t ← time_Now; mret (Some (t + MaxAge o * Second))
             else if MaxAge o <? 0 then mret (Some Second)
             else mret None);
  mret {| CName := key; CValue := value; CPath := Path o; CDomain := Domain o;
          CExpires := expires; CMaxAge := MaxAge o; CSecure := Secure o;
          CHttpOnly := HttpOnly o; CSameSite := SameSite o |}.

(** ** opts.go: the options of the store *)

Record TTLOptions : Type := {
  EnsureTTLIndex : bool;
  TTL : Duration;
}.

Record LoggingOptions : Type := {
  Enabled : bool;
}.

Record Options : Type := {
  Options_TTLOptions : TTLOptions;
  Options_Logging : LoggingOptions;
}.

(** [Options.Validate]: [o.TTLOptions.TTL.Seconds() <= 0] is an
    [InvalidTTLErr] with that TTL. *)
Definition Validate (o : Options) : option error :=
  if Seconds_le_0 (TTL (Options_TTLOptions o))
  then Some (NewInvalidTTLErr (TTL (Options_TTLOptions o)))
  else None.

(** ** ttl.go *)

(** [makeTTLIndexModel]: ascending on [last_modified], expiring after
    [int32(ttl.Seconds())] seconds. *)
Definition makeTTLIndexModel (ttl : Duration) : IndexModel :=
  {| Keys := [("last_modified", 1)];
     ExpireAfterSeconds := int32 (int_Seconds ttl) |}.

(** ** session.go: the stored record *)

Record session : Type := {
  session_ID : ObjectID;
  Data : string;
  LastModified : Time;
}.

Definition currentTime : M Time := time_Now.

Definition sessionFromGorillaSession (sess : sessions_Session)
    (codecs : list securecookie_Codec) : M (error + session) :=
  match primitive_ObjectIDFromHex (ID sess) with
  | inl err => mret (inl err)
  | inr oid =>
      match securecookie_EncodeMulti (name sess) (PValues (SValues sess)) codecs with
      | inl err => mret (inl err)
      | inr encodedValues =>
          t ← currentTime;
          mret (inr {| session_ID := oid; Data := encodedValues; LastModified := t |})
      end
  end.

(** ** store.go *)

(** [MongoDBStore]; the collection handle is the collection of the world. *)
Record MongoDBStore : Type := {
  ttl : Duration;
  codecs : list securecookie_Codec;
  defaultOptions : ptr;
  storeOptions : Options;
  logger : Logger;
}.

Definition ensureConnection : M (option error) := mongo_Ping.

Definition ensureTTLIndex (ttl : Duration) : M (option error) :=
  mongo_CreateOne (makeTTLIndexModel ttl).

(** [derefOpts]: [o := *opts; return &o]. *)
Definition derefOpts (opts : ptr) : M ptr :=
  o ← get_opts opts;
  alloc_opts o.

(** [updateDocFromSession]: the [$set] document, with its own reading of
    the clock. *)
Definition updateDocFromSession (sess : session) : M (string * Time) :=
  t ← time_Now;
  mret (Data sess, t).

Definition NewMongoDBStore (storeOptions : Options) (sessionOptions : ptr)
    (logger : Logger) (codecs : list securecookie_Codec)
    : M (option MongoDBStore * option error) :=
  let logger := if negb (Enabled (Options_Logging storeOptions)) then NopLogger else logger in
  err ← ensureConnection;
  match err with
  | Some e =>
      Log logger LError "failed to create connection to mongo";;
      mret (None, Some e)
  | None =>
      match Validate storeOptions with
      | Some e => mret (None, Some e)
      | None =>
          err ← (if EnsureTTLIndex (Options_TTLOptions storeOptions)
                 then ensureTTLIndex (TTL (Options_TTLOptions storeOptions))
                 else mret None);
          match err with
          | Some e =>
              Log logger LError "failed to ensure TTL index";;
              mret (None, Some e)
          | None =>
              sessionOptions ←
                match sessionOptions with
                | None =>
                    p ← alloc_opts
                          {| Path := "/"; Domain := "";
                             MaxAge := int_Seconds (TTL (Options_TTLOptions storeOptions));
                             Secure := false; HttpOnly := false; SameSite := 0 |};
                    Log logger LDebug "nil options found, using defaults";;
                    mret p
                | Some _ => mret sessionOptions
                end;
              Log logger LInfo "cookie options";;
              mret (Some {| ttl := TTL (Options_TTLOptions storeOptions);
                            codecs := codecs;
                            defaultOptions := sessionOptions;
                            storeOptions := storeOptions;
                            logger := logger |},
                    None)
          end
      end
  end.

Definition saveSession (store : MongoDBStore) (sess : session) : M (option error) :=
  '(data, lm) ← updateDocFromSession sess;
  err ← mongo_UpdateOne (session_ID sess) data lm;
  match err with
  | Some e =>
      Log (logger store) LError "failed to save session in database";;
      mret (Some e)
  | None => mret None
  end.

Definition save (store : MongoDBStore) (sess : sessions_Session) : M (option error) :=
  r ← sessionFromGorillaSession sess (codecs store);
  match r with
  | inl err =>
      Log (logger store) LError "failed to transform session";;
      mret (Some err)
  | inr s => saveSession store s
  end.

Definition delete (store : MongoDBStore) (sessionID : string) : M (option error) :=
  match primitive_ObjectIDFromHex sessionID with
  | inl err => mret (Some err)
  | inr oid => mongo_FindOneAndDelete oid
  end.

Definition clearSession (store : MongoDBStore) (w : ResponseWriter)
    (sess : sessions_Session) : M (option error * ResponseWriter) :=
  if negb (IsNew sess) then
    err ← delete store (ID sess);
    match err with
    | Some e =>
        Log (logger store) LInfo "failed to delete session ID";;
        c ← sessions_NewCookie (name sess) "" (SOptions sess);
        mret (Some e, http_SetCookie w c)
    | None =>
        c ← sessions_NewCookie (name sess) "" (SOptions sess);
        mret (None, http_SetCookie w c)
    end
  else
    c ← sessions_NewCookie (name sess) "" (SOptions sess);
    mret (None, http_SetCookie w c).

(** [Save]: the session is the object the caller holds, so the result
    carries it as [Save] leaves it, next to the response. *)
Definition Save (store : MongoDBStore) (r : Request) (w : ResponseWriter)
    (sess : sessions_Session)
    : M (option error * ResponseWriter * sessions_Session) :=
  o ← get_opts (SOptions sess);
  if MaxAge o <=? 0 then
    '(err, w') ← clearSession store w sess;
    mret (err, w', sess)
  else
    sess ← (if String.eqb (ID sess) ""
            then oid ← primitive_NewObjectID; mret (with_ID (primitive_Hex oid) sess)
            else mret sess);
    err ← save store sess;
    match err with
    | Some e => mret (Some e, w, sess)
    | None =>
        let sess := with_IsNew false sess in
        match securecookie_EncodeMulti (name sess) (PString (ID sess)) (codecs store) with
        | inl e =>
            Log (logger store) LError "failed to encode session ID";;
            mret (Some e, w, sess)
        | inr encodedID =>
            c ← sessions_NewCookie (name sess) encodedID (SOptions sess);
            mret (None, http_SetCookie w c, sess)
        end
    end.

(** [load]: the values decoded from the record replace those of the
    session. *)
Definition load (store : MongoDBStore) (sess : sessions_Session)
    : M (option error * sessions_Session) :=
  match primitive_ObjectIDFromHex (ID sess) with
  | inl err =>
      Log (logger store) LDebug "invalid sessionID, must be BSON ID";;
      mret (Some err, sess)
  | inr oid =>
      r ← mongo_FindOne oid;
      match r with
      | inl err =>
          Log (logger store) LError "failed to load allegedly existing session";;
          mret (Some err, sess)
      | inr d =>
          let s := {| session_ID := doc_id d; Data := doc_data d;
                      LastModified := doc_last_modified d |} in
          match securecookie_DecodeMulti as_values (name sess) (Data s) (codecs store) with
          | inl err => mret (Some err, sess)
          | inr v => mret (None, with_Values v sess)
          end
      end
  end.

(** [New]: the result [*sessions.Session] is an [option], [None] being
    [nil]. *)
Definition New (store : MongoDBStore) (r : Request) (sessionKey : string)
    : M (option sessions_Session * option error) :=
  sess ← sessions_NewSession sessionKey;
  oid ← primitive_NewObjectID;
  let sess := with_ID (primitive_Hex oid) sess in
  p ← derefOpts (defaultOptions store);
  let sess := with_Options p sess in
  let sess := with_IsNew true sess in
  match Request_Cookie r sessionKey with
  | inl _ => mret (Some sess, None)
  | inr cookieValue =>
      match securecookie_DecodeMulti as_string sessionKey cookieValue (codecs store) with
      | inl err => mret (Some sess, Some err)
      | inr id =>
          let sess := with_ID id sess in
          '(err, sess) ← load store sess;
          match err with
          | Some e => mret (Some sess, Some e)
          | None => mret (Some (with_IsNew false sess), None)
          end
      end
  end.

(** ** Concrete inputs *)

(** A codec for the examples: a string is written after the letter [s], of
    the values the entry under ["key"] is written after the letter [v]. *)
Definition testCodec : securecookie_Codec :=
  {| Encode := fun _ p =>
       match p with
       | PString s => inr (String "s" s)
       | PValues v => inr (String "v" (default "" (v !! "key")))
       end;
     Decode := fun _ token =>
       match token with
       | String "s" rest => inr (PString rest)
       | String "v" rest => inr (PValues {["key" := rest]})
       | _ => inl (CodecError "securecookie: the value is not valid")
       end |}.

(** A codec that encodes values and refuses a string. *)
Definition valuesOnlyCodec : securecookie_Codec :=
  {| Encode := fun _ p =>
       match p with
       | PString _ => inl (CodecError "securecookie: the value is too long")
       | PValues v => inr (String "v" (default "" (v !! "key")))
       end;
     Decode := fun _ _ => inl (CodecError "securecookie: the value is not valid") |}.

Definition emptyWorld : World :=
  {| heap := ∅; docs := []; indexes := []; faults := []; now := 0;
     oid_counter := 0; logs := [] |}.

Definition emptyResponse : ResponseWriter := {| SetCookies := [] |}.
Definition noCookieRequest : Request := {| Cookies := [] |}.

Definition testStoreOptions (t : Duration) : Options :=
  {| Options_TTLOptions := {| EnsureTTLIndex := false; TTL := t |};
     Options_Logging := {| Enabled := false |} |}.

(** A session as [sessions.NewSession] leaves it, with the identifier and
    the fields set by hand; its options are at address [l]. *)
Definition mkSession (id key : string) (v : Values) (l : loc) (isNew : bool)
    : sessions_Session :=
  {| ID := id; SValues := v; SOptions := Some l; IsNew := isNew; name := key |}.

Definition optionsWithMaxAge (n : Z) : sessions_Options := set_MaxAge n zero_Options.

(** ** Vocabulary of the statements *)

(** The backing store answers its next [n] operations. *)
Definition driver_ok (n : nat) (w : World) : bool :=
  forallb (fun f => match f with None => true | Some _ => false end)
          (take n (faults w)).

(** The options a pointer leads to. *)
Definition opts_at (w : World) (p : ptr) : option sessions_Options :=
  match p with Some l => heap w !! l | None => None end.

(** What a step may change besides the collection: the clock and the log.
    The heap of options, the indexes and the identifier generator stay. *)
Definition frame (w w' : World) : Prop :=
  heap w' = heap w /\ indexes w' = indexes w /\ oid_counter w' = oid_counter w.

(** The identifier [Save] works with: the one of the session, or a
    generated one when the session has none. *)
Definition saved_ID (sess : sessions_Session) (w : World) : string :=
  if String.eqb (ID sess) "" then primitive_Hex (be_bytes 12 (oid_counter w))
  else ID sess.

(** The address of the options [New] gives to its session: the second
    fresh address, after the one [sessions.NewSession] takes. *)
Definition New_options_loc (w : World) : loc :=
  fresh (dom (<[fresh (dom (heap w)) := zero_Options]> (heap w))).

(** ** More concrete inputs *)

(** The store of the examples: one codec, default options at address 0. *)
Definition testStore : MongoDBStore :=
  {| ttl := 5 * Second; codecs := [testCodec]; defaultOptions := Some 0%N;
     storeOptions := testStoreOptions (5 * Second); logger := NopLogger |}.

(** The store of the examples without any codec. *)
Definition testStoreNoCodecs : MongoDBStore :=
  {| ttl := 5 * Second; codecs := []; defaultOptions := Some 0%N;
     storeOptions := testStoreOptions (5 * Second); logger := NopLogger |}.

(** A store whose only codec encodes values and refuses identifiers. *)
Definition testStoreValuesOnly : MongoDBStore :=
  {| ttl := 5 * Second; codecs := [valuesOnlyCodec]; defaultOptions := Some 0%N;
     storeOptions := testStoreOptions (5 * Second); logger := NopLogger |}.

(** An identifier of the examples and the record stored under it. *)
Definition testOID : ObjectID := be_bytes 12 7.

Definition testID : string := primitive_Hex testOID.

Definition testDoc : document :=
  {| doc_id := testOID; doc_data := "vvalue"; doc_last_modified := 1 |}.

(** A world with the default options (max-age 50) at address 0, the options
    of one session with max-age [n] at address 1, the documents [ds] and the
    script [fs] of the backing store. *)
Definition testWorld (n : Z) (ds : list document) (fs : list (option error)) : World :=
  {| heap := {[ 0%N := optionsWithMaxAge 50; 1%N := optionsWithMaxAge n ]};
     docs := ds; indexes := []; faults := fs; now := 10;
     oid_counter := 8; logs := [] |}.

(** A request whose cookie no codec of the store decodes. *)
Definition badCookieRequest : Request := {| Cookies := [("key", "tampered")] |}.

(** A request whose cookie decodes to the identifier "abcdee". *)
Definition malformedIDRequest : Request := {| Cookies := [("key", "sabcdee")] |}.

(** A request whose cookie decodes to [testID]. *)
Definition testIDRequest : Request := {| Cookies := [("key", String "s" testID)] |}.

(** ** errs.go: the message of the configuration error *)

(** [fmt.Sprintf("%d", n)]: the decimal form of an integer. *)
Definition itoa (n : Z) : string := NilZero.string_of_int (Z.to_int n).

(** [InvalidTTLErr.Error]: the fixed text, then the TTL as
    [int(e.invalidTTL.Seconds())]. *)
Definition InvalidTTLErr_Error (invalidTTL : Duration) : string :=
  "ttl cannot be 0 or fewer seconds; supplies ttl: " ++ itoa (int_Seconds invalidTTL).

(** ** response_writer_mock_test.go: the response writer of the tests *)

(** [ResponseWriterMock] with its [RWAssertableInput]: the status code, the
    bytes of the buffer and the headers, each header with its values in
    order. *)
Record ResponseWriterMock : Type := {
  mock_StatusCode : Z;
  mock_Buffer : list N;
  mock_Headers : list (string * list string);
}.

Definition NewMockResponseWriter : ResponseWriterMock :=
  {| mock_StatusCode := 0; mock_Buffer := []; mock_Headers := [] |}.

(** [Write]: the bytes go to the end of the buffer; the count written and
    no error are returned. *)
Definition mock_Write (bytesToWrite : list N) (m : ResponseWriterMock)
    : (Z * option error) * ResponseWriterMock :=
  ((Z.of_nat (length bytesToWrite), None),
   {| mock_StatusCode := mock_StatusCode m;
      mock_Buffer := mock_Buffer m ++ bytesToWrite;
      mock_Headers := mock_Headers m |}).

Definition mock_Header (m : ResponseWriterMock) : list (string * list string) :=
  mock_Headers m.

Definition mock_WriteHeader (statusCode : Z) (m : ResponseWriterMock) : ResponseWriterMock :=
  {| mock_StatusCode := statusCode; mock_Buffer := mock_Buffer m;
     mock_Headers := mock_Headers m |}.

Definition mock_GetWrittenBytes (m : ResponseWriterMock) : list N := mock_Buffer m.
Definition mock_GetStatusCode (m : ResponseWriterMock) : Z := mock_StatusCode m.
Definition mock_GetHeaders (m : ResponseWriterMock) : list (string * list string) :=
  mock_Headers m.

Definition mock_Reset (m : ResponseWriterMock) : ResponseWriterMock :=
  {| mock_StatusCode := 0; mock_Buffer := []; mock_Headers := [] |}.

(** One call on the mock, for sequences of calls.  [Header] returns the
    map of the mock itself, so a caller can change the headers in any way:
    [CallHeader f] is such a change. *)
Inductive mock_call : Type :=
| CallWrite (bytesToWrite : list N)
| CallWriteHeader (statusCode : Z)
| CallHeader (f : list (string * list string) -> list (string * list string))
| CallReset.

Definition mock_step (m : ResponseWriterMock) (c : mock_call) : ResponseWriterMock :=
  match c with
  | CallWrite b => snd (mock_Write b m)
  | CallWriteHeader code => mock_WriteHeader code m
  | CallHeader f =>
      {| mock_StatusCode := mock_StatusCode m; mock_Buffer := mock_Buffer m;
         mock_Headers := f (mock_Header m) |}
  | CallReset => mock_Reset m
  end.

Definition mock_run (cs : list mock_call) (m : ResponseWriterMock) : ResponseWriterMock :=
  fold_left mock_step cs m.

(** ** The revision of store.go and opts.go with [EnableLogging] *)

(** [Options] of that revision: the flat [EnableLogging] next to
    [Logging]. *)
Record Options_v0 : Type := {
  v0_TTLOptions : TTLOptions;
  v0_Logging : LoggingOptions;
  v0_EnableLogging : bool;
}.

Definition Validate_v0 (o : Options_v0) : option error :=
  if Seconds_le_0 (TTL (v0_TTLOptions o))
  then Some (NewInvalidTTLErr (TTL (v0_TTLOptions o)))
  else None.

Record MongoDBStore_v0 : Type := {
  v0_ttl : Duration;
  v0_codecs : list securecookie_Codec;
  v0_defaultOptions : ptr;
  v0_storeOptions : Options_v0;
  v0_logger : Logger;
}.

(** [NewMongoDBStore] of that revision: the logger is kept when
    [EnableLogging] is set; [Logging.Enabled] is not read. *)
Definition NewMongoDBStore_v0 (storeOptions : Options_v0) (sessionOptions : ptr)
    (logger : Logger) (codecs : list securecookie_Codec)
    : M (option MongoDBStore_v0 * option error) :=
  let logger := if negb (v0_EnableLogging storeOptions) then NopLogger else logger in
  err ← ensureConnection;
  match err with
  | Some e =>
      Log logger LError "failed to create connection to mongo";;
      mret (None, Some e)
  | None =>
      match Validate_v0 storeOptions with
      | Some e => mret (None, Some e)
      | None =>
          err ← (if EnsureTTLIndex (v0_TTLOptions storeOptions)
                 then ensureTTLIndex (TTL (v0_TTLOptions storeOptions))
                 else mret None);
          match err with
          | Some e =>
              Log logger LError "failed to ensure TTL index";;
              mret (None, Some e)
          | None =>
              sessionOptions ←
                match sessionOptions with
                | None =>
                    p ← alloc_opts
                          {| Path := "/"; Domain := "";
                             MaxAge := int_Seconds (TTL (v0_TTLOptions storeOptions));
                             Secure := false; HttpOnly := false; SameSite := 0 |};
                    Log logger LDebug "nil options found, using defaults";;
                    mret p
                | Some _ => mret sessionOptions
                end;
              Log logger LInfo "cookie options";;
              mret (Some {| v0_ttl := TTL (v0_TTLOptions storeOptions);
                            v0_codecs := codecs;
                            v0_defaultOptions := sessionOptions;
                            v0_storeOptions := storeOptions;
                            v0_logger := logger |},
                    None)
          end
      end
  end.

(** The options of the revision with [Logging.Enabled] only that say the
    same: [Logging.Enabled] takes the value of [EnableLogging]. *)
Definition nested_options (o : Options_v0) : Options :=
  {| Options_TTLOptions := v0_TTLOptions o;
     Options_Logging := {| Enabled := v0_EnableLogging o |} |}.

(** A store of the revision with [Logging.Enabled] as one of the revision
    with [EnableLogging], holding the options [o]. *)
Definition flat_store (o : Options_v0) (s : MongoDBStore) : MongoDBStore_v0 :=
  {| v0_ttl := ttl s; v0_codecs := codecs s; v0_defaultOptions := defaultOptions s;
     v0_storeOptions := o; v0_logger := logger s |}.

(** ** More vocabulary *)

(** A codec list reads back what it wrote: the token [EncodeMulti] gives
    for a payload is decoded by [DecodeMulti] to that payload. *)
Definition reads_back (cs : list securecookie_Codec) (key : string) (p : payload) : Prop :=
  forall tok, securecookie_EncodeMulti key p cs = inr tok ->
              match p with
              | PString s => securecookie_DecodeMulti as_string key tok cs = inr s
              | PValues v => securecookie_DecodeMulti as_values key tok cs = inr v
              end.

(** The upper-case form of a hexadecimal digit and of a string. *)
Definition upper_ascii (c : ascii) : ascii :=
  let n := N_of_ascii c in
  if ((97 <=? n) && (n <=? 122))%N then ascii_of_N (n - 32) else c.

Fixpoint upper_string (s : string) : string :=
  match s with
  | EmptyString => EmptyString
  | String c rest => String (upper_ascii c) (upper_string rest)
  end.

(** The cookie that clears the cookie of a session with options [o]: an
    empty value, and an expiry of [time.Unix(1, 0)] when the max-age is
    negative, none when it is zero. *)
Definition clearingCookie (sess : sessions_Session) (o : sessions_Options) : http_Cookie :=
  {| CName := name sess; CValue := ""; CPath := Path o; CDomain := Domain o;
     CExpires := if MaxAge o <? 0 then Some Second else None;
     CMaxAge := MaxAge o; CSecure := Secure o; CHttpOnly := HttpOnly o;
     CSameSite := SameSite o |}.

(** A request carrying one cookie. *)
Definition requestWithCookie (key value : string) : Request :=
  {| Cookies := [(key, value)] |}.

(** ** Running computations *)

Ltac unfold_m :=
  unfold mbind, mret, M_bind, M_ret, get_world, modify_world in *.

Ltac unfold_store :=
  unfold New, Save, clearSession, save, saveSession, load, delete,
    sessionFromGorillaSession, updateDocFromSession, currentTime, derefOpts,
    ensureConnection, ensureTTLIndex,
    sessions_NewCookie, sessions_NewSession,
    mongo_Ping, mongo_CreateOne, mongo_UpdateOne, mongo_FindOne,
    mongo_FindOneAndDelete, next_fault, time_Now, primitive_NewObjectID,
    get_opts, alloc_opts, put_opts in *.

Lemma driver_ok_head n w :
  driver_ok (S n) w = true -> head_fault w = None.
Proof.
  unfold driver_ok, head_fault. destruct (faults w) as [|[e|] rest]; simpl; congruence.
Qed.

Lemma driver_ok_pop n w :
  driver_ok (S n) w = true -> driver_ok n (pop_fault w) = true.
Proof.
  unfold driver_ok, pop_fault. simpl.
  destruct (faults w) as [|[e|] rest]; simpl; try congruence.
  now destruct n.
Qed.


Lemma Log_heap lg lvl msg w :
  exists w', Log lg lvl msg w = Some (tt, w') /\
    heap w' = heap w /\ docs w' = docs w /\ indexes w' = indexes w /\
    faults w' = faults w /\ now w' = now w /\ oid_counter w' = oid_counter w.
Proof. destruct lg; simpl; eexists; repeat split. Qed.

(** ** Construction *)

Lemma Validate_nonpositive o :
  TTL (Options_TTLOptions o) <= 0 ->
  Validate o = Some (InvalidTTLErr (TTL (Options_TTLOptions o))).
Proof.
  intros H. unfold Validate, Seconds_le_0, NewInvalidTTLErr.
  destruct (Z.leb_spec (TTL (Options_TTLOptions o)) 0); [done | lia].
Qed.

Lemma Validate_positive o :
  0 < TTL (Options_TTLOptions o) -> Validate o = None.
Proof.
  intros H. unfold Validate, Seconds_le_0.
  destruct (Z.leb_spec (TTL (Options_TTLOptions o)) 0); [lia | done].
Qed.

(** C4.  A TTL [t <= 0] is refused by [Validate] with an [InvalidTTLErr]
    carrying [t], and [NewMongoDBStore] then returns no store, allocates
    nothing and creates no index.  Its error depends on the connection check
    that runs before [Validate]: when the check passed the error is that
    [InvalidTTLErr]; when the check was refused the error is the one of the
    check, whatever the TTL.  A TTL [t > 0] passes [Validate]. *)
Theorem C4_invalid_ttl_fails_construction
    (o : Options) (sessionOptions : ptr) (lg : Logger)
    (cs : list securecookie_Codec) (w : World) :
  (TTL (Options_TTLOptions o) <= 0 ->
     Validate o = Some (InvalidTTLErr (TTL (Options_TTLOptions o))) /\
     exists e w',
       NewMongoDBStore o sessionOptions lg cs w = Some ((None, Some e), w') /\
       heap w' = heap w /\ indexes w' = indexes w /\ docs w' = docs w /\
       (driver_ok 1 w = true ->
          e = InvalidTTLErr (TTL (Options_TTLOptions o)) /\
          invalidTTL_of e = Some (TTL (Options_TTLOptions o))) /\
       (forall e', head_fault w = Some e' -> e = e')) /\
  (0 < TTL (Options_TTLOptions o) -> Validate o = None).
Proof.
  split; [| apply Validate_positive].
  intros Ht. split; [now apply Validate_nonpositive|].
  unfold NewMongoDBStore. unfold_store. unfold_m.
  destruct (head_fault w) as [e|] eqn:E.
  - destruct (Log_heap (if negb (Enabled (Options_Logging o)) then NopLogger else lg)
                LError "failed to create connection to mongo" (pop_fault w))
      as (w' & -> & Hh & Hd & Hi & _).
    exists e, w'. split; [reflexivity|].
    split; [exact Hh|]. split; [exact Hi|]. split; [exact Hd|]. split.
    + intros Hok. rewrite (driver_ok_head _ _ Hok) in E. discriminate.
    + intros e' He'. congruence.
  - rewrite (Validate_nonpositive o Ht). eexists _, _. split; [reflexivity|].
    split; [reflexivity|]. split; [reflexivity|]. split; [reflexivity|].
    split; [done | intros e' He'; discriminate].
Qed.

(** C4 on concrete options: a TTL of 0 is refused and yields no store, with
    the [InvalidTTLErr] when the connection check passes; a TTL of five
    seconds passes [Validate]. *)
Lemma C4_invalid_ttl_witness :
  Validate (testStoreOptions 0) = Some (InvalidTTLErr 0) /\
  (exists w', NewMongoDBStore (testStoreOptions 0) None NopLogger [] emptyWorld
              = Some ((None, Some (InvalidTTLErr 0)), w')) /\
  Validate (testStoreOptions (5 * Second)) = None.
Proof.
  assert (Hle : TTL (Options_TTLOptions (testStoreOptions 0)) <= 0) by (simpl; lia).
  assert (Hpos : 0 < TTL (Options_TTLOptions (testStoreOptions (5 * Second))))
    by (simpl; unfold Second; lia).
  destruct (C4_invalid_ttl_fails_construction (testStoreOptions 0) None
              NopLogger [] emptyWorld) as [H _].
  destruct (H Hle) as (HV & e & w' & HN & _ & _ & _ & He & _).
  destruct (He eq_refl) as (-> & _).
  destruct (C4_invalid_ttl_fails_construction (testStoreOptions (5 * Second)) None
              NopLogger [] emptyWorld) as [_ H'].
  split; [exact HV|]. split; [exists w'; exact HN | exact (H' Hpos)].
Defined.

(** C4 as stated fails when the backing store refuses the connection check:
    with a TTL of 0, and likewise with a TTL of minus one second,
    [NewMongoDBStore] returns no store and the error of the check, which is
    not an [InvalidTTLErr] and carries no TTL. *)
Lemma C4_counterexample :
  TTL (Options_TTLOptions (testStoreOptions 0)) <= 0 /\
  TTL (Options_TTLOptions (testStoreOptions (- Second))) <= 0 /\
  (exists w',
     NewMongoDBStore (testStoreOptions 0) None NopLogger []
       (testWorld 0 [] [Some (DriverError "connection refused")])
     = Some ((None, Some (DriverError "connection refused")), w')) /\
  (exists w',
     NewMongoDBStore (testStoreOptions (- Second)) None NopLogger []
       (testWorld 0 [] [Some (DriverError "connection refused")])
     = Some ((None, Some (DriverError "connection refused")), w')) /\
  invalidTTL_of (DriverError "connection refused") = None /\
  DriverError "connection refused" <> InvalidTTLErr 0.
Proof.
  split; [simpl; lia|]. split; [vm_compute; discriminate|].
  split; [eexists; vm_compute; reflexivity|].
  split; [eexists; vm_compute; reflexivity|].
  split; [reflexivity | discriminate].
Qed.

(** The exact quotient is the number of whole seconds of a positive
    duration. *)
Lemma int_Seconds_whole (t : Duration) :
  0 < t -> int_Seconds t * Second <= t < (int_Seconds t + 1) * Second.
Proof.
  intros H. unfold int_Seconds, Second.
  rewrite Z.quot_div_nonneg by lia.
  pose proof (Z.div_mod t 1000000000 ltac:(lia)).
  pose proof (Z.mod_pos_bound t 1000000000 ltac:(lia)). lia.
Qed.



(** ** The collection: insert-or-replace, lookup and removal *)

Section Collection.
Variables (id : ObjectID) (data : string) (lm : Time).

Lemma count_id_cons d ds :
  count_id id (d :: ds) =
  if decide (doc_id d = id) then S (count_id id ds) else count_id id ds.
Proof.
  unfold count_id. rewrite filter_cons. now destruct (decide (doc_id d = id)).
Qed.

Lemma count_id_app ds1 ds2 :
  count_id id (ds1 ++ ds2) = (count_id id ds1 + count_id id ds2)%nat.
Proof. unfold count_id. now rewrite filter_app, length_app. Qed.

Lemma count_id_absent ds :
  id ∉ map doc_id ds -> count_id id ds = 0%nat.
Proof.
  induction ds as [|d ds IH]; [done|].
  simpl. rewrite not_elem_of_cons. intros [Hne Hnot].
  rewrite count_id_cons. destruct (decide (doc_id d = id)); [congruence | auto].
Qed.

Lemma update_first_ids ds ds' :
  update_first id data lm ds = Some ds' -> map doc_id ds' = map doc_id ds.
Proof.
  revert ds'. induction ds as [|d ds IH]; intros ds'; simpl; [discriminate|].
  destruct (decide (doc_id d = id)).
  - intros [= <-]. reflexivity.
  - destruct (update_first id data lm ds) as [r|]; [|discriminate].
    intros [= <-]. simpl. now rewrite (IH r).
Qed.

Lemma update_first_None ds :
  update_first id data lm ds = None -> id ∉ map doc_id ds.
Proof.
  induction ds as [|d ds IH]; simpl; [intros _; apply not_elem_of_nil|].
  destruct (decide (doc_id d = id)); [discriminate|].
  destruct (update_first id data lm ds); [discriminate|].
  intros _. rewrite not_elem_of_cons. split; [congruence | auto].
Qed.

Lemma update_first_count ds ds' :
  update_first id data lm ds = Some ds' -> count_id id ds' = count_id id ds.
Proof.
  revert ds'. induction ds as [|d ds IH]; intros ds'; simpl; [discriminate|].
  destruct (decide (doc_id d = id)) as [E|NE].
  - intros [= <-]. rewrite !count_id_cons. simpl.
    now destruct (decide (doc_id d = id)).
  - destruct (update_first id data lm ds) as [r|]; [|discriminate].
    intros [= <-]. rewrite !count_id_cons.
    destruct (decide (doc_id d = id)); [congruence | now apply IH].
Qed.

Lemma update_first_Some_present ds ds' :
  update_first id data lm ds = Some ds' -> (1 <= count_id id ds)%nat.
Proof.
  revert ds'. induction ds as [|d ds IH]; intros ds'; simpl; [discriminate|].
  rewrite count_id_cons.
  destruct (decide (doc_id d = id)); [lia|].
  destruct (update_first id data lm ds) as [r|]; [|discriminate].
  intros _. now apply (IH r).
Qed.

Lemma count_id_unique ds :
  unique_ids ds -> (count_id id ds <= 1)%nat.
Proof.
  unfold unique_ids. induction ds as [|d ds IH]; simpl; [unfold count_id; simpl; lia|].
  rewrite NoDup_cons. intros [Hnot Hnd]. rewrite count_id_cons.
  destruct (decide (doc_id d = id)) as [E|NE]; [|auto].
  rewrite count_id_absent; [lia | congruence].
Qed.

(** An upsert keeps the identifiers unique. *)
Lemma upsert_unique ds :
  unique_ids ds -> unique_ids (upsert id data lm ds).
Proof.
  unfold upsert, unique_ids. intros Hnd.
  destruct (update_first id data lm ds) as [ds'|] eqn:E.
  - now rewrite (update_first_ids _ _ E).
  - rewrite map_app. simpl. apply NoDup_app. split; [done|]. split.
    + intros x Hx. rewrite list_elem_of_singleton. intros ->.
      now apply (update_first_None _ E).
    + apply NoDup_singleton.
Qed.

(** After an upsert there is exactly one document with the identifier. *)
Lemma upsert_count ds :
  unique_ids ds -> count_id id (upsert id data lm ds) = 1%nat.
Proof.
  intros Hnd. unfold upsert.
  destruct (update_first id data lm ds) as [ds'|] eqn:E.
  - rewrite (update_first_count _ _ E).
    pose proof (update_first_Some_present _ _ E).
    pose proof (count_id_unique _ Hnd). lia.
  - rewrite count_id_app, (count_id_absent ds (update_first_None _ E)).
    rewrite count_id_cons. simpl. destruct (decide (id = id)); [|congruence].
    reflexivity.
Qed.

Lemma find_first_None_absent ds :
  id ∉ map doc_id ds -> find_first id ds = None.
Proof.
  induction ds as [|d ds IH]; simpl; [done|].
  rewrite not_elem_of_cons. intros [Hne Hnot].
  destruct (decide (doc_id d = id)); [congruence | auto].
Qed.

Lemma find_first_app_l ds1 ds2 d :
  find_first id ds1 = Some d -> find_first id (ds1 ++ ds2) = Some d.
Proof.
  induction ds1 as [|x ds1 IH]; simpl; [discriminate|].
  destruct (decide (doc_id x = id)); auto.
Qed.

(** After an upsert the document found under the identifier carries the
    data and the time written. *)
Lemma find_first_upsert ds :
  exists d, find_first id (upsert id data lm ds) = Some d /\
            doc_id d = id /\ doc_data d = data /\ doc_last_modified d = lm.
Proof.
  unfold upsert. destruct (update_first id data lm ds) as [ds'|] eqn:E.
  - revert ds' E. induction ds as [|x ds IH]; intros ds'; simpl; [discriminate|].
    destruct (decide (doc_id x = id)) as [Ex|NEx].
    + intros [= <-]. simpl. rewrite decide_True by done. eauto.
    + destruct (update_first id data lm ds) as [r|]; [|discriminate].
      intros [= <-]. simpl. rewrite decide_False by done. now apply IH.
  - pose proof (update_first_None _ E) as Hnot.
    induction ds as [|x ds IH]; simpl.
    + rewrite decide_True by done. eauto.
    + simpl in Hnot. rewrite not_elem_of_cons in Hnot. destruct Hnot as [Hne Hnot].
      rewrite decide_False by congruence. apply IH; [|done].
      simpl in E. rewrite decide_False in E by congruence.
      now destruct (update_first id data lm ds).
Qed.

Lemma delete_first_None ds :
  delete_first id ds = None -> find_first id ds = None.
Proof.
  induction ds as [|d ds IH]; simpl; [done|].
  destruct (decide (doc_id d = id)); [discriminate|].
  destruct (delete_first id ds); [discriminate | auto].
Qed.

Lemma delete_first_sub ds ds' :
  delete_first id ds = Some ds' -> forall x, x ∈ map doc_id ds' -> x ∈ map doc_id ds.
Proof.
  revert ds'. induction ds as [|d ds IH]; intros ds'; simpl; [discriminate|].
  destruct (decide (doc_id d = id)).
  - intros [= <-] x Hx. rewrite elem_of_cons; now right.
  - destruct (delete_first id ds) as [r|]; [|discriminate].
    intros [= <-] x. simpl. rewrite !elem_of_cons. intros [->|Hx]; [now left|].
    right. now apply (IH r).
Qed.

(** Removing the document of a collection with unique identifiers leaves
    none under that identifier, and the identifiers stay unique. *)
Lemma delete_first_gone ds ds' :
  unique_ids ds -> delete_first id ds = Some ds' ->
  find_first id ds' = None /\ count_id id ds' = 0%nat /\ unique_ids ds'.
Proof.
  unfold unique_ids. revert ds'.
  induction ds as [|d ds IH]; intros ds'; simpl; [discriminate|].
  rewrite NoDup_cons. intros [Hnot Hnd].
  destruct (decide (doc_id d = id)) as [E|NE].
  - intros [= <-]. rewrite E in Hnot. split; [|split]; try done.
    + now apply find_first_None_absent.
    + now apply count_id_absent.
  - destruct (delete_first id ds) as [r|] eqn:Er; [|discriminate].
    intros [= <-]. destruct (IH r Hnd eq_refl) as (Hf & Hc & Hu).
    simpl. rewrite decide_False by done. rewrite count_id_cons, decide_False by done.
    split; [done|]. split; [done|].
    rewrite NoDup_cons. split; [|done].
    intros Hin. apply Hnot. now apply (delete_first_sub _ _ Er).
Qed.

Lemma find_first_Some_delete ds d :
  find_first id ds = Some d -> exists ds', delete_first id ds = Some ds'.
Proof.
  induction ds as [|x ds IH]; simpl; [discriminate|].
  destruct (decide (doc_id x = id)); [eauto|].
  intros H. destruct (IH H) as [r ->]. eauto.
Qed.
End Collection.

(** ** Identifiers: [Hex] and [ObjectIDFromHex] *)

Lemma fromHexChar_hexdigit (n : N) :
  (n < 16)%N -> fromHexChar (hexdigit n) = Some n.
Proof.
  intros H. destruct n as [|p]; [reflexivity|].
  do 4 (destruct p as [p|p|]; try reflexivity; try lia).
Qed.

Lemma hex_DecodeString_Hex (bs : list N) :
  Forall (fun b => (b < 256)%N) bs ->
  hex_DecodeString (primitive_Hex bs) = inr bs.
Proof.
  induction 1 as [|b bs Hb _ IH]; [reflexivity|].
  simpl. rewrite !fromHexChar_hexdigit.
  - rewrite IH. f_equal. f_equal.
    pose proof (N.div_mod b 16 ltac:(lia)). lia.
  - apply N.mod_lt. lia.
  - apply N.Div0.div_lt_upper_bound. lia.
Qed.

Lemma be_bytes_length n x : length (be_bytes n x) = n.
Proof.
  revert x. induction n as [|n IH]; intros x; simpl; [done|].
  rewrite length_app, IH. simpl. lia.
Qed.

Lemma be_bytes_bound n x : Forall (fun b => (b < 256)%N) (be_bytes n x).
Proof.
  revert x. induction n as [|n IH]; intros x; simpl; [constructor|].
  apply Forall_app. split; [apply IH|].
  constructor; [|constructor]. apply N.mod_lt. lia.
Qed.

(** A generated identifier, written in hexadecimal, reads back as itself. *)
Lemma ObjectIDFromHex_NewObjectID (c : N) :
  primitive_ObjectIDFromHex (primitive_Hex (be_bytes 12 c)) = inr (be_bytes 12 c).
Proof.
  unfold primitive_ObjectIDFromHex.
  rewrite hex_DecodeString_Hex by apply be_bytes_bound.
  now rewrite be_bytes_length.
Qed.

Lemma Hex_NewObjectID_nonempty (c : N) :
  String.eqb (primitive_Hex (be_bytes 12 c)) "" = false.
Proof.
  destruct (be_bytes 12 c) as [|b bs] eqn:E.
  - pose proof (be_bytes_length 12 c) as H. rewrite E in H. discriminate.
  - reflexivity.
Qed.

Lemma hex_DecodeString_format s e :
  hex_DecodeString s = inl e -> is_format_error e = true.
Proof.
  assert (H : forall n s, (String.length s <= n)%nat ->
              forall e, hex_DecodeString s = inl e -> is_format_error e = true).
  { clear. induction n as [|n IH]; intros s Hlen e.
    - destruct s; [discriminate | simpl in Hlen; lia].
    - destruct s as [|a [|b rest]]; simpl; [discriminate| |].
      + destruct (fromHexChar a); intros [= <-]; reflexivity.
      + destruct (fromHexChar a); [|intros [= <-]; reflexivity].
        destruct (fromHexChar b); [|intros [= <-]; reflexivity].
        destruct (hex_DecodeString rest) eqn:E; [|discriminate].
        intros [= <-]. apply (IH rest); [simpl in Hlen; lia | done]. }
  apply (H (String.length s)). lia.
Qed.

(** Every error of [ObjectIDFromHex] is an identifier-format error. *)
Lemma ObjectIDFromHex_format s e :
  primitive_ObjectIDFromHex s = inl e -> is_format_error e = true.
Proof.
  unfold primitive_ObjectIDFromHex.
  destruct (hex_DecodeString s) as [e'|b] eqn:E.
  - intros [= <-]. now apply (hex_DecodeString_format s).
  - destruct (length b =? 12)%nat; [discriminate|]. now intros [= <-].
Qed.

(** ** The steps of the store *)

Lemma frame_refl w : frame w w.
Proof. now unfold frame. Qed.

Lemma frame_trans w1 w2 w3 : frame w1 w2 -> frame w2 w3 -> frame w1 w3.
Proof. unfold frame. intros (?&?&?) (?&?&?). repeat split; congruence. Qed.

Lemma Log_run lg lvl msg w :
  exists w', Log lg lvl msg w = Some (tt, w') /\
    frame w w' /\ docs w' = docs w /\ faults w' = faults w /\ now w' = now w.
Proof. destruct lg; simpl; eexists; repeat split. Qed.

Lemma NewCookie_run key value p w o :
  opts_at w p = Some o ->
  exists c w', sessions_NewCookie key value p w = Some (c, w') /\
    CName c = key /\ CValue c = value /\
    CPath c = Path o /\ CDomain c = Domain o /\ CMaxAge c = MaxAge o /\
    CSecure c = Secure o /\ CHttpOnly c = HttpOnly o /\ CSameSite c = SameSite o /\
    frame w w' /\ docs w' = docs w /\ faults w' = faults w.
Proof.
  intros Ho. unfold sessions_NewCookie, get_opts. unfold_m.
  destruct p as [l|]; simpl in Ho; [|discriminate]. rewrite Ho.
  destruct (0 <? MaxAge o); [|destruct (MaxAge o <? 0)];
    unfold time_Now; eexists _, _; (split; [reflexivity|]); simpl;
    repeat split.
Qed.

Lemma delete_run store sid w :
  exists err w', delete store sid w = Some (err, w') /\ frame w w' /\
    match primitive_ObjectIDFromHex sid with
    | inl e => err = Some e /\ w' = w
    | inr oid =>
        faults w' = tail (faults w) /\
        match head_fault w with
        | Some e => err = Some e /\ docs w' = docs w
        | None =>
            match delete_first oid (docs w) with
            | Some ds => err = None /\ docs w' = ds
            | None => err = Some ErrNoDocuments /\ docs w' = docs w
            end
        end
    end.
Proof.
  unfold delete. destruct (primitive_ObjectIDFromHex sid) as [e|oid].
  - eexists _, _. split; [reflexivity|]. split; [apply frame_refl | done].
  - unfold mongo_FindOneAndDelete, next_fault. unfold_m.
    destruct (head_fault w) as [e|].
    + eexists _, _. split; [reflexivity|]. repeat split.
    + simpl. destruct (delete_first oid (docs w)) as [ds|];
        eexists _, _; (split; [reflexivity|]); repeat split.
Qed.

Lemma load_not_found store sess w oid :
  primitive_ObjectIDFromHex (ID sess) = inr oid ->
  head_fault w = None ->
  find_first oid (docs w) = None ->
  exists w', load store sess w = Some ((Some ErrNoDocuments, sess), w') /\
             docs w' = docs w.
Proof.
  intros Hid Hf Hnone. unfold load. rewrite Hid.
  unfold mongo_FindOne, next_fault. unfold_m. rewrite Hf. simpl. rewrite Hnone.
  destruct (Log_run (logger store) LError "failed to load allegedly existing session"
              (pop_fault w)) as (w' & -> & _ & Hd & _).
  eexists. split; [reflexivity | done].
Qed.

(** ** Save with a max-age of zero or less *)

Lemma clearSession_run store rw sess w o :
  opts_at w (SOptions sess) = Some o ->
  exists err c w',
    clearSession store rw sess w = Some ((err, http_SetCookie rw c), w') /\
    CName c = name sess /\ CValue c = "" /\ CMaxAge c = MaxAge o /\ CPath c = Path o /\
    frame w w' /\
    (IsNew sess = true -> err = None /\ docs w' = docs w /\ faults w' = faults w) /\
    (IsNew sess = false ->
       exists wd, delete store (ID sess) w = Some (err, wd) /\
                  docs w' = docs wd /\ faults w' = faults wd).
Proof.
  intros Ho. unfold clearSession.
  destruct (IsNew sess); simpl.
  - unfold_m.
    destruct (NewCookie_run (name sess) "" (SOptions sess) w o Ho)
      as (c & w' & -> & Hn & Hv & Hp & _ & Hm & _ & _ & _ & Hfr & Hd & Hf).
    exists None, c, w'. repeat split; try done; apply Hfr.
  - unfold mbind at 1, M_bind at 1.
    destruct (delete_run store (ID sess) w) as (err & wd & -> & Hfr & _).
    assert (Ho' : opts_at wd (SOptions sess) = Some o).
    { unfold opts_at in *. destruct (SOptions sess); [|done].
      destruct Hfr as (-> & _). done. }
    destruct err as [e|].
    + unfold mbind at 1, M_bind at 1.
      destruct (Log_run (logger store) LInfo "failed to delete session ID" wd)
        as (wl & -> & Hfrl & Hdl & Hfl & _).
      assert (Ho'' : opts_at wl (SOptions sess) = Some o).
      { unfold opts_at in *. destruct (SOptions sess); [|done].
        destruct Hfrl as (-> & _). done. }
      unfold_m.
      destruct (NewCookie_run (name sess) "" (SOptions sess) wl o Ho'')
        as (c & w' & -> & Hn & Hv & Hp & _ & Hm & _ & _ & _ & Hfr' & Hd & Hf).
      exists (Some e), c, w'. repeat split; try done;
        try (eapply frame_trans; [|apply Hfr']; eapply frame_trans; [apply Hfr | apply Hfrl]).
      intros _. exists wd. repeat split; congruence.
    + unfold_m.
      destruct (NewCookie_run (name sess) "" (SOptions sess) wd o Ho')
        as (c & w' & -> & Hn & Hv & Hp & _ & Hm & _ & _ & _ & Hfr' & Hd & Hf).
      exists None, c, w'. repeat split; try done;
        try (eapply frame_trans; [apply Hfr | apply Hfr']).
      intros _. exists wd. repeat split; congruence.
Qed.

(** C2, as the code has it.  [Save] with a max-age of zero or less always
    hands one cookie with the name of the session and an empty value to the
    response.  A new session is not deleted: no error, the collection is
    untouched.  For a session that is not new the result of [Save] is the
    result of [delete]; a failed delete leaves the collection as it was, and
    after a delete without error the record is removed and, in a collection
    with unique identifiers that answers the lookup, [load] of that
    identifier returns [ErrNoDocuments]. *)
Theorem C2_save_nonpositive_max_age
    (store : MongoDBStore) (r : Request) (rw : ResponseWriter)
    (sess : sessions_Session) (w : World) (o : sessions_Options) :
  opts_at w (SOptions sess) = Some o ->
  MaxAge o <= 0 ->
  exists err c w',
    Save store r rw sess w = Some ((err, http_SetCookie rw c, sess), w') /\
    CName c = name sess /\ CValue c = "" /\
    (IsNew sess = true -> err = None /\ docs w' = docs w) /\
    (IsNew sess = false ->
       (exists wd, delete store (ID sess) w = Some (err, wd) /\ docs w' = docs wd) /\
       (forall e, err = Some e -> docs w' = docs w) /\
       (err = None ->
          exists oid,
            primitive_ObjectIDFromHex (ID sess) = inr oid /\
            delete_first oid (docs w) = Some (docs w') /\
            (unique_ids (docs w) ->
               find_first oid (docs w') = None /\
               count_id oid (docs w') = 0%nat /\
               (driver_ok 1 w' = true ->
                  exists w'', load store sess w' = Some ((Some ErrNoDocuments, sess), w''))))).
Proof.
  intros Ho Hle. unfold Save, get_opts. unfold mbind at 1, M_bind at 1.
  assert (Hget : match SOptions sess with
                 | Some l => match heap w !! l with Some o0 => Some (o0, w) | None => None end
                 | None => None
                 end = Some (o, w)).
  { unfold opts_at in Ho. destruct (SOptions sess); [|done]. now rewrite Ho. }
  rewrite Hget. destruct (Z.leb_spec (MaxAge o) 0) as [_|]; [|lia].
  unfold mbind at 1, M_bind at 1.
  destruct (clearSession_run store rw sess w o Ho)
    as (err & c & w' & -> & Hn & Hv & _ & _ & Hfr & Hnew & Hold).
  unfold_m. exists err, c, w'. split; [reflexivity|]. split; [done|]. split; [done|].
  split; [intros Hi; destruct (Hnew Hi) as (? & ? & _); done|].
  intros Hi. destruct (Hold Hi) as (wd & Hdel & Hd & Hf).
  destruct (delete_run store (ID sess) w) as (err2 & wd2 & Hdel2 & _ & Hcase).
  rewrite Hdel in Hdel2. injection Hdel2 as <- <-.
  split; [exists wd; done|].
  destruct (primitive_ObjectIDFromHex (ID sess)) as [e0|oid] eqn:Hid.
  - destruct Hcase as (-> & ->). split; [intros; congruence | discriminate].
  - destruct Hcase as (Hfl & Hcase).
    destruct (head_fault w) as [e0|].
    { destruct Hcase as (-> & Hdd). split; [intros; congruence | discriminate]. }
    destruct (delete_first oid (docs w)) as [ds|] eqn:Hdf.
    + destruct Hcase as (-> & Hdd). split; [discriminate|].
      intros _. exists oid. split; [done|]. split; [congruence|].
      intros Hu. destruct (delete_first_gone oid (docs w) ds Hu Hdf) as (Hgone & Hcnt & _).
      rewrite Hd, Hdd. split; [done|]. split; [done|].
      intros Hok. 
      destruct (load_not_found store sess w' oid Hid (driver_ok_head _ _ Hok))
        as (w'' & Hl & _); [congruence|].
      eauto.
    + destruct Hcase as (-> & Hdd). split; [intros; congruence | discriminate].
Qed.

(** C2 on the scenario of the test [Save_MaxAgeIsZero]: a saved session,
    then [Save] with max-age 0; the record is gone, the cookie is cleared and
    [load] returns [ErrNoDocuments]. *)
Lemma C2_save_nonpositive_witness :
  exists c w' w'',
    Save testStore noCookieRequest emptyResponse
      (mkSession testID "key" {["key" := "value"]} 1%N false)
      (testWorld 0 [testDoc] [])
    = Some ((None, http_SetCookie emptyResponse c,
             mkSession testID "key" {["key" := "value"]} 1%N false), w') /\
    CValue c = "" /\ docs w' = [] /\
    load testStore (mkSession testID "key" {["key" := "value"]} 1%N false) w'
    = Some ((Some ErrNoDocuments,
             mkSession testID "key" {["key" := "value"]} 1%N false), w'').
Proof.
  assert (Ho : opts_at (testWorld 0 [testDoc] [])
                 (SOptions (mkSession testID "key" {["key" := "value"]} 1%N false))
               = Some (optionsWithMaxAge 0)) by reflexivity.
  assert (Hle : MaxAge (optionsWithMaxAge 0) <= 0) by (simpl; lia).
  destruct (C2_save_nonpositive_max_age testStore noCookieRequest emptyResponse
              (mkSession testID "key" {["key" := "value"]} 1%N false)
              (testWorld 0 [testDoc] []) (optionsWithMaxAge 0) Ho Hle)
    as (err & c & w' & HS & _ & Hv & _ & Hold).
  destruct (Hold eq_refl) as ((wd & Hdel & Hd) & _ & Hnone).
  vm_compute in Hdel. injection Hdel as <- <-.
  destruct (Hnone eq_refl) as (oid & Hid & Hdf & Hu).
  assert (Hun : unique_ids (docs (testWorld 0 [testDoc] []))).
  { unfold unique_ids. simpl. apply NoDup_singleton. }
  destruct (Hu Hun) as (_ & _ & Hload).
  assert (Hok : driver_ok 1 w' = true).
  { assert (Hf : faults w' = []).
    { vm_compute in HS. injection HS as _ <-. reflexivity. }
    unfold driver_ok. now rewrite Hf. }
  destruct (Hload Hok) as (w'' & Hl).
  exists c, w', w''. split; [exact HS|]. split; [exact Hv|]. split; [exact Hd | exact Hl].
Defined.

(** C2 as stated fails on two inputs.  A session that is new (so [Save]
    attempts no delete) while a record exists under its identifier: [Save]
    returns no error and clears the cookie, and [load] of the identifier
    then succeeds.  A session that is not new whose delete fails in the
    backing store: [Save] returns that error and clears the cookie, the
    record stays, and [load] succeeds.  In neither case does loading fail
    with a not-found error. *)
Lemma C2_counterexample :
  (exists c w' s' w'',
     Save testStore noCookieRequest emptyResponse
       (mkSession testID "key" ∅ 1%N true) (testWorld 0 [testDoc] [])
     = Some ((None, http_SetCookie emptyResponse c, mkSession testID "key" ∅ 1%N true), w') /\
     CValue c = "" /\
     load testStore (mkSession testID "key" ∅ 1%N true) w' = Some ((None, s'), w'')) /\
  (exists c w' s' w'',
     Save testStore noCookieRequest emptyResponse
       (mkSession testID "key" ∅ 1%N false)
       (testWorld 0 [testDoc] [Some (DriverError "context canceled")])
     = Some ((Some (DriverError "context canceled"),
              http_SetCookie emptyResponse c, mkSession testID "key" ∅ 1%N false), w') /\
     CValue c = "" /\
     load testStore (mkSession testID "key" ∅ 1%N false) w' = Some ((None, s'), w'')).
Proof.
  split; eexists _, _, _, _; (split; [vm_compute; reflexivity|]);
    (split; [reflexivity|]); vm_compute; reflexivity.
Qed.

(** ** Save with a positive max-age *)

Lemma head_fault_set_now t w : head_fault (set_now t w) = head_fault w.
Proof. reflexivity. Qed.

Lemma save_run store sess w :
  exists err w', save store sess w = Some (err, w') /\ frame w w' /\
    match primitive_ObjectIDFromHex (ID sess) with
    | inl e => err = Some e /\ docs w' = docs w /\ faults w' = faults w
    | inr oid =>
        match securecookie_EncodeMulti (name sess) (PValues (SValues sess)) (codecs store) with
        | inl e => err = Some e /\ docs w' = docs w /\ faults w' = faults w
        | inr data =>
            faults w' = tail (faults w) /\
            match head_fault w with
            | Some e => err = Some e /\ docs w' = docs w
            | None => err = None /\ exists lm, docs w' = upsert oid data lm (docs w)
            end
        end
    end.
Proof.
  unfold save, sessionFromGorillaSession.
  destruct (primitive_ObjectIDFromHex (ID sess)) as [e|oid].
  { unfold_m.
    destruct (Log_run (logger store) LError "failed to transform session" w)
      as (w' & -> & Hfr & Hd & Hf & _).
    eexists _, _. split; [reflexivity|]. done. }
  destruct (securecookie_EncodeMulti (name sess) (PValues (SValues sess)) (codecs store))
    as [e|data].
  { unfold_m.
    destruct (Log_run (logger store) LError "failed to transform session" w)
      as (w' & -> & Hfr & Hd & Hf & _).
    eexists _, _. split; [reflexivity|]. done. }
  unfold currentTime, time_Now, saveSession, updateDocFromSession, mongo_UpdateOne,
    next_fault. unfold_m. simpl.
  rewrite !head_fault_set_now.
  destruct (head_fault w) as [e|] eqn:Hh.
  - match goal with |- context [Log ?a ?b ?c ?d] =>
      destruct (Log_run a b c d) as (w' & -> & Hfr & Hd & Hf & _) end.
    eexists _, _. split; [reflexivity|]. split.
    + eapply frame_trans; [|apply Hfr]. now unfold frame.
    + rewrite Hf, Hd. done.
  - eexists _, _. split; [reflexivity|]. split; [now unfold frame|].
    split; [done|]. split; [done|]. simpl. eauto.
Qed.

Lemma with_ID_same (s : sessions_Session) : with_ID (ID s) s = s.
Proof. now destruct s. Qed.

Lemma get_opts_run w p o : opts_at w p = Some o -> get_opts p w = Some (o, w).
Proof.
  unfold opts_at, get_opts. destruct p as [l|]; [|done]. now intros ->.
Qed.

Lemma opts_at_heap w w' p : heap w' = heap w -> opts_at w' p = opts_at w p.
Proof. unfold opts_at. now intros ->. Qed.

(** [Save] after the identifier is fixed. *)
Lemma Save_positive_tail store rw sess w o :
  opts_at w (SOptions sess) = Some o ->
  exists err rw' sess' w',
    (err ← save store sess;
     match err with
     | Some e => mret (Some e, rw, sess)
     | None =>
         let sess := with_IsNew false sess in
         match securecookie_EncodeMulti (name sess) (PString (ID sess)) (codecs store) with
         | inl e =>
             Log (logger store) LError "failed to encode session ID";;
             mret (Some e, rw, sess)
         | inr encodedID =>
             c ← sessions_NewCookie (name sess) encodedID (SOptions sess);
             mret (None, http_SetCookie rw c, sess)
         end
     end) w = Some ((err, rw', sess'), w') /\
    heap w' = heap w /\
    ID sess' = ID sess /\ name sess' = name sess /\
    SValues sess' = SValues sess /\ SOptions sess' = SOptions sess /\
    match primitive_ObjectIDFromHex (ID sess) with
    | inl e => err = Some e /\ rw' = rw /\ docs w' = docs w /\ IsNew sess' = IsNew sess
    | inr oid =>
        match securecookie_EncodeMulti (name sess) (PValues (SValues sess)) (codecs store) with
        | inl e => err = Some e /\ rw' = rw /\ docs w' = docs w /\ IsNew sess' = IsNew sess
        | inr data =>
            match head_fault w with
            | Some e => err = Some e /\ rw' = rw /\ docs w' = docs w /\ IsNew sess' = IsNew sess
            | None =>
                IsNew sess' = false /\
                (exists lm, docs w' = upsert oid data lm (docs w)) /\
                match securecookie_EncodeMulti (name sess) (PString (ID sess)) (codecs store) with
                | inl e => err = Some e /\ rw' = rw
                | inr tok =>
                    err = None /\
                    exists c, rw' = http_SetCookie rw c /\ CName c = name sess /\
                              CValue c = tok /\ CMaxAge c = MaxAge o /\ CPath c = Path o
                end
            end
        end
    end.
Proof.
  intros Ho. unfold mbind at 1, M_bind at 1.
  destruct (save_run store sess w) as (err & w1 & -> & Hfr & Hcase).
  assert (Hh1 : heap w1 = heap w) by apply Hfr.
  destruct err as [e|].
  { unfold_m. eexists _, _, _, _. split; [reflexivity|]. split; [done|].
    do 4 (split; [done|]).
    destruct (primitive_ObjectIDFromHex (ID sess)) as [e0|oid].
    { destruct Hcase as ([= ->] & ? & ?). done. }
    destruct (securecookie_EncodeMulti (name sess) (PValues (SValues sess)) (codecs store)).
    { destruct Hcase as ([= ->] & ? & ?). done. }
    destruct Hcase as (_ & Hcase). destruct (head_fault w).
    - destruct Hcase as ([= ->] & ?). done.
    - destruct Hcase as (? & _). discriminate. }
  destruct (primitive_ObjectIDFromHex (ID sess)) as [e0|oid].
  { destruct Hcase as (? & _). discriminate. }
  destruct (securecookie_EncodeMulti (name sess) (PValues (SValues sess)) (codecs store)).
  { destruct Hcase as (? & _). discriminate. }
  destruct Hcase as (_ & Hcase). destruct (head_fault w).
  { destruct Hcase as (? & _). discriminate. }
  destruct Hcase as (_ & Hup). simpl.
  destruct (securecookie_EncodeMulti (name sess) (PString (ID sess)) (codecs store)) as [e|tok].
  - unfold_m.
    destruct (Log_run (logger store) LError "failed to encode session ID" w1)
      as (w2 & -> & Hfr2 & Hd2 & _).
    eexists _, _, _, _. split; [reflexivity|].
    split; [destruct Hfr2; congruence|]. do 4 (split; [done|]).
    split; [done|]. split; [rewrite Hd2; exact Hup | done].
  - unfold_m.
    assert (Ho1 : opts_at w1 (SOptions sess) = Some o) by (rewrite (opts_at_heap w w1); done).
    destruct (NewCookie_run (name sess) tok (SOptions sess) w1 o Ho1)
      as (c & w2 & -> & Hn & Hv & Hp & _ & Hm & _ & _ & _ & Hfr2 & Hd2 & _).
    eexists _, _, _, _. split; [reflexivity|].
    split; [destruct Hfr2; congruence|]. do 4 (split; [done|]).
    split; [done|]. split; [rewrite Hd2; exact Hup|].
    split; [done|]. exists c. done.
Qed.

(** Every outcome of [Save] with a positive max-age. *)
Lemma Save_positive_run store r rw sess w o :
  opts_at w (SOptions sess) = Some o ->
  0 < MaxAge o ->
  exists err rw' sess' w',
    Save store r rw sess w = Some ((err, rw', sess'), w') /\
    heap w' = heap w /\
    ID sess' = saved_ID sess w /\ name sess' = name sess /\
    SValues sess' = SValues sess /\ SOptions sess' = SOptions sess /\
    match primitive_ObjectIDFromHex (saved_ID sess w) with
    | inl e => err = Some e /\ rw' = rw /\ docs w' = docs w /\ IsNew sess' = IsNew sess
    | inr oid =>
        match securecookie_EncodeMulti (name sess) (PValues (SValues sess)) (codecs store) with
        | inl e => err = Some e /\ rw' = rw /\ docs w' = docs w /\ IsNew sess' = IsNew sess
        | inr data =>
            match head_fault w with
            | Some e => err = Some e /\ rw' = rw /\ docs w' = docs w /\ IsNew sess' = IsNew sess
            | None =>
                IsNew sess' = false /\
                (exists lm, docs w' = upsert oid data lm (docs w)) /\
                match securecookie_EncodeMulti (name sess) (PString (saved_ID sess w))
                        (codecs store) with
                | inl e => err = Some e /\ rw' = rw
                | inr tok =>
                    err = None /\
                    exists c, rw' = http_SetCookie rw c /\ CName c = name sess /\
                              CValue c = tok /\ CMaxAge c = MaxAge o /\ CPath c = Path o
                end
            end
        end
    end.
Proof.
  intros Ho Hpos. unfold Save. unfold mbind at 1, M_bind at 1.
  rewrite (get_opts_run _ _ _ Ho).
  destruct (Z.leb_spec (MaxAge o) 0) as [|_]; [lia|].
  unfold mbind at 1, M_bind at 1. unfold saved_ID.
  destruct (String.eqb (ID sess) "") eqn:Hid.
  - unfold mbind at 1, M_bind at 1. unfold primitive_NewObjectID.
    unfold mret at 1, M_ret at 1.
    set (sess1 := with_ID (primitive_Hex (be_bytes 12 (oid_counter w))) sess).
    set (w1 := set_oid_counter (oid_counter w + 1)%N w).
    destruct (Save_positive_tail store rw sess1 w1 o Ho)
      as (err & rw' & sess' & w' & HS & Hh & Hrest).
    exists err, rw', sess', w'. split; [exact HS|]. split; [exact Hh|].
    exact Hrest.
  - unfold mret at 1, M_ret at 1.
    destruct (Save_positive_tail store rw sess w o Ho)
      as (err & rw' & sess' & w' & HS & Hh & Hrest).
    exists err, rw', sess', w'. split; [exact HS|]. split; [exact Hh|].
    exact Hrest.
Qed.

Lemma ObjectIDFromHex_nonempty s oid :
  primitive_ObjectIDFromHex s = inr oid -> String.eqb s "" = false.
Proof. destruct s; [discriminate | reflexivity]. Qed.

Lemma saved_ID_nonempty sess w :
  String.eqb (ID sess) "" = false -> saved_ID sess w = ID sess.
Proof. unfold saved_ID. now intros ->. Qed.




(** C6, as the code has it.  With an empty list of codecs [Save] with a
    positive max-age always returns an error, sets no cookie and writes
    nothing to the collection: the values are never stored unsigned.  The
    error is the identifier-format error, or, when the identifier is well
    formed, the "no codecs provided" error of [EncodeMulti]. *)
Theorem C6_no_codec_save_fails
    (store : MongoDBStore) (r : Request) (rw : ResponseWriter)
    (sess : sessions_Session) (w : World) (o : sessions_Options) :
  codecs store = [] ->
  opts_at w (SOptions sess) = Some o ->
  0 < MaxAge o ->
  exists e sess' w',
    Save store r rw sess w = Some ((Some e, rw, sess'), w') /\
    docs w' = docs w /\
    (is_format_error e = true \/ e = errNoCodecs) /\
    (forall oid, primitive_ObjectIDFromHex (saved_ID sess w) = inr oid -> e = errNoCodecs).
Proof.
  intros Hc Ho Hpos.
  destruct (Save_positive_run store r rw sess w o Ho Hpos)
    as (err & rw' & sess' & w' & HS & _ & _ & _ & _ & _ & Hcase).
  rewrite Hc in Hcase. simpl in Hcase.
  destruct (primitive_ObjectIDFromHex (saved_ID sess w)) as [e|oid] eqn:Hid.
  - destruct Hcase as (-> & -> & Hd & _). exists e, sess', w'.
    split; [exact HS|]. split; [done|]. split; [|discriminate].
    left. now apply (ObjectIDFromHex_format (saved_ID sess w)).
  - destruct Hcase as (-> & -> & Hd & _). exists errNoCodecs, sess', w'.
    split; [exact HS|]. split; [done|]. split; [now right | done].
Qed.

(** C6 on a store without codecs: [Save] returns the "no codecs provided"
    error and stores nothing. *)
Lemma C6_no_codec_witness :
  exists sess' w',
    Save testStoreNoCodecs noCookieRequest emptyResponse
      (mkSession testID "key" {["key" := "value"]} 1%N true) (testWorld 50 [] [])
    = Some ((Some errNoCodecs, emptyResponse, sess'), w') /\ docs w' = [].
Proof.
  assert (Ho : opts_at (testWorld 50 [] [])
                 (SOptions (mkSession testID "key" {["key" := "value"]} 1%N true))
               = Some (optionsWithMaxAge 50)) by reflexivity.
  assert (Hpos : 0 < MaxAge (optionsWithMaxAge 50)) by (simpl; lia).
  destruct (C6_no_codec_save_fails testStoreNoCodecs noCookieRequest emptyResponse
              (mkSession testID "key" {["key" := "value"]} 1%N true)
              (testWorld 50 [] []) (optionsWithMaxAge 50) eq_refl Ho Hpos)
    as (e & sess' & w' & HS & Hd & _ & He).
  rewrite (He testOID eq_refl) in HS.
  exists sess', w'. split; [exact HS | exact Hd].
Defined.

(** C6 as stated fails: a store constructed without codecs, a session with
    a well-formed identifier, values and max-age 50.  [Save] returns the
    "no codecs provided" error, the collection stays empty and no cookie is
    set. *)
Lemma C6_counterexample :
  exists w0 w',
    NewMongoDBStore (testStoreOptions (5 * Second)) (Some 0%N) NopLogger []
      (testWorld 50 [] [])
    = Some ((Some testStoreNoCodecs, None), w0) /\
    Save testStoreNoCodecs noCookieRequest emptyResponse
      (mkSession testID "key" {["key" := "value"]} 1%N true) w0
    = Some ((Some errNoCodecs, emptyResponse,
             mkSession testID "key" {["key" := "value"]} 1%N true), w') /\
    docs w' = [].
Proof.
  eexists _, _. split; [vm_compute; reflexivity|].
  split; [vm_compute; reflexivity | reflexivity].
Qed.

(** C10.  In [Save] with a positive max-age, once the record is written
    (well-formed identifier, values encoded, upsert answered) and the
    encoding of the identifier then fails, [Save] returns that error and
    sets no cookie, while the session it leaves has [IsNew] false and the
    record is in the collection with the encoded values. *)
Theorem C10_isnew_cleared_before_id_encoding
    (store : MongoDBStore) (r : Request) (rw : ResponseWriter)
    (sess : sessions_Session) (w : World) (o : sessions_Options)
    (oid : ObjectID) (data : string) (e : error) :
  opts_at w (SOptions sess) = Some o ->
  0 < MaxAge o ->
  primitive_ObjectIDFromHex (saved_ID sess w) = inr oid ->
  securecookie_EncodeMulti (name sess) (PValues (SValues sess)) (codecs store) = inr data ->
  driver_ok 1 w = true ->
  securecookie_EncodeMulti (name sess) (PString (saved_ID sess w)) (codecs store) = inl e ->
  exists sess' w' d,
    Save store r rw sess w = Some ((Some e, rw, sess'), w') /\
    IsNew sess' = false /\
    ID sess' = saved_ID sess w /\
    find_first oid (docs w') = Some d /\
    doc_id d = oid /\ doc_data d = data.
Proof.
  intros Ho Hpos Hid Hval Hok Henc.
  destruct (Save_positive_run store r rw sess w o Ho Hpos)
    as (err & rw' & sess' & w' & HS & _ & HID & _ & _ & _ & Hcase).
  rewrite Hid, Hval, (driver_ok_head _ _ Hok), Henc in Hcase.
  destruct Hcase as (Hnew & (lm & Hdocs) & -> & ->).
  destruct (find_first_upsert oid data lm (docs w)) as (d & Hf & Hdi & Hdd & _).
  exists sess', w', d. split; [exact HS|]. rewrite Hdocs. done.
Qed.

(** C10 with a codec that encodes values and refuses identifiers. *)
Lemma C10_isnew_cleared_witness :
  exists sess' w' d,
    Save testStoreValuesOnly noCookieRequest emptyResponse
      (mkSession testID "key" {["key" := "value"]} 1%N true) (testWorld 50 [] [])
    = Some ((Some (MultiError [CodecError "securecookie: the value is too long"]),
             emptyResponse, sess'), w') /\
    IsNew sess' = false /\
    find_first testOID (docs w') = Some d /\ doc_data d = "vvalue".
Proof.
  assert (Ho : opts_at (testWorld 50 [] [])
                 (SOptions (mkSession testID "key" {["key" := "value"]} 1%N true))
               = Some (optionsWithMaxAge 50)) by reflexivity.
  assert (Hpos : 0 < MaxAge (optionsWithMaxAge 50)) by (simpl; lia).
  destruct (C10_isnew_cleared_before_id_encoding testStoreValuesOnly noCookieRequest
              emptyResponse (mkSession testID "key" {["key" := "value"]} 1%N true)
              (testWorld 50 [] []) (optionsWithMaxAge 50) testOID "vvalue"
              (MultiError [CodecError "securecookie: the value is too long"])
              Ho Hpos eq_refl eq_refl eq_refl eq_refl)
    as (sess' & w' & d & HS & Hn & _ & Hf & _ & Hd).
  exists sess', w', d. repeat split; assumption.
Defined.

(** C8.  In a collection with unique identifiers, when [Save] with a
    positive max-age has succeeded, exactly one record is stored under the
    identifier of the session, and a second [Save] of the session as the
    first left it returns and again leaves exactly one record under that
    identifier, with the identifiers of the collection still unique. *)
Theorem C8_save_twice_one_record
    (store : MongoDBStore) (r1 r2 : Request) (rw rw1 : ResponseWriter)
    (sess sess1 : sessions_Session) (w w1 : World) (o : sessions_Options) :
  opts_at w (SOptions sess) = Some o ->
  0 < MaxAge o ->
  unique_ids (docs w) ->
  Save store r1 rw sess w = Some ((None, rw1, sess1), w1) ->
  exists oid,
    primitive_ObjectIDFromHex (ID sess1) = inr oid /\
    SValues sess1 = SValues sess /\
    count_id oid (docs w1) = 1%nat /\
    exists err2 rw2 sess2 w2,
      Save store r2 rw1 sess1 w1 = Some ((err2, rw2, sess2), w2) /\
      ID sess2 = ID sess1 /\
      count_id oid (docs w2) = 1%nat /\
      unique_ids (docs w2).
Proof.
  intros Ho Hpos Hu HS1.
  destruct (Save_positive_run store r1 rw sess w o Ho Hpos)
    as (err & rw' & sess' & w' & HS & Hh & HID & Hname & Hvals & Hopts & Hcase).
  rewrite HS1 in HS. injection HS as <- <- <- <-.
  destruct (primitive_ObjectIDFromHex (saved_ID sess w)) as [e|oid] eqn:Hid;
    [destruct Hcase as (? & _); discriminate|].
  destruct (securecookie_EncodeMulti (name sess) (PValues (SValues sess)) (codecs store))
    as [e|data] eqn:Hval; [destruct Hcase as (? & _); discriminate|].
  destruct (head_fault w) eqn:Hf; [destruct Hcase as (? & _); discriminate|].
  destruct Hcase as (Hnew & (lm & Hdocs) & _).
  rewrite <- HID in Hid.
  exists oid. split; [exact Hid|]. split; [exact Hvals|].
  assert (Hu1 : unique_ids (docs w1)) by (rewrite Hdocs; now apply upsert_unique).
  assert (Hc1 : count_id oid (docs w1) = 1%nat) by (rewrite Hdocs; now apply upsert_count).
  split; [exact Hc1|].
  assert (Ho1 : opts_at w1 (SOptions sess1) = Some o).
  { rewrite Hopts, (opts_at_heap w w1); done. }
  destruct (Save_positive_run store r2 rw1 sess1 w1 o Ho1 Hpos)
    as (err2 & rw2 & sess2 & w2 & HS2 & _ & HID2 & _ & _ & _ & Hcase2).
  rewrite (saved_ID_nonempty _ _ (ObjectIDFromHex_nonempty _ _ Hid)) in HID2, Hcase2.
  rewrite Hid in Hcase2.
  exists err2, rw2, sess2, w2. split; [exact HS2|]. split; [exact HID2|].
  destruct (securecookie_EncodeMulti (name sess1) (PValues (SValues sess1)) (codecs store)).
  { destruct Hcase2 as (_ & _ & -> & _). done. }
  destruct (head_fault w1).
  { destruct Hcase2 as (_ & _ & -> & _). done. }
  destruct Hcase2 as (_ & (lm2 & ->) & _).
  split; [now apply upsert_count | now apply upsert_unique].
Qed.

(** C8 on an empty collection: one record after the first [Save], one
    after the second. *)
Lemma C8_save_twice_witness :
  exists oid rw1 sess1 w1,
    Save testStore noCookieRequest emptyResponse
      (mkSession testID "key" {["key" := "value"]} 1%N true) (testWorld 50 [] [])
    = Some ((None, rw1, sess1), w1) /\
    count_id oid (docs w1) = 1%nat /\
    exists err2 rw2 sess2 w2,
      Save testStore noCookieRequest rw1 sess1 w1 = Some ((err2, rw2, sess2), w2) /\
      count_id oid (docs w2) = 1%nat.
Proof.
  assert (Ho : opts_at (testWorld 50 [] [])
                 (SOptions (mkSession testID "key" {["key" := "value"]} 1%N true))
               = Some (optionsWithMaxAge 50)) by reflexivity.
  assert (Hpos : 0 < MaxAge (optionsWithMaxAge 50)) by (simpl; lia).
  assert (Hu : unique_ids (docs (testWorld 50 [] []))) by constructor.
  assert (HS1 : exists rw1 sess1 w1,
             Save testStore noCookieRequest emptyResponse
               (mkSession testID "key" {["key" := "value"]} 1%N true) (testWorld 50 [] [])
             = Some ((None, rw1, sess1), w1)).
  { eexists _, _, _. vm_compute. reflexivity. }
  destruct HS1 as (rw1 & sess1 & w1 & HS1).
  destruct (C8_save_twice_one_record testStore noCookieRequest noCookieRequest
              emptyResponse rw1 _ sess1 _ w1 _ Ho Hpos Hu HS1)
    as (oid & _ & _ & Hc1 & err2 & rw2 & sess2 & w2 & HS2 & _ & Hc2 & _).
  exists oid, rw1, sess1, w1. split; [exact HS1|]. split; [exact Hc1|].
  exists err2, rw2, sess2, w2. split; [exact HS2 | exact Hc2].
Defined.

(** ** New *)

(** Every outcome of [load]. *)
Lemma load_cases store sess w :
  exists err sess' w', load store sess w = Some ((err, sess'), w') /\
    frame w w' /\ docs w' = docs w /\
    match primitive_ObjectIDFromHex (ID sess) with
    | inl e => err = Some e /\ sess' = sess
    | inr oid =>
        match head_fault w with
        | Some e => err = Some e /\ sess' = sess
        | None =>
            match find_first oid (docs w) with
            | None => err = Some ErrNoDocuments /\ sess' = sess
            | Some d =>
                match securecookie_DecodeMulti as_values (name sess) (doc_data d)
                        (codecs store) with
                | inl e => err = Some e /\ sess' = sess
                | inr v => err = None /\ sess' = with_Values v sess
                end
            end
        end
    end.
Proof.
  unfold load. destruct (primitive_ObjectIDFromHex (ID sess)) as [e|oid].
  - unfold_m.
    destruct (Log_run (logger store) LDebug "invalid sessionID, must be BSON ID" w)
      as (w' & -> & Hfr & Hd & _).
    eexists _, _, _. split; [reflexivity|]. done.
  - unfold mongo_FindOne, next_fault. unfold_m.
    destruct (head_fault w) as [e|]; simpl.
    + destruct (Log_run (logger store) LError "failed to load allegedly existing session"
                  (pop_fault w)) as (w' & -> & Hfr & Hd & _).
      eexists _, _, _. split; [reflexivity|]. done.
    + destruct (find_first oid (docs w)) as [d|]; simpl.
      * destruct (securecookie_DecodeMulti as_values (name sess) (doc_data d) (codecs store));
          eexists _, _, _; (split; [reflexivity|]); done.
      * destruct (Log_run (logger store) LError "failed to load allegedly existing session"
                    (pop_fault w)) as (w' & -> & Hfr & Hd & _).
        eexists _, _, _. split; [reflexivity|]. done.
Qed.

Lemma New_options_loc_spec w :
  heap w !! New_options_loc w = None /\ fresh (dom (heap w)) <> New_options_loc w.
Proof.
  unfold New_options_loc.
  pose proof (is_fresh (dom (<[fresh (dom (heap w)) := zero_Options]> (heap w)))) as H.
  apply not_elem_of_dom in H. now apply lookup_insert_None in H.
Qed.

Lemma New_options_loc_fresh w : heap w !! New_options_loc w = None.
Proof. apply New_options_loc_spec. Qed.

(** Every outcome of [New] for a store whose default options exist. *)
Lemma New_run store r key w d :
  opts_at w (defaultOptions store) = Some d ->
  exists sess err w',
    New store r key w = Some ((Some sess, err), w') /\
    heap w' = <[New_options_loc w := d]>
                (<[fresh (dom (heap w)) := zero_Options]> (heap w)) /\
    docs w' = docs w /\
    SOptions sess = Some (New_options_loc w) /\
    name sess = key /\
    match Request_Cookie r key with
    | inl _ =>
        err = None /\ ID sess = primitive_Hex (be_bytes 12 (oid_counter w)) /\
        IsNew sess = true /\ SValues sess = ∅
    | inr cookieValue =>
        match securecookie_DecodeMulti as_string key cookieValue (codecs store) with
        | inl e =>
            err = Some e /\ ID sess = primitive_Hex (be_bytes 12 (oid_counter w)) /\
            IsNew sess = true /\ SValues sess = ∅
        | inr id =>
            ID sess = id /\
            match primitive_ObjectIDFromHex id with
            | inl e => err = Some e /\ IsNew sess = true /\ SValues sess = ∅
            | inr oid =>
                match head_fault w with
                | Some e => err = Some e /\ IsNew sess = true /\ SValues sess = ∅
                | None =>
                    match find_first oid (docs w) with
                    | None => err = Some ErrNoDocuments /\ IsNew sess = true /\ SValues sess = ∅
                    | Some doc =>
                        match securecookie_DecodeMulti as_values key (doc_data doc)
                                (codecs store) with
                        | inl e => err = Some e /\ IsNew sess = true /\ SValues sess = ∅
                        | inr v => err = None /\ IsNew sess = false /\ SValues sess = v
                        end
                    end
                end
            end
        end
    end.
Proof.
  intros Hd. unfold New, sessions_NewSession, alloc_opts.
  unfold mbind at 1, M_bind at 1. unfold mbind at 1, M_bind at 1.
  unfold mret at 1, M_ret at 1.
  unfold mbind at 1, M_bind at 1. unfold primitive_NewObjectID at 1.
  unfold mbind at 1, M_bind at 1. unfold derefOpts.
  unfold mbind at 1, M_bind at 1.
  set (l0 := fresh (dom (heap w))).
  set (w1 := set_oid_counter _ _).
  assert (Hd1 : opts_at w1 (defaultOptions store) = Some d).
  { unfold opts_at in *. destruct (defaultOptions store) as [ld|]; [|done].
    subst w1. simpl. rewrite lookup_insert_ne; [done|].
    intros E. pose proof (is_fresh (dom (heap w))) as Hfr.
    apply not_elem_of_dom in Hfr.
    assert (Hnone : heap w !! ld = None) by (rewrite <- E; exact Hfr).
    congruence. }
  rewrite (get_opts_run _ _ _ Hd1). unfold alloc_opts.
  change (fresh (dom (heap w1))) with (New_options_loc w).
  set (l := New_options_loc w).
  set (w2 := set_heap _ w1).
  set (sess0 := with_IsNew true _).
  destruct (Request_Cookie r key) as [e|cookieValue].
  { unfold_m. eexists _, _, _. split; [reflexivity|]. done. }
  destruct (securecookie_DecodeMulti as_string key cookieValue (codecs store)) as [e|id].
  { unfold_m. eexists _, _, _. split; [reflexivity|]. done. }
  unfold mbind at 1, M_bind at 1.
  destruct (load_cases store (with_ID id sess0) w2)
    as (lerr & lsess & lw & -> & Hfr & Hdocs & Hcase).
  simpl in Hcase.
  assert (Hheap : heap lw = <[l:=d]> (<[l0:=zero_Options]> (heap w))) by apply Hfr.
  change (head_fault w2) with (head_fault w) in Hcase.
  change (docs w2) with (docs w) in Hcase.
  destruct (primitive_ObjectIDFromHex id) as [e|oid].
  { destruct Hcase as (-> & ->). unfold_m.
    eexists _, _, _. split; [reflexivity|]. done. }
  destruct (head_fault w) as [e|].
  { destruct Hcase as (-> & ->). unfold_m.
    eexists _, _, _. split; [reflexivity|]. done. }
  destruct (find_first oid (docs w)) as [doc|].
  2:{ destruct Hcase as (-> & ->). unfold_m.
      eexists _, _, _. split; [reflexivity|]. done. }
  destruct (securecookie_DecodeMulti as_values key (doc_data doc) (codecs store)) as [e|v].
  { destruct Hcase as (-> & ->). unfold_m.
    eexists _, _, _. split; [reflexivity|]. done. }
  destruct Hcase as (-> & ->). unfold_m.
  eexists _, _, _. split; [reflexivity|]. done.
Qed.

(** [Save] returns for every session whose options exist. *)
Lemma Save_returns store r rw sess w o :
  opts_at w (SOptions sess) = Some o ->
  exists res w', Save store r rw sess w = Some (res, w').
Proof.
  intros Ho. destruct (Z.le_gt_cases (MaxAge o) 0) as [Hle|Hpos].
  - unfold Save. unfold mbind at 1, M_bind at 1.
    rewrite (get_opts_run _ _ _ Ho).
    destruct (Z.leb_spec (MaxAge o) 0) as [_|]; [|lia].
    unfold mbind at 1, M_bind at 1.
    destruct (clearSession_run store rw sess w o Ho) as (err & c & w' & -> & _).
    unfold_m. eauto.
  - destruct (Save_positive_run store r rw sess w o Ho Hpos)
      as (err & rw' & sess' & w' & HS & _). eauto.
Qed.

(** C1.  For a store whose default options exist (as [NewMongoDBStore]
    leaves it), every request and every session name, [New] returns a
    session that is not [nil], with or without an error.  The session is
    usable: it has the name asked for, its options are an existing object
    equal to the defaults, and [Save] of it returns. *)
Theorem C1_New_always_returns_session
    (store : MongoDBStore) (r : Request) (key : string) (w : World)
    (d : sessions_Options) :
  opts_at w (defaultOptions store) = Some d ->
  exists sess err w',
    New store r key w = Some ((Some sess, err), w') /\
    name sess = key /\
    opts_at w' (SOptions sess) = Some d /\
    (forall r' rw, exists res w'', Save store r' rw sess w' = Some (res, w'')).
Proof.
  intros Hd.
  destruct (New_run store r key w d Hd)
    as (sess & err & w' & HN & Hheap & _ & Hopt & Hname & _).
  assert (Ho : opts_at w' (SOptions sess) = Some d).
  { rewrite Hopt. simpl. rewrite Hheap. apply lookup_insert_eq. }
  exists sess, err, w'. split; [exact HN|]. split; [exact Hname|]. split; [exact Ho|].
  intros r' rw. now apply (Save_returns store r' rw sess w' d).
Qed.

(** C1 with a cookie that no codec decodes: a session and an error. *)
Lemma C1_New_witness :
  exists sess e w',
    New testStore badCookieRequest "key" (testWorld 50 [] [])
    = Some ((Some sess, Some e), w') /\
    name sess = "key" /\
    opts_at w' (SOptions sess) = Some (optionsWithMaxAge 50).
Proof.
  assert (Hd : opts_at (testWorld 50 [] []) (defaultOptions testStore)
               = Some (optionsWithMaxAge 50)) by reflexivity.
  destruct (C1_New_always_returns_session testStore badCookieRequest "key"
              (testWorld 50 [] []) (optionsWithMaxAge 50) Hd)
    as (sess & err & w' & HN & Hname & Ho & _).
  assert (He : exists e, err = Some e).
  { vm_compute in HN. injection HN as _ <- _. eauto. }
  destruct He as (e & ->).
  exists sess, e, w'. split; [exact HN|]. split; [exact Hname | exact Ho].
Defined.

(** C5, as the code has it.  When the cookie decodes to an identifier [id]
    and the record lookup fails, because [id] is malformed or because no
    record is stored under it, [New] returns the error together with the
    session it made at the start, whose identifier is by then [id], the one
    read from the cookie, not the generated one; the session has no values,
    [IsNew] true and a new copy of the default options. *)
Theorem C5_lookup_failure_session
    (store : MongoDBStore) (r : Request) (key : string) (w : World)
    (d : sessions_Options) (cookieValue id : string) :
  opts_at w (defaultOptions store) = Some d ->
  Request_Cookie r key = inr cookieValue ->
  securecookie_DecodeMulti as_string key cookieValue (codecs store) = inr id ->
  (exists e, primitive_ObjectIDFromHex id = inl e) \/
  (exists oid, primitive_ObjectIDFromHex id = inr oid /\
               driver_ok 1 w = true /\ find_first oid (docs w) = None) ->
  exists sess e w' l,
    New store r key w = Some ((Some sess, Some e), w') /\
    match primitive_ObjectIDFromHex id with
    | inl e0 => e = e0
    | inr _ => e = ErrNoDocuments
    end /\
    ID sess = id /\ IsNew sess = true /\ SValues sess = ∅ /\ name sess = key /\
    SOptions sess = Some l /\ heap w !! l = None /\ heap w' !! l = Some d.
Proof.
  intros Hd Hc Hdec Hfail.
  destruct (New_run store r key w d Hd)
    as (sess & err & w' & HN & Hheap & _ & Hopt & Hname & Hcase).
  rewrite Hc, Hdec in Hcase. destruct Hcase as (HID & Hcase).
  assert (Hl : heap w' !! New_options_loc w = Some d).
  { rewrite Hheap. apply lookup_insert_eq. }
  destruct Hfail as [(e & He) | (oid & He & Hok & Hnf)]; rewrite He in Hcase |- *.
  - destruct Hcase as (-> & Hnew & Hv).
    exists sess, e, w', (New_options_loc w). split; [exact HN|].
    repeat split; try done. apply New_options_loc_fresh.
  - rewrite (driver_ok_head _ _ Hok), Hnf in Hcase. destruct Hcase as (-> & Hnew & Hv).
    exists sess, ErrNoDocuments, w', (New_options_loc w). split; [exact HN|].
    repeat split; try done. apply New_options_loc_fresh.
Qed.

(** C5 with a cookie whose identifier has no record: the session returned
    with [ErrNoDocuments] carries the identifier of the cookie. *)
Lemma C5_lookup_failure_witness :
  exists sess w',
    New testStore testIDRequest "key" (testWorld 50 [] [])
    = Some ((Some sess, Some ErrNoDocuments), w') /\
    ID sess = testID /\ IsNew sess = true.
Proof.
  assert (Hd : opts_at (testWorld 50 [] []) (defaultOptions testStore)
               = Some (optionsWithMaxAge 50)) by reflexivity.
  assert (Hfail : (exists e, primitive_ObjectIDFromHex testID = inl e) \/
                  (exists oid, primitive_ObjectIDFromHex testID = inr oid /\
                     driver_ok 1 (testWorld 50 [] []) = true /\
                     find_first oid (docs (testWorld 50 [] [])) = None)).
  { right. exists testOID. repeat split. }
  destruct (C5_lookup_failure_session testStore testIDRequest "key" (testWorld 50 [] [])
              (optionsWithMaxAge 50) (String "s" testID) testID Hd eq_refl eq_refl Hfail)
    as (sess & e & w' & l & HN & He & HID & Hnew & _).
  change (e = ErrNoDocuments) in He. rewrite He in HN.
  exists sess, w'. split; [exact HN|]. split; [exact HID | exact Hnew].
Defined.

(** C5 as stated fails on the identifier: the cookie decodes to "abcdee",
    the lookup fails on that malformed identifier, and the session returned
    with the error carries "abcdee", not the identifier generated at the
    start; likewise a well-formed identifier without a record comes back in
    the session returned with [ErrNoDocuments]. *)
Lemma C5_counterexample :
  (exists sess w',
     New testStore malformedIDRequest "key" (testWorld 50 [] [])
     = Some ((Some sess, Some ErrInvalidHex), w') /\
     ID sess = "abcdee" /\
     ID sess <> primitive_Hex (be_bytes 12 (oid_counter (testWorld 50 [] [])))) /\
  (exists sess w',
     New testStore testIDRequest "key" (testWorld 50 [] [])
     = Some ((Some sess, Some ErrNoDocuments), w') /\
     ID sess = testID /\
     ID sess <> primitive_Hex (be_bytes 12 (oid_counter (testWorld 50 [] [])))).
Proof.
  split; eexists _, _; (split; [vm_compute; reflexivity|]);
    (split; [reflexivity|]); vm_compute; discriminate.
Qed.

(** C9.  The options of a session returned by [New] are a new object: its
    address was not in use before the call, so it is neither the address of
    the default options of the store nor that of the options of any session
    made earlier, and it holds a copy of the defaults.  [New] leaves every
    existing options object as it was.  Writing through the pointer of the
    session (for example a max-age of 0) changes that object only: the
    default options of the store and every other options object keep their
    content. *)
Theorem C9_New_copies_default_options
    (store : MongoDBStore) (r : Request) (key : string) (w : World)
    (d : sessions_Options) :
  opts_at w (defaultOptions store) = Some d ->
  exists sess err w' l,
    New store r key w = Some ((Some sess, err), w') /\
    SOptions sess = Some l /\
    heap w !! l = None /\
    SOptions sess <> defaultOptions store /\
    heap w' !! l = Some d /\
    (forall l' o', heap w !! l' = Some o' -> heap w' !! l' = Some o') /\
    (forall o2, exists w2,
        put_opts (SOptions sess) o2 w' = Some (tt, w2) /\
        heap w2 !! l = Some o2 /\
        opts_at w2 (defaultOptions store) = Some d /\
        (forall l', l' <> l -> heap w2 !! l' = heap w' !! l')).
Proof.
  intros Hd.
  destruct (New_run store r key w d Hd)
    as (sess & err & w' & HN & Hheap & _ & Hopt & _).
  destruct (New_options_loc_spec w) as (Hfresh & Hne).
  set (l := New_options_loc w) in *.
  assert (Hl : heap w' !! l = Some d) by (rewrite Hheap; apply lookup_insert_eq).
  assert (Hkeep : forall l' o', heap w !! l' = Some o' -> heap w' !! l' = Some o').
  { intros l' o' H'. rewrite Hheap. 
    rewrite lookup_insert_ne by congruence.
    rewrite lookup_insert_ne; [done|].
    intros E. pose proof (is_fresh (dom (heap w))) as Hfr.
    apply not_elem_of_dom in Hfr.
    assert (heap w !! l' = None) by (rewrite <- E; exact Hfr). congruence. }
  assert (Hdef : defaultOptions store <> Some l).
  { intros E. rewrite E in Hd. simpl in Hd. congruence. }
  exists sess, err, w', l. split; [exact HN|]. split; [exact Hopt|].
  split; [exact Hfresh|]. split; [congruence|]. split; [exact Hl|].
  split; [exact Hkeep|].
  intros o2. rewrite Hopt. unfold put_opts. rewrite Hl.
  eexists. split; [reflexivity|]. simpl.
  split; [apply lookup_insert_eq|]. split.
  - unfold opts_at in *. destruct (defaultOptions store) as [ld|]; [|done].
    simpl. rewrite lookup_insert_ne by congruence. now apply Hkeep.
  - intros l' Hl'. now rewrite lookup_insert_ne.
Qed.

(** C9 on the store of the examples: setting the max-age of the session to
    0 leaves the default max-age at 50. *)
Lemma C9_New_copies_witness :
  exists sess err w' l w2,
    New testStore noCookieRequest "key" (testWorld 50 [] []) = Some ((Some sess, err), w') /\
    SOptions sess = Some l /\
    heap w' !! l = Some (optionsWithMaxAge 50) /\
    put_opts (SOptions sess) (optionsWithMaxAge 0) w' = Some (tt, w2) /\
    heap w2 !! l = Some (optionsWithMaxAge 0) /\
    opts_at w2 (defaultOptions testStore) = Some (optionsWithMaxAge 50).
Proof.
  assert (Hd : opts_at (testWorld 50 [] []) (defaultOptions testStore)
               = Some (optionsWithMaxAge 50)) by reflexivity.
  destruct (C9_New_copies_default_options testStore noCookieRequest "key"
              (testWorld 50 [] []) (optionsWithMaxAge 50) Hd)
    as (sess & err & w' & l & HN & Hopt & _ & _ & Hl & _ & Hmut).
  destruct (Hmut (optionsWithMaxAge 0)) as (w2 & Hput & Hl2 & Hdef & _).
  exists sess, err, w', l, w2. repeat split; assumption.
Defined.

(** Two sessions from two calls of [New] never share their options, also
    after the options of the first were changed. *)
Lemma New_twice_distinct_options store r1 r2 key1 key2 w d o2 :
  opts_at w (defaultOptions store) = Some d ->
  exists s1 e1 w1 w2 s2 e2 w3,
    New store r1 key1 w = Some ((Some s1, e1), w1) /\
    put_opts (SOptions s1) o2 w1 = Some (tt, w2) /\
    New store r2 key2 w2 = Some ((Some s2, e2), w3) /\
    SOptions s1 <> SOptions s2 /\
    opts_at w3 (SOptions s1) = Some o2 /\
    opts_at w3 (SOptions s2) = Some d.
Proof.
  intros Hd.
  destruct (New_run store r1 key1 w d Hd)
    as (s1 & e1 & w1 & HN1 & Hheap1 & _ & Hopt1 & _).
  assert (Hl1 : heap w1 !! New_options_loc w = Some d)
    by (rewrite Hheap1; apply lookup_insert_eq).
  assert (Hd1 : opts_at w1 (defaultOptions store) = Some d).
  { unfold opts_at in *. destruct (defaultOptions store) as [ld|]; [|done].
    rewrite Hheap1. destruct (New_options_loc_spec w) as (Hfresh & Hne).
    rewrite lookup_insert_ne by congruence.
    rewrite lookup_insert_ne; [done|].
    intros E. pose proof (is_fresh (dom (heap w))) as Hfr.
    apply not_elem_of_dom in Hfr.
    assert (heap w !! ld = None) by (rewrite <- E; exact Hfr). congruence. }
  set (w2 := set_heap (<[New_options_loc w := o2]> (heap w1)) w1).
  assert (Hput : put_opts (SOptions s1) o2 w1 = Some (tt, w2)).
  { rewrite Hopt1. unfold put_opts. now rewrite Hl1. }
  assert (Hd2 : opts_at w2 (defaultOptions store) = Some d).
  { unfold opts_at in *. destruct (defaultOptions store) as [ld|]; [|done].
    simpl. rewrite lookup_insert_ne; [done|].
    intros <-. pose proof (New_options_loc_fresh w). congruence. }
  destruct (New_run store r2 key2 w2 d Hd2)
    as (s2 & e2 & w3 & HN2 & Hheap2 & _ & Hopt2 & _).
  destruct (New_options_loc_spec w2) as (Hfresh2 & Hne2).
  assert (Hl12 : heap w2 !! New_options_loc w = Some o2) by apply lookup_insert_eq.
  assert (Hdiff : New_options_loc w <> New_options_loc w2) by congruence.
  exists s1, e1, w1, w2, s2, e2, w3. split; [exact HN1|]. split; [exact Hput|].
  split; [exact HN2|]. split; [congruence|]. split.
  - rewrite Hopt1. simpl. rewrite Hheap2.
    rewrite lookup_insert_ne by congruence.
    rewrite lookup_insert_ne; [exact Hl12|].
    intros E. pose proof (is_fresh (dom (heap w2))) as Hfr.
    apply not_elem_of_dom in Hfr.
    assert (heap w2 !! New_options_loc w = None) by (rewrite <- E; exact Hfr). congruence.
  - rewrite Hopt2. simpl. rewrite Hheap2. apply lookup_insert_eq.
Qed.

(** A store that [NewMongoDBStore] returns has default options that exist:
    the ones given, or the ones made up for [nil]. *)
Lemma NewMongoDBStore_defaults_exist o p lg cs w store w' :
  NewMongoDBStore o p lg cs w = Some ((Some store, None), w') ->
  p = None \/ (exists d, opts_at w p = Some d) ->
  (exists d, opts_at w' (defaultOptions store) = Some d) /\ codecs store = cs.
Proof.
  unfold NewMongoDBStore, ensureConnection, mongo_Ping, next_fault.
  unfold mbind at 1, M_bind at 1.
  set (lg' := if negb (Enabled (Options_Logging o)) then NopLogger else lg).
  destruct (head_fault w) as [e|].
  { unfold_m. destruct (Log_run lg' LError "failed to create connection to mongo" (pop_fault w))
      as (w1 & -> & _). discriminate. }
  destruct (Validate o); [discriminate|].
  unfold mbind at 1, M_bind at 1.
  assert (Hidx : exists r w1,
             (if EnsureTTLIndex (Options_TTLOptions o)
              then ensureTTLIndex (TTL (Options_TTLOptions o))
              else mret None) (pop_fault w) = Some (r, w1) /\ heap w1 = heap w).
  { destruct (EnsureTTLIndex (Options_TTLOptions o)).
    - unfold ensureTTLIndex, mongo_CreateOne, next_fault. unfold_m.
      destruct (head_fault (pop_fault w)); eexists _, _; split; reflexivity.
    - eexists _, _. split; reflexivity. }
  destruct Hidx as (ri & w1 & -> & Hh1).
  destruct ri as [e|].
  { unfold_m. destruct (Log_run lg' LError "failed to ensure TTL index" w1)
      as (w2 & -> & _). discriminate. }
  unfold mbind at 1, M_bind at 1.
  destruct p as [l|].
  - unfold mret at 1, M_ret at 1. unfold_m.
    destruct (Log_run lg' LInfo "cookie options" w1) as (w2 & -> & Hfr & _).
    intros [= <- <-] [|(d & Hd)]; [discriminate|]. simpl. split; [|done].
    exists d. simpl in Hd. destruct Hfr as (-> & _). now rewrite Hh1.
  - unfold mbind at 1, M_bind at 1. unfold alloc_opts.
    unfold mbind at 1, M_bind at 1.
    match goal with |- context [Log lg' LDebug ?m ?x] =>
      destruct (Log_run lg' LDebug m x) as (w2 & -> & Hfr2 & _) end.
    unfold mret at 1, M_ret at 1. unfold mbind at 1, M_bind at 1.
    destruct (Log_run lg' LInfo "cookie options" w2) as (w3 & -> & Hfr3 & _).
    unfold_m. intros [= <- <-] _. simpl. split; [|done].
    eexists. destruct Hfr3 as (-> & _). destruct Hfr2 as (-> & _). simpl.
    apply lookup_insert_eq.
Qed.

(** ** The unique identifiers of the collection are an invariant *)

Lemma delete_unique store sid w err w' :
  unique_ids (docs w) ->
  delete store sid w = Some (err, w') ->
  unique_ids (docs w').
Proof.
  intros Hu Hdel.
  destruct (delete_run store sid w) as (err2 & w2 & Hdel2 & _ & Hcase).
  rewrite Hdel in Hdel2. injection Hdel2 as <- <-.
  destruct (primitive_ObjectIDFromHex sid) as [e|oid].
  { destruct Hcase as (_ & ->). exact Hu. }
  destruct Hcase as (_ & Hcase). destruct (head_fault w).
  { destruct Hcase as (_ & ->). exact Hu. }
  destruct (delete_first oid (docs w)) as [ds|] eqn:Hdf.
  - destruct Hcase as (_ & ->). now apply (delete_first_gone oid (docs w) ds Hu Hdf).
  - destruct Hcase as (_ & ->). exact Hu.
Qed.

(** [Save] keeps the identifiers of the collection unique, whatever it
    returns. *)
Lemma Save_preserves_unique_ids store r rw sess w o res w' :
  opts_at w (SOptions sess) = Some o ->
  unique_ids (docs w) ->
  Save store r rw sess w = Some (res, w') ->
  unique_ids (docs w').
Proof.
  intros Ho Hu HS. destruct (Z.le_gt_cases (MaxAge o) 0) as [Hle|Hpos].
  - revert HS. unfold Save. unfold mbind at 1, M_bind at 1.
    rewrite (get_opts_run _ _ _ Ho).
    destruct (Z.leb_spec (MaxAge o) 0) as [_|]; [|lia].
    unfold mbind at 1, M_bind at 1.
    destruct (clearSession_run store rw sess w o Ho)
      as (err & c & w1 & -> & _ & _ & _ & _ & _ & Hnew & Hold).
    unfold_m. intros [= <- <-].
    destruct (IsNew sess).
    + destruct (Hnew eq_refl) as (_ & -> & _). exact Hu.
    + destruct (Hold eq_refl) as (wd & Hdel & -> & _).
      now apply (delete_unique store (ID sess) w err wd).
  - destruct (Save_positive_run store r rw sess w o Ho Hpos)
      as (err & rw' & sess' & w1 & HS1 & _ & _ & _ & _ & _ & Hcase).
    rewrite HS in HS1. injection HS1 as -> ->.
    destruct (primitive_ObjectIDFromHex (saved_ID sess w)).
    { destruct Hcase as (_ & _ & -> & _). exact Hu. }
    destruct (securecookie_EncodeMulti (name sess) (PValues (SValues sess)) (codecs store)).
    { destruct Hcase as (_ & _ & -> & _). exact Hu. }
    destruct (head_fault w).
    { destruct Hcase as (_ & _ & -> & _). exact Hu. }
    destruct Hcase as (_ & (lm & ->) & _). now apply upsert_unique.
Qed.

(** * Further properties of the store *)

(** ** Exact steps *)

Lemma NewCookie_exact key value p w o :
  opts_at w p = Some o ->
  sessions_NewCookie key value p w =
  Some ({| CName := key; CValue := value; CPath := Path o; CDomain := Domain o;
           CExpires := if 0 <? MaxAge o then Some (now w + MaxAge o * Second)
                       else if MaxAge o <? 0 then Some Second else None;
           CMaxAge := MaxAge o; CSecure := Secure o; CHttpOnly := HttpOnly o;
           CSameSite := SameSite o |},
        if 0 <? MaxAge o then set_now (now w + 1) w else w).
Proof.
  intros Ho. unfold sessions_NewCookie. unfold mbind at 1, M_bind at 1.
  rewrite (get_opts_run _ _ _ Ho).
  destruct (0 <? MaxAge o); [reflexivity|].
  destruct (MaxAge o <? 0); reflexivity.
Qed.

Lemma save_ok store sess w oid data :
  primitive_ObjectIDFromHex (ID sess) = inr oid ->
  securecookie_EncodeMulti (name sess) (PValues (SValues sess)) (codecs store) = inr data ->
  head_fault w = None ->
  exists w',
    save store sess w = Some (None, w') /\
    heap w' = heap w /\ docs w' = upsert oid data (now w + 1) (docs w) /\
    faults w' = tail (faults w) /\ now w' = now w + 2 /\ logs w' = logs w /\
    oid_counter w' = oid_counter w /\ indexes w' = indexes w.
Proof.
  intros Hid Hval Hf.
  unfold save, sessionFromGorillaSession. rewrite Hid, Hval.
  unfold currentTime, time_Now, saveSession, updateDocFromSession, mongo_UpdateOne,
    next_fault. unfold_m. simpl.
  rewrite !head_fault_set_now, Hf.
  eexists. split; [reflexivity|]. simpl. repeat split. lia.
Qed.

Lemma session_fields (s s' : sessions_Session) :
  ID s' = ID s -> SValues s' = SValues s -> SOptions s' = SOptions s ->
  IsNew s' = IsNew s -> name s' = name s -> s' = s.
Proof. destruct s, s'. simpl. intros -> -> -> -> ->. reflexivity. Qed.

(** ** Save: the normal path *)

(** The normal path of [Save], step by step. *)
Lemma Save_ok_exact
    (store : MongoDBStore) (r : Request) (rw : ResponseWriter)
    (sess : sessions_Session) (w : World) (o : sessions_Options)
    (oid : ObjectID) (data tok : string) :
  opts_at w (SOptions sess) = Some o ->
  0 < MaxAge o ->
  primitive_ObjectIDFromHex (saved_ID sess w) = inr oid ->
  securecookie_EncodeMulti (name sess) (PValues (SValues sess)) (codecs store) = inr data ->
  driver_ok 1 w = true ->
  securecookie_EncodeMulti (name sess) (PString (saved_ID sess w)) (codecs store) = inr tok ->
  exists w' d,
    Save store r rw sess w =
    Some ((None,
           http_SetCookie rw
             {| CName := name sess; CValue := tok; CPath := Path o; CDomain := Domain o;
                CExpires := Some (now w + 2 + MaxAge o * Second);
                CMaxAge := MaxAge o; CSecure := Secure o; CHttpOnly := HttpOnly o;
                CSameSite := SameSite o |},
           with_IsNew false (with_ID (saved_ID sess w) sess)), w') /\
    find_first oid (docs w') = Some d /\
    doc_id d = oid /\ doc_data d = data /\ doc_last_modified d = now w + 1 /\
    docs w' = upsert oid data (now w + 1) (docs w) /\
    heap w' = heap w /\ faults w' = tail (faults w) /\ logs w' = logs w.
Proof.
  intros Ho Hpos Hid Hval Hok Henc.
  assert (Hf : head_fault w = None) by now apply (driver_ok_head 0).
  unfold Save. unfold mbind at 1, M_bind at 1.
  rewrite (get_opts_run _ _ _ Ho).
  destruct (Z.leb_spec (MaxAge o) 0) as [|_]; [lia|].
  unfold mbind at 1, M_bind at 1.
  set (sess1 := with_ID (saved_ID sess w) sess).
  assert (Hstep : exists w1,
             (if String.eqb (ID sess) ""
              then oid0 ← primitive_NewObjectID; mret (with_ID (primitive_Hex oid0) sess)
              else mret sess) w = Some (sess1, w1) /\
             heap w1 = heap w /\ docs w1 = docs w /\ faults w1 = faults w /\
             now w1 = now w /\ logs w1 = logs w).
  { subst sess1. unfold saved_ID. destruct (String.eqb (ID sess) "").
    - eexists. split; [reflexivity|]. repeat split.
    - rewrite with_ID_same. eexists. split; [reflexivity|]. repeat split. }
  destruct Hstep as (w1 & -> & Hh1 & Hd1 & Hf1 & Hn1 & Hl1).
  unfold mbind at 1, M_bind at 1.
  assert (Hf' : head_fault w1 = None) by (unfold head_fault in *; now rewrite Hf1).
  destruct (save_ok store sess1 w1 oid data Hid Hval Hf')
    as (w2 & -> & Hh2 & Hd2 & Hf2 & Hn2 & Hl2 & _).
  cbv zeta. change (name (with_IsNew false sess1)) with (name sess).
  change (ID (with_IsNew false sess1)) with (saved_ID sess w). rewrite Henc.
  unfold mbind at 1, M_bind at 1.
  assert (Ho2 : opts_at w2 (SOptions (with_IsNew false sess1)) = Some o).
  { change (SOptions (with_IsNew false sess1)) with (SOptions sess).
    rewrite (opts_at_heap w w2); [done | congruence]. }
  rewrite (NewCookie_exact _ _ _ _ _ Ho2).
  destruct (Z.ltb_spec 0 (MaxAge o)) as [_|]; [|lia].
  unfold mret, M_ret. rewrite Hn2, Hn1.
  destruct (find_first_upsert oid data (now w + 1) (docs w)) as (d & Hfd & Hdi & Hdd & Hdl).
  eexists _, d. split; [reflexivity|]. simpl.
  rewrite Hd2, Hd1, Hn1. repeat split; try done; congruence.
Qed.



(** ** Save: failures before the record is written *)

(** [Save] with a positive max-age, once the identifier is fixed. *)
Lemma Save_positive_unfold store r rw sess w o :
  opts_at w (SOptions sess) = Some o ->
  0 < MaxAge o ->
  exists w1,
    heap w1 = heap w /\ docs w1 = docs w /\ faults w1 = faults w /\
    indexes w1 = indexes w /\ logs w1 = logs w /\ now w1 = now w /\
    Save store r rw sess w =
    (err ← save store (with_ID (saved_ID sess w) sess);
     match err with
     | Some e => mret (Some e, rw, with_ID (saved_ID sess w) sess)
     | None =>
         let sess := with_IsNew false (with_ID (saved_ID sess w) sess) in
         match securecookie_EncodeMulti (name sess) (PString (ID sess)) (codecs store) with
         | inl e =>
             Log (logger store) LError "failed to encode session ID";;
             mret (Some e, rw, sess)
         | inr encodedID =>
             c ← sessions_NewCookie (name sess) encodedID (SOptions sess);
             mret (None, http_SetCookie rw c, sess)
         end
     end) w1.
Proof.
  intros Ho Hpos. unfold Save. unfold mbind at 1, M_bind at 1.
  rewrite (get_opts_run _ _ _ Ho).
  destruct (Z.leb_spec (MaxAge o) 0) as [|_]; [lia|].
  unfold mbind at 1, M_bind at 1. unfold saved_ID.
  destruct (String.eqb (ID sess) "").
  - exists (set_oid_counter (oid_counter w + 1)%N w). repeat split.
  - rewrite with_ID_same. exists w. repeat split.
Qed.

(** X2.  [Save] with a positive max-age whose translation of the session
    fails, on the identifier first and on the encoding of the values
    second, returns that error without calling the backing store: the
    collection and the script of the store are as before, no cookie is set,
    and the session keeps its [IsNew]. *)
Theorem X2_Save_translation_failure
    (store : MongoDBStore) (r : Request) (rw : ResponseWriter)
    (sess : sessions_Session) (w : World) (o : sessions_Options) (e : error) :
  opts_at w (SOptions sess) = Some o ->
  0 < MaxAge o ->
  match primitive_ObjectIDFromHex (saved_ID sess w) with
  | inl e0 => e = e0
  | inr _ =>
      securecookie_EncodeMulti (name sess) (PValues (SValues sess)) (codecs store) = inl e
  end ->
  exists w',
    Save store r rw sess w = Some ((Some e, rw, with_ID (saved_ID sess w) sess), w') /\
    docs w' = docs w /\ faults w' = faults w /\ heap w' = heap w /\
    indexes w' = indexes w.
Proof.
  intros Ho Hpos Hfail.
  destruct (Save_positive_unfold store r rw sess w o Ho Hpos)
    as (w1 & Hh1 & Hd1 & Hf1 & Hi1 & _ & _ & ->).
  unfold mbind at 1, M_bind at 1.
  destruct (save_run store (with_ID (saved_ID sess w) sess) w1)
    as (err & w2 & -> & Hfr & Hcase).
  change (ID (with_ID (saved_ID sess w) sess)) with (saved_ID sess w) in Hcase.
  change (name (with_ID (saved_ID sess w) sess)) with (name sess) in Hcase.
  change (SValues (with_ID (saved_ID sess w) sess)) with (SValues sess) in Hcase.
  destruct Hfr as (Hh2 & Hi2 & _).
  destruct (primitive_ObjectIDFromHex (saved_ID sess w)) as [e0|oid].
  - subst e0. destruct Hcase as (-> & Hd2 & Hf2). unfold_m.
    eexists. split; [reflexivity|]. repeat split; congruence.
  - rewrite Hfail in Hcase. destruct Hcase as (-> & Hd2 & Hf2). unfold_m.
    eexists. split; [reflexivity|]. repeat split; congruence.
Qed.

(** X2 with a store without codecs, an identifier that is not hexadecimal
    and a backing store that would refuse: the identifier error wins and the
    backing store is not called. *)
Lemma X2_Save_translation_failure_witness :
  exists w',
    Save testStoreNoCodecs noCookieRequest emptyResponse
      (mkSession "abcdee" "key" ∅ 1%N true)
      (testWorld 50 [testDoc] [Some (DriverError "unreachable")])
    = Some ((Some ErrInvalidHex, emptyResponse, mkSession "abcdee" "key" ∅ 1%N true), w') /\
    docs w' = [testDoc] /\ faults w' = [Some (DriverError "unreachable")].
Proof.
  assert (Ho : opts_at (testWorld 50 [testDoc] [Some (DriverError "unreachable")])
                 (SOptions (mkSession "abcdee" "key" ∅ 1%N true))
               = Some (optionsWithMaxAge 50)) by reflexivity.
  assert (Hpos : 0 < MaxAge (optionsWithMaxAge 50)) by (simpl; lia).
  destruct (X2_Save_translation_failure testStoreNoCodecs noCookieRequest emptyResponse
              (mkSession "abcdee" "key" ∅ 1%N true)
              (testWorld 50 [testDoc] [Some (DriverError "unreachable")])
              (optionsWithMaxAge 50) ErrInvalidHex Ho Hpos eq_refl)
    as (w' & HS & Hd & Hf & _).
  exists w'. split; [exact HS|]. split; [exact Hd | exact Hf].
Defined.

(** X3.  [Save] with a positive max-age whose upsert the backing store
    refuses returns the error of the store: nothing is written, no cookie is
    set and the session keeps its [IsNew], so a retry starts from the same
    state. *)
Theorem X3_Save_upsert_failure
    (store : MongoDBStore) (r : Request) (rw : ResponseWriter)
    (sess : sessions_Session) (w : World) (o : sessions_Options)
    (oid : ObjectID) (data : string) (e : error) :
  opts_at w (SOptions sess) = Some o ->
  0 < MaxAge o ->
  primitive_ObjectIDFromHex (saved_ID sess w) = inr oid ->
  securecookie_EncodeMulti (name sess) (PValues (SValues sess)) (codecs store) = inr data ->
  head_fault w = Some e ->
  exists w',
    Save store r rw sess w = Some ((Some e, rw, with_ID (saved_ID sess w) sess), w') /\
    docs w' = docs w /\ faults w' = tail (faults w) /\ heap w' = heap w.
Proof.
  intros Ho Hpos Hid Hval Hf.
  destruct (Save_positive_unfold store r rw sess w o Ho Hpos)
    as (w1 & Hh1 & Hd1 & Hf1 & Hi1 & _ & _ & ->).
  unfold mbind at 1, M_bind at 1.
  destruct (save_run store (with_ID (saved_ID sess w) sess) w1)
    as (err & w2 & -> & Hfr & Hcase).
  change (ID (with_ID (saved_ID sess w) sess)) with (saved_ID sess w) in Hcase.
  change (name (with_ID (saved_ID sess w) sess)) with (name sess) in Hcase.
  change (SValues (with_ID (saved_ID sess w) sess)) with (SValues sess) in Hcase.
  rewrite Hid, Hval in Hcase.
  assert (Hf' : head_fault w1 = Some e) by (unfold head_fault in *; now rewrite Hf1).
  rewrite Hf' in Hcase. destruct Hcase as (Hfl & -> & Hd2).
  destruct Hfr as (Hh2 & _). unfold_m.
  eexists. split; [reflexivity|]. repeat split; congruence.
Qed.

(** X3 with a store that refuses the upsert. *)
Lemma X3_Save_upsert_failure_witness :
  exists w',
    Save testStore noCookieRequest emptyResponse
      (mkSession testID "key" ∅ 1%N true)
      (testWorld 50 [] [Some (DriverError "context canceled")])
    = Some ((Some (DriverError "context canceled"), emptyResponse,
             mkSession testID "key" ∅ 1%N true), w') /\
    docs w' = [] /\ faults w' = [].
Proof.
  assert (Ho : opts_at (testWorld 50 [] [Some (DriverError "context canceled")])
                 (SOptions (mkSession testID "key" ∅ 1%N true))
               = Some (optionsWithMaxAge 50)) by reflexivity.
  assert (Hpos : 0 < MaxAge (optionsWithMaxAge 50)) by (simpl; lia).
  destruct (X3_Save_upsert_failure testStore noCookieRequest emptyResponse
              (mkSession testID "key" ∅ 1%N true)
              (testWorld 50 [] [Some (DriverError "context canceled")])
              (optionsWithMaxAge 50) testOID "v" (DriverError "context canceled")
              Ho Hpos eq_refl eq_refl eq_refl)
    as (w' & HS & Hd & Hf & _).
  exists w'. split; [exact HS|]. split; [exact Hd | exact Hf].
Defined.

(** ** Save: the identifier it generates *)

Lemma Hex_length (bs : list N) :
  String.length (primitive_Hex bs) = (2 * length bs)%nat.
Proof. induction bs as [|b bs IH]; simpl; [done|]. rewrite IH. lia. Qed.

(** X4.  A session without identifier gets one from [Save] (positive
    max-age) before anything else, and keeps it whatever [Save] returns: 24
    hexadecimal digits that [ObjectIDFromHex] accepts.  So with values and
    identifier that the codecs encode and a backing store that answers,
    [Save] of a session without identifier succeeds and the record is stored
    under the generated identifier. *)
Theorem X4_Save_generates_identifier
    (store : MongoDBStore) (r : Request) (rw : ResponseWriter)
    (sess : sessions_Session) (w : World) (o : sessions_Options) :
  opts_at w (SOptions sess) = Some o ->
  0 < MaxAge o ->
  ID sess = "" ->
  exists err rw' sess' w' oid,
    Save store r rw sess w = Some ((err, rw', sess'), w') /\
    primitive_ObjectIDFromHex (ID sess') = inr oid /\
    String.length (ID sess') = 24%nat /\
    (forall data tok,
       securecookie_EncodeMulti (name sess) (PValues (SValues sess)) (codecs store) = inr data ->
       securecookie_EncodeMulti (name sess) (PString (ID sess')) (codecs store) = inr tok ->
       driver_ok 1 w = true ->
       err = None /\ IsNew sess' = false /\
       exists d, find_first oid (docs w') = Some d /\ doc_data d = data).
Proof.
  intros Ho Hpos Hempty.
  assert (Hsid : saved_ID sess w = primitive_Hex (be_bytes 12 (oid_counter w))).
  { unfold saved_ID. now rewrite Hempty. }
  destruct (Save_positive_run store r rw sess w o Ho Hpos)
    as (err & rw' & sess' & w' & HS & _ & HID & _ & _ & _ & Hcase).
  exists err, rw', sess', w', (be_bytes 12 (oid_counter w)).
  split; [exact HS|]. rewrite HID, Hsid.
  split; [apply ObjectIDFromHex_NewObjectID|].
  split; [now rewrite Hex_length, be_bytes_length|].
  intros data tok Hval Henc Hok.
  rewrite Hsid, ObjectIDFromHex_NewObjectID, Hval, (driver_ok_head _ _ Hok), Henc in Hcase.
  destruct Hcase as (Hnew & (lm & Hdocs) & -> & _).
  split; [done|]. split; [done|].
  destruct (find_first_upsert (be_bytes 12 (oid_counter w)) data lm (docs w))
    as (d & Hf & _ & Hdd & _).
  exists d. now rewrite Hdocs.
Qed.

(** X4 on a session as [sessions.NewSession] leaves it, with max-age 50. *)
Lemma X4_Save_generates_identifier_witness :
  exists rw' sess' w' d,
    Save testStore noCookieRequest emptyResponse
      (mkSession "" "key" {["key" := "value"]} 1%N true) (testWorld 50 [] [])
    = Some ((None, rw', sess'), w') /\
    ID sess' = "000000000000000000000008" /\
    find_first (be_bytes 12 8) (docs w') = Some d /\ doc_data d = "vvalue".
Proof.
  assert (Ho : opts_at (testWorld 50 [] [])
                 (SOptions (mkSession "" "key" {["key" := "value"]} 1%N true))
               = Some (optionsWithMaxAge 50)) by reflexivity.
  assert (Hpos : 0 < MaxAge (optionsWithMaxAge 50)) by (simpl; lia).
  destruct (X4_Save_generates_identifier testStore noCookieRequest emptyResponse
              (mkSession "" "key" {["key" := "value"]} 1%N true) (testWorld 50 [] [])
              (optionsWithMaxAge 50) Ho Hpos eq_refl)
    as (err & rw' & sess' & w' & oid & HS & Hid & _ & Hok).
  assert (HID : ID sess' = "000000000000000000000008").
  { vm_compute in HS. injection HS as _ _ <- _. reflexivity. }
  rewrite HID in Hid, Hok. vm_compute in Hid. injection Hid as <-.
  destruct (Hok "vvalue" "s000000000000000000000008" eq_refl eq_refl eq_refl)
    as (-> & _ & d & Hf & Hd).
  exists rw', sess', w', d. split; [exact HS|]. split; [exact HID|].
  split; [exact Hf | exact Hd].
Defined.

(** ** Save: the records of other sessions *)

Lemma find_first_update_ne id id' data lm ds ds' :
  id' <> id ->
  update_first id data lm ds = Some ds' ->
  find_first id' ds' = find_first id' ds /\ count_id id' ds' = count_id id' ds.
Proof.
  intros Hne. revert ds'. induction ds as [|d ds IH]; intros ds'; simpl; [discriminate|].
  destruct (decide (doc_id d = id)) as [E|NE].
  - intros [= <-]. simpl. rewrite !count_id_cons. simpl.
    rewrite !decide_False by congruence. done.
  - destruct (update_first id data lm ds) as [r|]; [|discriminate].
    intros [= <-]. simpl. rewrite !count_id_cons.
    destruct (IH r eq_refl) as (Hf & Hc).
    destruct (decide (doc_id d = id')); [now rewrite Hc | done].
Qed.

Lemma find_first_upsert_ne id id' data lm ds :
  id' <> id ->
  find_first id' (upsert id data lm ds) = find_first id' ds /\
  count_id id' (upsert id data lm ds) = count_id id' ds.
Proof.
  intros Hne. unfold upsert.
  destruct (update_first id data lm ds) as [ds'|] eqn:E.
  - now apply (find_first_update_ne id id' data lm ds ds').
  - split.
    + induction ds as [|d ds IH]; simpl.
      * rewrite decide_False by congruence. done.
      * simpl in E. destruct (decide (doc_id d = id)); [discriminate|].
        destruct (update_first id data lm ds); [discriminate|].
        destruct (decide (doc_id d = id')); [done | now apply IH].
    + rewrite count_id_app, count_id_cons. simpl.
      rewrite decide_False by congruence.
      change (count_id id' []) with 0%nat. lia.
Qed.

Lemma find_first_delete_ne id id' ds ds' :
  id' <> id ->
  delete_first id ds = Some ds' ->
  find_first id' ds' = find_first id' ds /\ count_id id' ds' = count_id id' ds.
Proof.
  intros Hne. revert ds'. induction ds as [|d ds IH]; intros ds'; simpl; [discriminate|].
  destruct (decide (doc_id d = id)) as [E|NE].
  - intros [= <-]. rewrite count_id_cons. rewrite !decide_False by congruence. done.
  - destruct (delete_first id ds) as [r|]; [|discriminate].
    intros [= <-]. simpl. rewrite !count_id_cons.
    destruct (IH r eq_refl) as (Hf & Hc).
    destruct (decide (doc_id d = id')); [now rewrite Hc | done].
Qed.

(** X5.  [Save] writes or removes only the record of its own session: a
    record under any other identifier is found as before, and there are as
    many of them as before, whatever the max-age and whatever [Save]
    returns. *)
Theorem X5_Save_other_records
    (store : MongoDBStore) (r : Request) (rw : ResponseWriter)
    (sess : sessions_Session) (w : World) (o : sessions_Options)
    (res : option error * ResponseWriter * sessions_Session) (w' : World)
    (oid' : ObjectID) :
  opts_at w (SOptions sess) = Some o ->
  Save store r rw sess w = Some (res, w') ->
  primitive_ObjectIDFromHex (saved_ID sess w) <> inr oid' ->
  find_first oid' (docs w') = find_first oid' (docs w) /\
  count_id oid' (docs w') = count_id oid' (docs w).
Proof.
  intros Ho HS Hother. destruct (Z.le_gt_cases (MaxAge o) 0) as [Hle|Hpos].
  - revert HS. unfold Save. unfold mbind at 1, M_bind at 1.
    rewrite (get_opts_run _ _ _ Ho).
    destruct (Z.leb_spec (MaxAge o) 0) as [_|]; [|lia].
    unfold mbind at 1, M_bind at 1.
    destruct (clearSession_run store rw sess w o Ho)
      as (err & c & w1 & -> & _ & _ & _ & _ & _ & Hnew & Hold).
    unfold_m. intros [= <- <-].
    destruct (IsNew sess).
    { destruct (Hnew eq_refl) as (_ & -> & _). done. }
    destruct (Hold eq_refl) as (wd & Hdel & -> & _).
    destruct (delete_run store (ID sess) w) as (err2 & wd2 & Hdel2 & _ & Hcase).
    rewrite Hdel in Hdel2. injection Hdel2 as <- <-.
    destruct (primitive_ObjectIDFromHex (ID sess)) as [e|oid] eqn:Hid.
    { destruct Hcase as (_ & ->). done. }
    rewrite (saved_ID_nonempty _ _ (ObjectIDFromHex_nonempty _ _ Hid)), Hid in Hother.
    destruct Hcase as (_ & Hcase). destruct (head_fault w).
    { destruct Hcase as (_ & ->). done. }
    destruct (delete_first oid (docs w)) as [ds|] eqn:Hdf.
    + destruct Hcase as (_ & ->).
      apply (find_first_delete_ne oid oid' (docs w) ds); congruence.
    + destruct Hcase as (_ & ->). done.
  - destruct (Save_positive_run store r rw sess w o Ho Hpos)
      as (err & rw' & sess' & w1 & HS1 & _ & _ & _ & _ & _ & Hcase).
    rewrite HS in HS1. injection HS1 as -> ->.
    destruct (primitive_ObjectIDFromHex (saved_ID sess w)) as [e|oid].
    { destruct Hcase as (_ & _ & -> & _). done. }
    destruct (securecookie_EncodeMulti (name sess) (PValues (SValues sess)) (codecs store)).
    { destruct Hcase as (_ & _ & -> & _). done. }
    destruct (head_fault w).
    { destruct Hcase as (_ & _ & -> & _). done. }
    destruct Hcase as (_ & (lm & ->) & _).
    apply find_first_upsert_ne. congruence.
Qed.

(** A record of another session. *)
Lemma X5_Save_other_records_witness :
  exists res w',
    Save testStore noCookieRequest emptyResponse
      (mkSession testID "key" {["key" := "new"]} 1%N false)
      (testWorld 50
         [testDoc; {| doc_id := be_bytes 12 3; doc_data := "vother";
                      doc_last_modified := 2 |}] [])
    = Some (res, w') /\
    find_first (be_bytes 12 3) (docs w')
    = Some {| doc_id := be_bytes 12 3; doc_data := "vother"; doc_last_modified := 2 |}.
Proof.
  assert (HS : exists res w',
             Save testStore noCookieRequest emptyResponse
               (mkSession testID "key" {["key" := "new"]} 1%N false)
               (testWorld 50
                  [testDoc; {| doc_id := be_bytes 12 3; doc_data := "vother";
                               doc_last_modified := 2 |}] [])
             = Some (res, w')).
  { eexists _, _. vm_compute. reflexivity. }
  destruct HS as (res & w' & HS).
  assert (Hother : primitive_ObjectIDFromHex
                     (saved_ID (mkSession testID "key" {["key" := "new"]} 1%N false)
                        (testWorld 50
                           [testDoc; {| doc_id := be_bytes 12 3; doc_data := "vother";
                                        doc_last_modified := 2 |}] []))
                   <> inr (be_bytes 12 3)) by (vm_compute; discriminate).
  assert (Ho : opts_at (testWorld 50
                          [testDoc; {| doc_id := be_bytes 12 3; doc_data := "vother";
                                       doc_last_modified := 2 |}] [])
                 (SOptions (mkSession testID "key" {["key" := "new"]} 1%N false))
               = Some (optionsWithMaxAge 50)) by reflexivity.
  destruct (X5_Save_other_records testStore noCookieRequest emptyResponse _ _
              (optionsWithMaxAge 50) res w' (be_bytes 12 3) Ho HS Hother)
    as (Hf & _).
  exists res, w'. split; [exact HS|]. rewrite Hf. reflexivity.
Defined.

(** ** Save with a max-age of zero or less: the cookie and the errors *)

Lemma delete_find_None id ds :
  find_first id ds = None -> delete_first id ds = None.
Proof.
  induction ds as [|d ds IH]; simpl; [done|].
  destruct (decide (doc_id d = id)); [discriminate|].
  intros H. now rewrite (IH H).
Qed.

Lemma delete_clock store sid w err w' :
  delete store sid w = Some (err, w') -> now w' = now w /\ logs w' = logs w.
Proof.
  unfold delete. destruct (primitive_ObjectIDFromHex sid) as [e|oid].
  { unfold_m. now intros [= <- <-]. }
  unfold mongo_FindOneAndDelete, next_fault. unfold_m.
  destruct (head_fault w); [now intros [= <- <-]|].
  simpl. destruct (delete_first oid (docs w)); now intros [= <- <-].
Qed.

(** X6.  The cookie [Save] sets for a max-age of zero or less is always the
    same one, whatever the delete does: the name of the session, an empty
    value, the attributes of the options of the session, and an expiry in
    the past ([time.Unix(1, 0)]) exactly when the max-age is negative; with
    a max-age of 0 it has no expiry.  The clock is not read and the options
    are untouched. *)
Theorem X6_Save_clearing_cookie
    (store : MongoDBStore) (r : Request) (rw : ResponseWriter)
    (sess : sessions_Session) (w : World) (o : sessions_Options) :
  opts_at w (SOptions sess) = Some o ->
  MaxAge o <= 0 ->
  exists err w',
    Save store r rw sess w
    = Some ((err, http_SetCookie rw (clearingCookie sess o), sess), w') /\
    heap w' = heap w /\ now w' = now w /\
    (CExpires (clearingCookie sess o) = None <-> MaxAge o = 0).
Proof.
  intros Ho Hle. unfold Save. unfold mbind at 1, M_bind at 1.
  rewrite (get_opts_run _ _ _ Ho).
  destruct (Z.leb_spec (MaxAge o) 0) as [_|]; [|lia].
  assert (Hexp : CExpires (clearingCookie sess o) = None <-> MaxAge o = 0).
  { simpl. destruct (Z.ltb_spec (MaxAge o) 0); split; intros; try done; lia. }
  assert (Hcookie : forall w0, heap w0 = heap w ->
            sessions_NewCookie (name sess) "" (SOptions sess) w0
            = Some (clearingCookie sess o, w0)).
  { intros w0 Hh. rewrite (NewCookie_exact _ _ _ _ o).
    - destruct (Z.ltb_spec 0 (MaxAge o)) as [|_]; [lia|]. reflexivity.
    - now rewrite (opts_at_heap w w0). }
  unfold mbind at 1, M_bind at 1. unfold clearSession.
  destruct (IsNew sess); simpl.
  - unfold mbind at 1, M_bind at 1. rewrite (Hcookie w eq_refl). unfold_m.
    eexists _, _. split; [reflexivity|]. done.
  - unfold mbind at 1, M_bind at 1.
    destruct (delete_run store (ID sess) w) as (err & wd & Hdel & Hfr & _).
    rewrite Hdel. destruct (delete_clock _ _ _ _ _ Hdel) as (Hn & _).
    destruct Hfr as (Hh & _).
    destruct err as [e|].
    + unfold mbind at 1, M_bind at 1.
      destruct (Log_run (logger store) LInfo "failed to delete session ID" wd)
        as (wl & -> & Hfrl & _ & _ & Hnl).
      destruct Hfrl as (Hhl & _).
      unfold mbind at 1, M_bind at 1. rewrite (Hcookie wl) by congruence. unfold_m.
      eexists _, _. split; [reflexivity|]. repeat split; try congruence; apply Hexp.
    + unfold mbind at 1, M_bind at 1. rewrite (Hcookie wd) by congruence. unfold_m.
      eexists _, _. split; [reflexivity|]. repeat split; try congruence; apply Hexp.
Qed.

(** X6 with a max-age of 0: no expiry on the cookie. *)
Lemma X6_Save_clearing_cookie_witness :
  exists err w',
    Save testStore noCookieRequest emptyResponse
      (mkSession testID "key" ∅ 1%N false) (testWorld 0 [testDoc] [])
    = Some ((err, http_SetCookie emptyResponse
                    (clearingCookie (mkSession testID "key" ∅ 1%N false)
                       (optionsWithMaxAge 0)),
             mkSession testID "key" ∅ 1%N false), w') /\
    CExpires (clearingCookie (mkSession testID "key" ∅ 1%N false) (optionsWithMaxAge 0))
    = None.
Proof.
  assert (Ho : opts_at (testWorld 0 [testDoc] [])
                 (SOptions (mkSession testID "key" ∅ 1%N false))
               = Some (optionsWithMaxAge 0)) by reflexivity.
  assert (Hle : MaxAge (optionsWithMaxAge 0) <= 0) by (simpl; lia).
  destruct (X6_Save_clearing_cookie testStore noCookieRequest emptyResponse
              (mkSession testID "key" ∅ 1%N false) (testWorld 0 [testDoc] [])
              (optionsWithMaxAge 0) Ho Hle) as (err & w' & HS & _ & _ & Hexp).
  exists err, w'. split; [exact HS|]. apply Hexp. reflexivity.
Defined.

(** [Save] with a max-age of zero or less of a session that is not new:
    its result is the result of [delete]. *)
Lemma Save_clear_run store r rw sess w o :
  opts_at w (SOptions sess) = Some o ->
  MaxAge o <= 0 ->
  IsNew sess = false ->
  exists err c w' wd,
    Save store r rw sess w = Some ((err, http_SetCookie rw c, sess), w') /\
    CName c = name sess /\ CValue c = "" /\
    delete store (ID sess) w = Some (err, wd) /\
    docs w' = docs wd /\ faults w' = faults wd /\ heap w' = heap w.
Proof.
  intros Ho Hle Hold. unfold Save. unfold mbind at 1, M_bind at 1.
  rewrite (get_opts_run _ _ _ Ho).
  destruct (Z.leb_spec (MaxAge o) 0) as [_|]; [|lia].
  unfold mbind at 1, M_bind at 1.
  destruct (clearSession_run store rw sess w o Ho)
    as (err & c & w' & -> & Hn & Hv & _ & _ & Hfr & _ & Hdel).
  destruct (Hdel Hold) as (wd & Hd & Hdocs & Hf).
  unfold_m. exists err, c, w', wd. split; [reflexivity|]. repeat split; try done.
  apply Hfr.
Qed.

(** X7.  Clearing a session is not idempotent: when [Save] with a max-age
    of zero or less has removed the record of a session that is not new, a
    second such [Save] (with the backing store answering) returns
    [ErrNoDocuments], still sets the clearing cookie and leaves the
    collection as it is. *)
Theorem X7_Save_clear_twice
    (store : MongoDBStore) (r1 r2 : Request) (rw rw1 : ResponseWriter)
    (sess sess1 : sessions_Session) (w w1 : World) (o : sessions_Options) :
  opts_at w (SOptions sess) = Some o ->
  MaxAge o <= 0 ->
  IsNew sess = false ->
  unique_ids (docs w) ->
  Save store r1 rw sess w = Some ((None, rw1, sess1), w1) ->
  driver_ok 1 w1 = true ->
  exists c w2,
    Save store r2 rw1 sess1 w1
    = Some ((Some ErrNoDocuments, http_SetCookie rw1 c, sess1), w2) /\
    CValue c = "" /\ docs w2 = docs w1.
Proof.
  intros Ho Hle Hold Hu HS1 Hok.
  destruct (Save_clear_run store r1 rw sess w o Ho Hle Hold)
    as (err & c & w' & wd & HS & _ & _ & Hdel & Hdocs & _ & Hh).
  rewrite HS1 in HS. injection HS as <- -> -> <-.
  destruct (delete_run store (ID sess) w) as (err2 & wd2 & Hdel2 & _ & Hcase).
  rewrite Hdel in Hdel2. injection Hdel2 as <- <-.
  destruct (primitive_ObjectIDFromHex (ID sess)) as [e|oid] eqn:Hid;
    [destruct Hcase as (? & _); discriminate|].
  destruct Hcase as (_ & Hcase).
  destruct (head_fault w); [destruct Hcase as (? & _); discriminate|].
  destruct (delete_first oid (docs w)) as [ds|] eqn:Hdf;
    [|destruct Hcase as (? & _); discriminate].
  destruct Hcase as (_ & Hwd).
  destruct (delete_first_gone oid (docs w) ds Hu Hdf) as (Hgone & _ & _).
  assert (Ho1 : opts_at w1 (SOptions sess) = Some o) by (rewrite (opts_at_heap w w1); done).
  destruct (Save_clear_run store r2 (http_SetCookie rw c) sess w1 o Ho1 Hle Hold)
    as (err2 & c2 & w2 & wd2 & HS2 & _ & Hv2 & Hdel2 & Hdocs2 & _ & _).
  destruct (delete_run store (ID sess) w1) as (err3 & wd3 & Hdel3 & _ & Hcase3).
  rewrite Hdel2 in Hdel3. injection Hdel3 as <- <-.
  rewrite Hid, (driver_ok_head _ _ Hok) in Hcase3. destruct Hcase3 as (_ & Hcase3).
  rewrite (delete_find_None oid (docs w1)) in Hcase3 by congruence.
  destruct Hcase3 as (-> & Hwd2).
  exists c2, w2. split; [exact HS2|]. split; [exact Hv2 | congruence].
Qed.

(** X7 on the record of the examples: removed by the first [Save], missed
    by the second. *)
Lemma X7_Save_clear_twice_witness :
  exists rw1 w1 c w2,
    Save testStore noCookieRequest emptyResponse
      (mkSession testID "key" ∅ 1%N false) (testWorld 0 [testDoc] [])
    = Some ((None, rw1, mkSession testID "key" ∅ 1%N false), w1) /\
    Save testStore noCookieRequest rw1 (mkSession testID "key" ∅ 1%N false) w1
    = Some ((Some ErrNoDocuments, http_SetCookie rw1 c,
             mkSession testID "key" ∅ 1%N false), w2).
Proof.
  assert (Ho : opts_at (testWorld 0 [testDoc] [])
                 (SOptions (mkSession testID "key" ∅ 1%N false))
               = Some (optionsWithMaxAge 0)) by reflexivity.
  assert (Hle : MaxAge (optionsWithMaxAge 0) <= 0) by (simpl; lia).
  assert (Hu : unique_ids (docs (testWorld 0 [testDoc] []))).
  { unfold unique_ids. simpl. apply NoDup_singleton. }
  assert (HS1 : exists rw1 w1,
             Save testStore noCookieRequest emptyResponse
               (mkSession testID "key" ∅ 1%N false) (testWorld 0 [testDoc] [])
             = Some ((None, rw1, mkSession testID "key" ∅ 1%N false), w1) /\
             driver_ok 1 w1 = true).
  { eexists _, _. split; [vm_compute; reflexivity | reflexivity]. }
  destruct HS1 as (rw1 & w1 & HS1 & Hok).
  destruct (X7_Save_clear_twice testStore noCookieRequest noCookieRequest emptyResponse
              rw1 _ _ _ w1 _ Ho Hle eq_refl Hu HS1 Hok) as (c & w2 & HS2 & _).
  exists rw1, w1, c, w2. split; [exact HS1 | exact HS2].
Defined.

(** X8.  [Save] with a max-age of zero or less of a session that is not new
    and whose identifier is malformed returns the identifier-format error
    without calling the backing store, and sets the clearing cookie all the
    same. *)
Theorem X8_Save_clear_malformed_identifier
    (store : MongoDBStore) (r : Request) (rw : ResponseWriter)
    (sess : sessions_Session) (w : World) (o : sessions_Options) (e : error) :
  opts_at w (SOptions sess) = Some o ->
  MaxAge o <= 0 ->
  IsNew sess = false ->
  primitive_ObjectIDFromHex (ID sess) = inl e ->
  exists c w',
    Save store r rw sess w = Some ((Some e, http_SetCookie rw c, sess), w') /\
    is_format_error e = true /\
    CName c = name sess /\ CValue c = "" /\
    docs w' = docs w /\ faults w' = faults w.
Proof.
  intros Ho Hle Hold Hid.
  destruct (Save_clear_run store r rw sess w o Ho Hle Hold)
    as (err & c & w' & wd & HS & Hn & Hv & Hdel & Hdocs & Hf & _).
  destruct (delete_run store (ID sess) w) as (err2 & wd2 & Hdel2 & _ & Hcase).
  rewrite Hdel in Hdel2. injection Hdel2 as <- <-.
  rewrite Hid in Hcase. destruct Hcase as (-> & ->).
  exists c, w'. split; [exact HS|].
  split; [now apply (ObjectIDFromHex_format (ID sess))|]. done.
Qed.

(** X8 on the session of the test [Save_BadID]. *)
Lemma X8_Save_clear_malformed_witness :
  exists c w',
    Save testStore noCookieRequest emptyResponse
      (mkSession "abcdee" "key" {["will not" := "save"]} 1%N false)
      (testWorld 0 [testDoc] [Some (DriverError "unreachable")])
    = Some ((Some ErrInvalidHex, http_SetCookie emptyResponse c,
             mkSession "abcdee" "key" {["will not" := "save"]} 1%N false), w') /\
    docs w' = [testDoc] /\ faults w' = [Some (DriverError "unreachable")].
Proof.
  assert (Ho : opts_at (testWorld 0 [testDoc] [Some (DriverError "unreachable")])
                 (SOptions (mkSession "abcdee" "key" {["will not" := "save"]} 1%N false))
               = Some (optionsWithMaxAge 0)) by reflexivity.
  assert (Hle : MaxAge (optionsWithMaxAge 0) <= 0) by (simpl; lia).
  destruct (X8_Save_clear_malformed_identifier testStore noCookieRequest emptyResponse
              (mkSession "abcdee" "key" {["will not" := "save"]} 1%N false)
              (testWorld 0 [testDoc] [Some (DriverError "unreachable")])
              (optionsWithMaxAge 0) ErrInvalidHex Ho Hle eq_refl eq_refl)
    as (c & w' & HS & _ & _ & _ & Hd & Hf).
  exists c, w'. split; [exact HS|]. split; [exact Hd | exact Hf].
Defined.

(** ** New: what each path does *)

Lemma head_fault_faults w w' : faults w' = faults w -> head_fault w' = head_fault w.
Proof. unfold head_fault. now intros ->. Qed.

Lemma driver_ok_next n w w' :
  driver_ok (S n) w = true -> faults w' = tail (faults w) -> driver_ok n w' = true.
Proof.
  intros Hok Hf. pose proof (driver_ok_pop _ _ Hok) as H.
  unfold driver_ok in *. now rewrite Hf.
Qed.

(** [load] calls the backing store once, and only for a well-formed
    identifier; it never reads the clock. *)
Lemma load_effects store sess w err sess' w' :
  load store sess w = Some ((err, sess'), w') ->
  now w' = now w /\
  faults w' = match primitive_ObjectIDFromHex (ID sess) with
              | inl _ => faults w
              | inr _ => tail (faults w)
              end.
Proof.
  unfold load. destruct (primitive_ObjectIDFromHex (ID sess)) as [e|oid].
  - unfold_m.
    destruct (Log_run (logger store) LDebug "invalid sessionID, must be BSON ID" w)
      as (w1 & -> & _ & _ & Hf & Hn). now intros [= <- <- <-].
  - unfold mongo_FindOne, next_fault. unfold_m.
    destruct (head_fault w) as [e|]; simpl.
    + destruct (Log_run (logger store) LError "failed to load allegedly existing session"
                  (pop_fault w)) as (w1 & -> & _ & _ & Hf & Hn). now intros [= <- <- <-].
    + destruct (find_first oid (docs w)) as [d|]; simpl.
      * destruct (securecookie_DecodeMulti as_values (name sess) (doc_data d) (codecs store));
          now intros [= <- <- <-].
      * destruct (Log_run (logger store) LError "failed to load allegedly existing session"
                    (pop_fault w)) as (w1 & -> & _ & _ & Hf & Hn). now intros [= <- <- <-].
Qed.

(** What [New] does to the world besides the heap: nothing to the
    collection, its indexes or the clock; one identifier is generated; the
    backing store is called at most once, and only when the cookie decodes
    to a well-formed identifier. *)
Lemma New_effects store r key w d res w' :
  opts_at w (defaultOptions store) = Some d ->
  New store r key w = Some (res, w') ->
  docs w' = docs w /\ indexes w' = indexes w /\ now w' = now w /\
  oid_counter w' = (oid_counter w + 1)%N /\
  faults w' = match Request_Cookie r key with
              | inl _ => faults w
              | inr cookieValue =>
                  match securecookie_DecodeMulti as_string key cookieValue (codecs store) with
                  | inl _ => faults w
                  | inr id =>
                      match primitive_ObjectIDFromHex id with
                      | inl _ => faults w
                      | inr _ => tail (faults w)
                      end
                  end
              end.
Proof.
  intros Hd. unfold New, sessions_NewSession, alloc_opts.
  unfold mbind at 1, M_bind at 1. unfold mbind at 1, M_bind at 1.
  unfold mret at 1, M_ret at 1.
  unfold mbind at 1, M_bind at 1. unfold primitive_NewObjectID at 1.
  unfold mbind at 1, M_bind at 1. unfold derefOpts.
  unfold mbind at 1, M_bind at 1.
  set (w1 := set_oid_counter _ _).
  assert (Hd1 : opts_at w1 (defaultOptions store) = Some d).
  { unfold opts_at in *. destruct (defaultOptions store) as [ld|]; [|done].
    subst w1. simpl. rewrite lookup_insert_ne; [done|].
    intros E. pose proof (is_fresh (dom (heap w))) as Hfr.
    apply not_elem_of_dom in Hfr.
    assert (Hnone : heap w !! ld = None) by (rewrite <- E; exact Hfr).
    congruence. }
  rewrite (get_opts_run _ _ _ Hd1). unfold alloc_opts.
  set (w2 := set_heap _ w1).
  set (sess0 := with_IsNew true _).
  destruct (Request_Cookie r key) as [e|cookieValue].
  { unfold_m. now intros [= <- <-]. }
  destruct (securecookie_DecodeMulti as_string key cookieValue (codecs store)) as [e|id].
  { unfold_m. now intros [= <- <-]. }
  unfold mbind at 1, M_bind at 1.
  destruct (load_cases store (with_ID id sess0) w2)
    as (lerr & lsess & lw & Hload & Hfr & Hdocs & _).
  rewrite Hload. destruct (load_effects _ _ _ _ _ _ Hload) as (Hn & Hf).
  change (ID (with_ID id sess0)) with id in Hf.
  destruct Hfr as (_ & Hi & Hc).
  assert (Hres : docs lw = docs w /\ indexes lw = indexes w /\ now lw = now w /\
                 oid_counter lw = (oid_counter w + 1)%N /\
                 faults lw = match primitive_ObjectIDFromHex id with
                             | inl _ => faults w
                             | inr _ => tail (faults w)
                             end).
  { repeat split; try done. }
  destruct lerr; unfold_m; now intros [= <- <-].
Qed.

(** X9.  Without a cookie of that name [New] returns no error and a session
    that is new: a generated identifier that [ObjectIDFromHex] accepts, no
    values, a copy of the default options.  The backing store is not
    called and the collection is not touched. *)
Theorem X9_New_without_cookie
    (store : MongoDBStore) (r : Request) (key : string) (w : World)
    (d : sessions_Options) (e0 : error) :
  opts_at w (defaultOptions store) = Some d ->
  Request_Cookie r key = inl e0 ->
  exists sess w',
    New store r key w = Some ((Some sess, None), w') /\
    IsNew sess = true /\ SValues sess = ∅ /\ name sess = key /\
    primitive_ObjectIDFromHex (ID sess) = inr (be_bytes 12 (oid_counter w)) /\
    opts_at w' (SOptions sess) = Some d /\
    docs w' = docs w /\ faults w' = faults w.
Proof.
  intros Hd Hc.
  destruct (New_run store r key w d Hd)
    as (sess & err & w' & HN & Hheap & Hdocs & Hopt & Hname & Hcase).
  destruct (New_effects store r key w d _ w' Hd HN) as (_ & _ & _ & _ & Hf).
  rewrite Hc in Hcase, Hf. destruct Hcase as (-> & HID & Hnew & Hv).
  exists sess, w'. split; [exact HN|]. repeat split; try done.
  - rewrite HID. apply ObjectIDFromHex_NewObjectID.
  - rewrite Hopt. simpl. rewrite Hheap. apply lookup_insert_eq.
Qed.

(** X9 on a request without cookies. *)
Lemma X9_New_without_cookie_witness :
  exists sess w',
    New testStore noCookieRequest "session-name" (testWorld 50 [testDoc] [])
    = Some ((Some sess, None), w') /\
    IsNew sess = true /\ ID sess = "000000000000000000000008".
Proof.
  assert (Hd : opts_at (testWorld 50 [testDoc] []) (defaultOptions testStore)
               = Some (optionsWithMaxAge 50)) by reflexivity.
  destruct (X9_New_without_cookie testStore noCookieRequest "session-name"
              (testWorld 50 [testDoc] []) (optionsWithMaxAge 50) ErrNoCookie Hd eq_refl)
    as (sess & w' & HN & Hnew & _).
  exists sess, w'. split; [exact HN|]. split; [exact Hnew|].
  vm_compute in HN. injection HN as <- _. reflexivity.
Defined.

(** X10.  When no codec of the store decodes the cookie, [New] returns the
    error of [DecodeMulti] with a session that is new and keeps the
    generated, well-formed identifier; the backing store is not called. *)
Theorem X10_New_undecodable_cookie
    (store : MongoDBStore) (r : Request) (key : string) (w : World)
    (d : sessions_Options) (cookieValue : string) (e : error) :
  opts_at w (defaultOptions store) = Some d ->
  Request_Cookie r key = inr cookieValue ->
  securecookie_DecodeMulti as_string key cookieValue (codecs store) = inl e ->
  exists sess w',
    New store r key w = Some ((Some sess, Some e), w') /\
    IsNew sess = true /\ SValues sess = ∅ /\ name sess = key /\
    primitive_ObjectIDFromHex (ID sess) = inr (be_bytes 12 (oid_counter w)) /\
    opts_at w' (SOptions sess) = Some d /\
    docs w' = docs w /\ faults w' = faults w.
Proof.
  intros Hd Hc Hdec.
  destruct (New_run store r key w d Hd)
    as (sess & err & w' & HN & Hheap & Hdocs & Hopt & Hname & Hcase).
  destruct (New_effects store r key w d _ w' Hd HN) as (_ & _ & _ & _ & Hf).
  rewrite Hc, Hdec in Hcase, Hf. destruct Hcase as (-> & HID & Hnew & Hv).
  exists sess, w'. split; [exact HN|]. repeat split; try done.
  - rewrite HID. apply ObjectIDFromHex_NewObjectID.
  - rewrite Hopt. simpl. rewrite Hheap. apply lookup_insert_eq.
Qed.

(** X10 on a cookie that was tampered with. *)
Lemma X10_New_undecodable_cookie_witness :
  exists sess w',
    New testStore badCookieRequest "key"
      (testWorld 50 [testDoc] [Some (DriverError "unreachable")])
    = Some ((Some sess,
             Some (MultiError [CodecError "securecookie: the value is not valid"])), w') /\
    IsNew sess = true /\ faults w' = [Some (DriverError "unreachable")].
Proof.
  assert (Hd : opts_at (testWorld 50 [testDoc] [Some (DriverError "unreachable")])
                 (defaultOptions testStore) = Some (optionsWithMaxAge 50)) by reflexivity.
  destruct (X10_New_undecodable_cookie testStore badCookieRequest "key"
              (testWorld 50 [testDoc] [Some (DriverError "unreachable")])
              (optionsWithMaxAge 50) "tampered"
              (MultiError [CodecError "securecookie: the value is not valid"])
              Hd eq_refl eq_refl)
    as (sess & w' & HN & Hnew & _ & _ & _ & _ & _ & Hf).
  exists sess, w'. split; [exact HN|]. split; [exact Hnew | exact Hf].
Defined.

(** X11.  When the cookie decodes to a well-formed identifier, the backing
    store answers with the record stored under it and the codecs decode its
    data, [New] returns no error and a session that is not new, with the
    identifier of the cookie, the decoded values and a copy of the default
    options; the collection is read, not written, with one driver
    operation. *)
Theorem X11_New_loads_session
    (store : MongoDBStore) (r : Request) (key : string) (w : World)
    (d : sessions_Options) (cookieValue id : string) (oid : ObjectID)
    (doc : document) (vals : Values) :
  opts_at w (defaultOptions store) = Some d ->
  Request_Cookie r key = inr cookieValue ->
  securecookie_DecodeMulti as_string key cookieValue (codecs store) = inr id ->
  primitive_ObjectIDFromHex id = inr oid ->
  driver_ok 1 w = true ->
  find_first oid (docs w) = Some doc ->
  securecookie_DecodeMulti as_values key (doc_data doc) (codecs store) = inr vals ->
  exists sess w',
    New store r key w = Some ((Some sess, None), w') /\
    ID sess = id /\ IsNew sess = false /\ SValues sess = vals /\ name sess = key /\
    opts_at w' (SOptions sess) = Some d /\
    docs w' = docs w /\ faults w' = tail (faults w).
Proof.
  intros Hd Hc Hdec Hid Hok Hfind Hvals.
  destruct (New_run store r key w d Hd)
    as (sess & err & w' & HN & Hheap & Hdocs & Hopt & Hname & Hcase).
  destruct (New_effects store r key w d _ w' Hd HN) as (_ & _ & _ & _ & Hf).
  rewrite Hc, Hdec, Hid in Hcase, Hf.
  rewrite (driver_ok_head _ _ Hok), Hfind, Hvals in Hcase.
  destruct Hcase as (HID & -> & Hnew & Hv).
  exists sess, w'. split; [exact HN|]. repeat split; try done.
  rewrite Hopt. simpl. rewrite Hheap. apply lookup_insert_eq.
Qed.

(** X11 on the record of the examples. *)
Lemma X11_New_loads_session_witness :
  exists sess w',
    New testStore testIDRequest "key" (testWorld 50 [testDoc] [])
    = Some ((Some sess, None), w') /\
    ID sess = testID /\ IsNew sess = false /\ SValues sess = {["key" := "value"]}.
Proof.
  assert (Hd : opts_at (testWorld 50 [testDoc] []) (defaultOptions testStore)
               = Some (optionsWithMaxAge 50)) by reflexivity.
  destruct (X11_New_loads_session testStore testIDRequest "key"
              (testWorld 50 [testDoc] []) (optionsWithMaxAge 50)
              (String "s" testID) testID testOID testDoc {["key" := "value"]}
              Hd eq_refl eq_refl eq_refl eq_refl eq_refl eq_refl)
    as (sess & w' & HN & HID & Hnew & Hv & _).
  exists sess, w'. repeat split; assumption.
Defined.

(** X12.  Whatever the request, [New] of a store whose default options
    exist returns, and it only reads: the collection, its indexes and the
    clock are as before and the backing store is called at most once.  The
    session is marked new in every case but one: a cookie was presented and
    no error is returned.  In particular every error comes with a session
    that is new. *)
Theorem X12_New_reads_only
    (store : MongoDBStore) (r : Request) (key : string) (w : World)
    (d : sessions_Options) :
  opts_at w (defaultOptions store) = Some d ->
  exists sess err w',
    New store r key w = Some ((Some sess, err), w') /\
    docs w' = docs w /\ indexes w' = indexes w /\ now w' = now w /\
    (faults w' = faults w \/ faults w' = tail (faults w)) /\
    (IsNew sess = false <->
     err = None /\ exists cookieValue, Request_Cookie r key = inr cookieValue) /\
    (err <> None -> IsNew sess = true).
Proof.
  intros Hd.
  destruct (New_run store r key w d Hd)
    as (sess & err & w' & HN & _ & _ & _ & _ & Hcase).
  destruct (New_effects store r key w d _ w' Hd HN) as (Hdocs & Hi & Hn & _ & Hf).
  exists sess, err, w'. split; [exact HN|].
  split; [exact Hdocs|]. split; [exact Hi|]. split; [exact Hn|].
  assert (Hnew : (IsNew sess = true /\ (err <> None \/ exists e0, Request_Cookie r key = inl e0))
                 \/ (IsNew sess = false /\ err = None /\
                     exists v, Request_Cookie r key = inr v)).
  { destruct (Request_Cookie r key) as [e0|v].
    { destruct Hcase as (_ & _ & -> & _). left. eauto. }
    destruct (securecookie_DecodeMulti as_string key v (codecs store)) as [e|id].
    { destruct Hcase as (-> & _ & -> & _). left. split; [done|]. now left. }
    destruct Hcase as (_ & Hcase).
    destruct (primitive_ObjectIDFromHex id) as [e|oid].
    { destruct Hcase as (-> & -> & _). left. split; [done|]. now left. }
    destruct (head_fault w).
    { destruct Hcase as (-> & -> & _). left. split; [done|]. now left. }
    destruct (find_first oid (docs w)) as [doc|].
    2:{ destruct Hcase as (-> & -> & _). left. split; [done|]. now left. }
    destruct (securecookie_DecodeMulti as_values key (doc_data doc) (codecs store)).
    { destruct Hcase as (-> & -> & _). left. split; [done|]. now left. }
    destruct Hcase as (-> & -> & _). right. eauto. }
  split.
  { destruct (Request_Cookie r key) as [e0|v]; [now left|].
    destruct (securecookie_DecodeMulti as_string key v (codecs store)) as [e|id];
      [now left|].
    destruct (primitive_ObjectIDFromHex id); [now left | now right]. }
  destruct Hnew as [(Ht & Hwhy) | (Hfalse & -> & Hv)].
  - split; [|done]. rewrite Ht. split; [discriminate|].
    intros (-> & v & Hv). destruct Hwhy as [? | (e0 & He0)]; [done | congruence].
  - split; [done | congruence].
Qed.

(** X12 on a cookie whose identifier is malformed: an error and a new
    session, nothing written. *)
Lemma X12_New_reads_only_witness :
  exists sess e w',
    New testStore malformedIDRequest "key" (testWorld 50 [testDoc] [])
    = Some ((Some sess, Some e), w') /\
    docs w' = [testDoc] /\ IsNew sess = true.
Proof.
  assert (Hd : opts_at (testWorld 50 [testDoc] []) (defaultOptions testStore)
               = Some (optionsWithMaxAge 50)) by reflexivity.
  destruct (X12_New_reads_only testStore malformedIDRequest "key"
              (testWorld 50 [testDoc] []) (optionsWithMaxAge 50) Hd)
    as (sess & err & w' & HN & Hdocs & _ & _ & _ & _ & Herr).
  assert (He : exists e, err = Some e).
  { vm_compute in HN. injection HN as _ <- _. eauto. }
  destruct He as (e & ->).
  exists sess, e, w'. split; [exact HN|]. split; [exact Hdocs|].
  apply Herr. discriminate.
Defined.

(** ** Save and New together *)

Lemma Request_Cookie_single key value :
  Request_Cookie (requestWithCookie key value) key = inr value.
Proof.
  unfold Request_Cookie, requestWithCookie. simpl. now rewrite String.eqb_refl.
Qed.

(** X13.  What [Save] stores, [New] reads back.  After a successful [Save]
    (positive max-age) with codecs that read back what they wrote, a request
    carrying the cookie that [Save] set gives, from [New] under the same
    session name, no error and a session that is not new, with the
    identifier and the values of the saved session. *)
Theorem X13_Save_then_New
    (store : MongoDBStore) (r : Request) (rw : ResponseWriter)
    (sess : sessions_Session) (w : World) (o d : sessions_Options)
    (oid : ObjectID) (data tok : string) :
  opts_at w (SOptions sess) = Some o ->
  0 < MaxAge o ->
  opts_at w (defaultOptions store) = Some d ->
  primitive_ObjectIDFromHex (saved_ID sess w) = inr oid ->
  securecookie_EncodeMulti (name sess) (PValues (SValues sess)) (codecs store) = inr data ->
  securecookie_EncodeMulti (name sess) (PString (saved_ID sess w)) (codecs store) = inr tok ->
  reads_back (codecs store) (name sess) (PValues (SValues sess)) ->
  reads_back (codecs store) (name sess) (PString (saved_ID sess w)) ->
  driver_ok 2 w = true ->
  exists c sess1 w1 sess2 w2,
    Save store r rw sess w = Some ((None, http_SetCookie rw c, sess1), w1) /\
    New store (requestWithCookie (CName c) (CValue c)) (name sess) w1
    = Some ((Some sess2, None), w2) /\
    ID sess2 = ID sess1 /\ ID sess2 = saved_ID sess w /\
    SValues sess2 = SValues sess /\
    IsNew sess2 = false /\ name sess2 = name sess /\
    opts_at w2 (SOptions sess2) = Some d.
Proof.
  intros Ho Hpos Hd Hid Hval Henc Hrv Hrs Hok.
  assert (Hok1 : driver_ok 1 w = true).
  { unfold driver_ok in *. destruct (faults w) as [|[e|] rest]; simpl in *; try done. }
  destruct (Save_ok_exact store r rw sess w o oid data tok Ho Hpos Hid Hval Hok1 Henc)
    as (w1 & doc & HS & Hf & _ & Hdd & _ & _ & Hh & Hfl & _).
  assert (Hd1 : opts_at w1 (defaultOptions store) = Some d)
    by (rewrite (opts_at_heap w w1); done).
  set (c := {| CName := name sess; CValue := tok; CPath := Path o; CDomain := Domain o;
               CExpires := Some (now w + 2 + MaxAge o * Second);
               CMaxAge := MaxAge o; CSecure := Secure o; CHttpOnly := HttpOnly o;
               CSameSite := SameSite o |}) in HS.
  pose proof (Hrs tok Henc) as Hdecid. simpl in Hdecid.
  pose proof (Hrv data Hval) as Hdecv. simpl in Hdecv.
  assert (Hok' : driver_ok 1 w1 = true) by now apply (driver_ok_next 1 w w1).
  destruct (New_run store (requestWithCookie (CName c) (CValue c)) (name sess) w1 d Hd1)
    as (sess2 & err & w2 & HN & Hheap & _ & Hopt & Hname & Hcase).
  change (CName c) with (name sess) in Hcase.
  rewrite Request_Cookie_single in Hcase. change (CValue c) with tok in Hcase.
  rewrite Hdecid, Hid, (driver_ok_head _ _ Hok'), Hf in Hcase.
  rewrite Hdd, Hdecv in Hcase. destruct Hcase as (HID & -> & Hnew & Hv).
  exists c, (with_IsNew false (with_ID (saved_ID sess w) sess)), w1, sess2, w2.
  split; [exact HS|]. split; [exact HN|]. repeat split; try done.
  rewrite Hopt. simpl. rewrite Hheap. apply lookup_insert_eq.
Qed.

(** X13 on the store of the examples, whose codec reads back an identifier
    and the values under "key". *)
Lemma X13_Save_then_New_witness :
  exists c sess1 w1 sess2 w2,
    Save testStore noCookieRequest emptyResponse
      (mkSession testID "session-name" {["key" := "value"]} 1%N true)
      (testWorld 50 [] [])
    = Some ((None, http_SetCookie emptyResponse c, sess1), w1) /\
    New testStore (requestWithCookie (CName c) (CValue c)) "session-name" w1
    = Some ((Some sess2, None), w2) /\
    ID sess2 = testID /\ SValues sess2 = {["key" := "value"]} /\ IsNew sess2 = false.
Proof.
  assert (Ho : opts_at (testWorld 50 [] [])
                 (SOptions (mkSession testID "session-name" {["key" := "value"]} 1%N true))
               = Some (optionsWithMaxAge 50)) by reflexivity.
  assert (Hpos : 0 < MaxAge (optionsWithMaxAge 50)) by (simpl; lia).
  assert (Hd : opts_at (testWorld 50 [] []) (defaultOptions testStore)
               = Some (optionsWithMaxAge 50)) by reflexivity.
  assert (Hrv : reads_back (codecs testStore) "session-name" (PValues {["key" := "value"]})).
  { intros tok Htok. vm_compute in Htok. injection Htok as <-. reflexivity. }
  assert (Hrs : reads_back (codecs testStore) "session-name" (PString testID)).
  { intros tok Htok. vm_compute in Htok. injection Htok as <-. reflexivity. }
  destruct (X13_Save_then_New testStore noCookieRequest emptyResponse
              (mkSession testID "session-name" {["key" := "value"]} 1%N true)
              (testWorld 50 [] []) (optionsWithMaxAge 50) (optionsWithMaxAge 50)
              testOID "vvalue" (String "s" testID)
              Ho Hpos Hd eq_refl eq_refl eq_refl Hrv Hrs eq_refl)
    as (c & sess1 & w1 & sess2 & w2 & HS & HN & _ & HID & Hv & Hnew & _).
  exists c, sess1, w1, sess2, w2. repeat split; assumption.
Defined.

Lemma put_opts_run p w o o2 :
  opts_at w p = Some o ->
  exists w',
    put_opts p o2 w = Some (tt, w') /\
    opts_at w' p = Some o2 /\
    docs w' = docs w /\ faults w' = faults w /\
    (forall q x, opts_at w q = Some x -> exists x', opts_at w' q = Some x').
Proof.
  intros Ho. destruct p as [l|]; [|done]. simpl in Ho.
  unfold put_opts. rewrite Ho. eexists. split; [reflexivity|]. simpl.
  split; [apply lookup_insert_eq|]. split; [done|]. split; [done|].
  intros [l'|] x Hx; [|done]. simpl in *.
  destruct (decide (l = l')) as [->|Hne].
  - exists o2. apply lookup_insert_eq.
  - exists x. now rewrite lookup_insert_ne.
Qed.

(** X14.  Saving, ending and coming back: after a successful [Save], the
    application sets a max-age of zero or less in the options of the session
    and saves again; the record is removed and the cookie cleared without
    error, and a later request that still carries the first cookie gets from
    [New] the error [ErrNoDocuments] and a session that is new. *)
Theorem X14_Save_clear_then_New
    (store : MongoDBStore) (r : Request) (rw : ResponseWriter)
    (sess : sessions_Session) (w : World) (o d o2 : sessions_Options)
    (oid : ObjectID) (data tok : string) :
  opts_at w (SOptions sess) = Some o ->
  0 < MaxAge o ->
  MaxAge o2 <= 0 ->
  opts_at w (defaultOptions store) = Some d ->
  primitive_ObjectIDFromHex (saved_ID sess w) = inr oid ->
  securecookie_EncodeMulti (name sess) (PValues (SValues sess)) (codecs store) = inr data ->
  securecookie_EncodeMulti (name sess) (PString (saved_ID sess w)) (codecs store) = inr tok ->
  reads_back (codecs store) (name sess) (PString (saved_ID sess w)) ->
  unique_ids (docs w) ->
  driver_ok 3 w = true ->
  exists c sess1 w1 w1' c2 w2 sess3 w3,
    Save store r rw sess w = Some ((None, http_SetCookie rw c, sess1), w1) /\
    put_opts (SOptions sess1) o2 w1 = Some (tt, w1') /\
    Save store r (http_SetCookie rw c) sess1 w1'
    = Some ((None, http_SetCookie (http_SetCookie rw c) c2, sess1), w2) /\
    CValue c2 = "" /\
    count_id oid (docs w2) = 0%nat /\
    New store (requestWithCookie (CName c) (CValue c)) (name sess) w2
    = Some ((Some sess3, Some ErrNoDocuments), w3) /\
    IsNew sess3 = true /\ docs w3 = docs w2.
Proof.
  intros Ho Hpos Hle Hd Hid Hval Henc Hrs Hu Hok.
  assert (Hok1 : driver_ok 1 w = true).
  { unfold driver_ok in *. destruct (faults w) as [|[e|] rest]; simpl in *; try done. }
  destruct (Save_ok_exact store r rw sess w o oid data tok Ho Hpos Hid Hval Hok1 Henc)
    as (w1 & doc & HS & Hf & _ & _ & _ & Hdocs1 & Hh & Hfl & _).
  set (sess1 := with_IsNew false (with_ID (saved_ID sess w) sess)) in *.
  set (c := {| CName := name sess; CValue := tok; CPath := Path o; CDomain := Domain o;
               CExpires := Some (now w + 2 + MaxAge o * Second);
               CMaxAge := MaxAge o; CSecure := Secure o; CHttpOnly := HttpOnly o;
               CSameSite := SameSite o |}) in HS.
  assert (Ho1 : opts_at w1 (SOptions sess1) = Some o)
    by (change (SOptions sess1) with (SOptions sess); rewrite (opts_at_heap w w1); done).
  assert (Hd1 : opts_at w1 (defaultOptions store) = Some d)
    by (rewrite (opts_at_heap w w1); done).
  destruct (put_opts_run (SOptions sess1) w1 o o2 Ho1)
    as (w1' & Hput & Ho1' & Hdocs1' & Hf1' & Hkeep).
  destruct (Hkeep _ _ Hd1) as (d' & Hd1').
  assert (Hok2 : driver_ok 2 w1 = true) by now apply (driver_ok_next 2 w w1).
  assert (Hok2' : driver_ok 1 w1' = true).
  { unfold driver_ok in *. rewrite Hf1'.
    destruct (faults w1) as [|[e|] rest]; simpl in *; try done. }
  (* the second Save *)
  destruct (Save_clear_run store r (http_SetCookie rw c) sess1 w1' o2 Ho1' Hle eq_refl)
    as (err & c2 & w2 & wd & HS2 & _ & Hv2 & Hdel & Hdocs2 & Hf2 & Hh2).
  destruct (delete_run store (ID sess1) w1') as (err' & wd' & Hdel' & _ & Hcase).
  rewrite Hdel in Hdel'. injection Hdel' as <- <-.
  change (ID sess1) with (saved_ID sess w) in Hcase.
  rewrite Hid, (driver_ok_head _ _ Hok2') in Hcase. destruct Hcase as (Hfd & Hcase).
  assert (Hu1 : unique_ids (docs w1')).
  { rewrite Hdocs1', Hdocs1. now apply upsert_unique. }
  assert (Hfind : find_first oid (docs w1') = Some doc) by (rewrite Hdocs1'; exact Hf).
  destruct (find_first_Some_delete oid (docs w1') doc Hfind) as (ds & Hds).
  rewrite Hds in Hcase. destruct Hcase as (-> & Hwd).
  destruct (delete_first_gone oid (docs w1') ds Hu1 Hds) as (Hgone & Hcnt & _).
  assert (Hdocs2' : docs w2 = ds) by congruence.
  (* the request with the old cookie *)
  assert (Hd2 : opts_at w2 (defaultOptions store) = Some d')
    by (rewrite (opts_at_heap w1' w2); done).
  assert (Hok3 : driver_ok 1 w2 = true).
  { unfold driver_ok in *. rewrite Hf2, Hfd, Hf1'.
    destruct (faults w1) as [|[e|] [|[e'|] rest]]; simpl in *; try done. }
  destruct (New_run store (requestWithCookie (CName c) (CValue c)) (name sess) w2 d' Hd2)
    as (sess3 & err3 & w3 & HN & _ & Hdocs3 & _ & _ & Hcase3).
  change (CName c) with (name sess) in Hcase3.
  rewrite Request_Cookie_single in Hcase3. change (CValue c) with tok in Hcase3.
  pose proof (Hrs tok Henc) as Hdecid. simpl in Hdecid.
  rewrite Hdecid, Hid, (driver_ok_head _ _ Hok3), Hdocs2', Hgone in Hcase3.
  destruct Hcase3 as (_ & -> & Hnew & _).
  exists c, sess1, w1, w1', c2, w2, sess3, w3.
  split; [exact HS|]. split; [exact Hput|]. split; [exact HS2|].
  split; [exact Hv2|]. split; [now rewrite Hdocs2'|].
  split; [exact HN|]. split; [exact Hnew | exact Hdocs3].
Qed.

(** X14 on the scenario of the test [Save_MaxAgeIsZero]. *)
Lemma X14_Save_clear_then_New_witness :
  exists c sess1 w1 w1' c2 w2 sess3 w3,
    Save testStore noCookieRequest emptyResponse
      (mkSession testID "key" {["key" := "value"]} 1%N true) (testWorld 50 [] [])
    = Some ((None, http_SetCookie emptyResponse c, sess1), w1) /\
    put_opts (SOptions sess1) (optionsWithMaxAge 0) w1 = Some (tt, w1') /\
    Save testStore noCookieRequest (http_SetCookie emptyResponse c) sess1 w1'
    = Some ((None, http_SetCookie (http_SetCookie emptyResponse c) c2, sess1), w2) /\
    New testStore (requestWithCookie (CName c) (CValue c)) "key" w2
    = Some ((Some sess3, Some ErrNoDocuments), w3) /\
    IsNew sess3 = true.
Proof.
  assert (Ho : opts_at (testWorld 50 [] [])
                 (SOptions (mkSession testID "key" {["key" := "value"]} 1%N true))
               = Some (optionsWithMaxAge 50)) by reflexivity.
  assert (Hpos : 0 < MaxAge (optionsWithMaxAge 50)) by (simpl; lia).
  assert (Hle : MaxAge (optionsWithMaxAge 0) <= 0) by (simpl; lia).
  assert (Hd : opts_at (testWorld 50 [] []) (defaultOptions testStore)
               = Some (optionsWithMaxAge 50)) by reflexivity.
  assert (Hrs : reads_back (codecs testStore) "key" (PString testID)).
  { intros tok Htok. vm_compute in Htok. injection Htok as <-. reflexivity. }
  assert (Hu : unique_ids (docs (testWorld 50 [] []))) by constructor.
  destruct (X14_Save_clear_then_New testStore noCookieRequest emptyResponse
              (mkSession testID "key" {["key" := "value"]} 1%N true)
              (testWorld 50 [] []) (optionsWithMaxAge 50) (optionsWithMaxAge 50)
              (optionsWithMaxAge 0) testOID "vvalue" (String "s" testID)
              Ho Hpos Hle Hd eq_refl eq_refl eq_refl Hrs Hu eq_refl)
    as (c & sess1 & w1 & w1' & c2 & w2 & sess3 & w3 & HS & Hput & HS2 & _ & _ & HN & Hnew & _).
  exists c, sess1, w1, w1', c2, w2, sess3, w3. repeat split; assumption.
Defined.

(** ** Construction: every outcome *)

Lemma Log_exact lg lvl msg w :
  exists w', Log lg lvl msg w = Some (tt, w') /\
    heap w' = heap w /\ docs w' = docs w /\ indexes w' = indexes w /\
    faults w' = faults w /\ now w' = now w /\ oid_counter w' = oid_counter w /\
    logs w' = match lg with
              | NopLogger => logs w
              | SinkLogger => logs w ++ [(lvl, msg)]
              end.
Proof. destruct lg; simpl; eexists; repeat split. Qed.

(** The logger the store ends up with. *)
Lemma NewMongoDBStore_run o p lg cs w :
  exists res w',
    NewMongoDBStore o p lg cs w = Some (res, w') /\
    docs w' = docs w /\ now w' = now w /\ oid_counter w' = oid_counter w /\
    (Enabled (Options_Logging o) = false -> logs w' = logs w) /\
    match head_fault w with
    | Some e =>
        res = (None, Some e) /\ heap w' = heap w /\ indexes w' = indexes w /\
        faults w' = tail (faults w)
    | None =>
        match Validate o with
        | Some e =>
            res = (None, Some e) /\ heap w' = heap w /\ indexes w' = indexes w /\
            faults w' = tail (faults w) /\ logs w' = logs w
        | None =>
            match (if EnsureTTLIndex (Options_TTLOptions o)
                   then head_fault (pop_fault w) else None) with
            | Some e =>
                res = (None, Some e) /\ heap w' = heap w /\ indexes w' = indexes w /\
                faults w' = tail (tail (faults w))
            | None =>
                exists store,
                  res = (Some store, None) /\
                  ttl store = TTL (Options_TTLOptions o) /\
                  codecs store = cs /\ storeOptions store = o /\
                  logger store = (if Enabled (Options_Logging o) then lg else NopLogger) /\
                  indexes w' =
                    (if EnsureTTLIndex (Options_TTLOptions o)
                     then indexes w ++ [makeTTLIndexModel (TTL (Options_TTLOptions o))]
                     else indexes w) /\
                  faults w' =
                    (if EnsureTTLIndex (Options_TTLOptions o)
                     then tail (tail (faults w)) else tail (faults w)) /\
                  match p with
                  | Some l =>
                      defaultOptions store = Some l /\ heap w' = heap w /\
                      logs w' = (if Enabled (Options_Logging o)
                                 then match lg with
                                      | NopLogger => logs w
                                      | SinkLogger => logs w ++ [(LInfo, "cookie options")]
                                      end
                                 else logs w)
                  | None =>
                      defaultOptions store = Some (fresh (dom (heap w))) /\
                      heap w' =
                        <[fresh (dom (heap w)) :=
                            {| Path := "/"; Domain := "";
                               MaxAge := int_Seconds (TTL (Options_TTLOptions o));
                               Secure := false; HttpOnly := false; SameSite := 0 |}]>
                          (heap w) /\
                      logs w' = (if Enabled (Options_Logging o)
                                 then match lg with
                                      | NopLogger => logs w
                                      | SinkLogger =>
                                          logs w ++
                                          [(LDebug, "nil options found, using defaults");
                                           (LInfo, "cookie options")]
                                      end
                                 else logs w)
                  end
            end
        end
    end.
Proof.
  unfold NewMongoDBStore, ensureConnection, mongo_Ping, next_fault.
  cbv zeta. unfold mbind at 1, M_bind at 1.
  destruct (Enabled (Options_Logging o)) eqn:Hen;
    [change (negb true) with false | change (negb false) with true]; cbv iota.
  - (* logging enabled *)
    destruct (head_fault w) as [e|].
    { unfold_m.
      destruct (Log_exact lg LError "failed to create connection to mongo" (pop_fault w))
        as (w1 & -> & Hh & Hd & Hi & Hf & Hn & Hc & Hl).
      eexists _, _. split; [reflexivity|]. repeat split; done. }
    destruct (Validate o) as [e|].
    { unfold_m. eexists _, _. split; [reflexivity|]. repeat split; done. }
    unfold mbind at 1, M_bind at 1.
    destruct (EnsureTTLIndex (Options_TTLOptions o)).
    + unfold ensureTTLIndex, mongo_CreateOne, next_fault.
      unfold mbind at 1, M_bind at 1.
      destruct (head_fault (pop_fault w)) as [e|].
      { unfold_m.
        destruct (Log_exact lg LError "failed to ensure TTL index" (pop_fault (pop_fault w)))
          as (w1 & -> & Hh & Hd & Hi & Hf & Hn & Hc & Hl).
        eexists _, _. split; [reflexivity|]. repeat split; done. }
      unfold_m. simpl.
      destruct p as [l|].
      * match goal with |- context [Log lg LInfo ?m ?x] =>
          destruct (Log_exact lg LInfo m x) as (w1 & -> & Hh & Hd & Hi & Hf & Hn & Hc & Hl) end.
        eexists _, _. split; [reflexivity|].
        do 4 (split; [try done; congruence|]).
        eexists. repeat split; done.
      * unfold alloc_opts.
        match goal with |- context [Log lg LDebug ?m ?x] =>
          destruct (Log_exact lg LDebug m x) as (w1 & -> & Hh & Hd & Hi & Hf & Hn & Hc & Hl) end.
        destruct (Log_exact lg LInfo "cookie options" w1)
          as (w2 & -> & Hh2 & Hd2 & Hi2 & Hf2 & Hn2 & Hc2 & Hl2).
        simpl in Hh, Hd, Hi, Hf, Hn, Hc, Hl.
        eexists _, _. split; [reflexivity|].
        do 4 (split; [try done; congruence|]).
        eexists. repeat split; try congruence.
        destruct lg; rewrite Hl2, Hl; [done|]. simpl. now rewrite <- app_assoc.
    + unfold mret at 1, M_ret at 1. unfold_m.
      destruct p as [l|].
      * match goal with |- context [Log lg LInfo ?m ?x] =>
          destruct (Log_exact lg LInfo m x) as (w1 & -> & Hh & Hd & Hi & Hf & Hn & Hc & Hl) end.
        eexists _, _. split; [reflexivity|].
        do 4 (split; [try done; congruence|]).
        eexists. repeat split; done.
      * unfold alloc_opts.
        match goal with |- context [Log lg LDebug ?m ?x] =>
          destruct (Log_exact lg LDebug m x) as (w1 & -> & Hh & Hd & Hi & Hf & Hn & Hc & Hl) end.
        destruct (Log_exact lg LInfo "cookie options" w1)
          as (w2 & -> & Hh2 & Hd2 & Hi2 & Hf2 & Hn2 & Hc2 & Hl2).
        simpl in Hh, Hd, Hi, Hf, Hn, Hc, Hl.
        eexists _, _. split; [reflexivity|].
        do 4 (split; [try done; congruence|]).
        eexists. repeat split; try congruence.
        destruct lg; rewrite Hl2, Hl; [done|]. simpl. now rewrite <- app_assoc.
  - (* logging disabled: the logger is the no-op logger *)
    destruct (head_fault w) as [e|].
    { unfold_m. simpl. eexists _, _. split; [reflexivity|]. repeat split; done. }
    destruct (Validate o) as [e|].
    { unfold_m. eexists _, _. split; [reflexivity|]. repeat split; done. }
    unfold mbind at 1, M_bind at 1.
    destruct (EnsureTTLIndex (Options_TTLOptions o)).
    + unfold ensureTTLIndex, mongo_CreateOne, next_fault.
      unfold mbind at 1, M_bind at 1.
      destruct (head_fault (pop_fault w)) as [e|].
      { unfold_m. simpl. eexists _, _. split; [reflexivity|]. repeat split; done. }
      unfold_m. simpl.
      destruct p as [l|]; simpl;
        (eexists _, _; split; [reflexivity|]; do 4 (split; [done|]);
         eexists; repeat split; done).
    + unfold mret at 1, M_ret at 1. unfold_m.
      destruct p as [l|]; simpl;
        (eexists _, _; split; [reflexivity|]; do 4 (split; [done|]);
         eexists; repeat split; done).
Qed.

(** X15.  [NewMongoDBStore] always returns, with a store and no error or
    with an error and no store.  A failed construction leaves no trace but
    its calls to the backing store: nothing is allocated and no index is
    created.  The checks fail in the order connection, TTL, index: a refused
    connection is reported even when the TTL is invalid.  The collection is
    never written. *)
Theorem X15_NewMongoDBStore_outcome
    (o : Options) (p : ptr) (lg : Logger) (cs : list securecookie_Codec) (w : World) :
  exists res w',
    NewMongoDBStore o p lg cs w = Some (res, w') /\
    docs w' = docs w /\
    ((exists store, res = (Some store, None)) \/
     (exists e, res = (None, Some e) /\ heap w' = heap w /\ indexes w' = indexes w)) /\
    match head_fault w with
    | Some e => res = (None, Some e)
    | None =>
        match Validate o with
        | Some e => res = (None, Some e)
        | None =>
            EnsureTTLIndex (Options_TTLOptions o) = false ->
            exists store, res = (Some store, None)
        end
    end.
Proof.
  destruct (NewMongoDBStore_run o p lg cs w) as (res & w' & HN & Hd & _ & _ & _ & Hcase).
  exists res, w'. split; [exact HN|]. split; [exact Hd|].
  destruct (head_fault w) as [e|].
  { destruct Hcase as (-> & Hh & Hi & _). split; [right; eauto | done]. }
  destruct (Validate o) as [e|].
  { destruct Hcase as (-> & Hh & Hi & _). split; [right; eauto | done]. }
  destruct (EnsureTTLIndex (Options_TTLOptions o)).
  - destruct (head_fault (pop_fault w)) as [e|].
    + destruct Hcase as (-> & Hh & Hi & _). split; [right; eauto | discriminate].
    + destruct Hcase as (store & -> & _). split; [left; eauto | discriminate].
  - destruct Hcase as (store & -> & _). split; [left; eauto | eauto].
Qed.

Lemma int32_small (x : Z) : - 2 ^ 31 <= x < 2 ^ 31 -> int32 x = x.
Proof.
  intros H. unfold int32. rewrite Z.mod_small by lia. lia.
Qed.

(** X16.  A successful construction with [EnsureTTLIndex] set creates one
    index, ascending on [last_modified], that expires documents after the
    whole seconds of the TTL, the same number as the max-age of the default
    options made up for [nil]; without [EnsureTTLIndex] no index is created.
    (For a TTL under 2^24 seconds, where the float64 of [Seconds] is exact
    to the second.) *)
Theorem X16_NewMongoDBStore_ttl_index
    (o : Options) (p : ptr) (lg : Logger) (cs : list securecookie_Codec)
    (w w' : World) (store : MongoDBStore) :
  NewMongoDBStore o p lg cs w = Some ((Some store, None), w') ->
  TTL (Options_TTLOptions o) < 2 ^ 24 * Second ->
  0 < TTL (Options_TTLOptions o) /\
  indexes w' =
    (if EnsureTTLIndex (Options_TTLOptions o)
     then indexes w ++ [{| Keys := [("last_modified", 1)];
                           ExpireAfterSeconds := int_Seconds (TTL (Options_TTLOptions o)) |}]
     else indexes w) /\
  int_Seconds (TTL (Options_TTLOptions o)) * Second <= TTL (Options_TTLOptions o)
    < (int_Seconds (TTL (Options_TTLOptions o)) + 1) * Second /\
  (p = None ->
   exists d, opts_at w' (defaultOptions store) = Some d /\
             MaxAge d = int_Seconds (TTL (Options_TTLOptions o))).
Proof.
  intros HN Hsmall.
  destruct (NewMongoDBStore_run o p lg cs w) as (res & w1 & HN1 & _ & _ & _ & _ & Hcase).
  rewrite HN in HN1. injection HN1 as <- <-.
  destruct (head_fault w); [destruct Hcase as (? & _); discriminate|].
  assert (Hpos : 0 < TTL (Options_TTLOptions o)).
  { unfold Validate, Seconds_le_0 in Hcase.
    destruct (Z.leb_spec (TTL (Options_TTLOptions o)) 0); [|done].
    destruct Hcase as (? & _). discriminate. }
  rewrite (Validate_positive o Hpos) in Hcase.
  pose proof (int_Seconds_whole _ Hpos) as Hwhole.
  assert (Hidx : makeTTLIndexModel (TTL (Options_TTLOptions o))
                 = {| Keys := [("last_modified", 1)];
                      ExpireAfterSeconds := int_Seconds (TTL (Options_TTLOptions o)) |}).
  { unfold makeTTLIndexModel. rewrite int32_small; [done|].
    unfold Second in *. lia. }
  assert (Hstore : exists store0,
             (Some store, @None error) = (Some store0, None) /\
             indexes w' =
               (if EnsureTTLIndex (Options_TTLOptions o)
                then indexes w ++ [makeTTLIndexModel (TTL (Options_TTLOptions o))]
                else indexes w) /\
             match p with
             | Some l => True
             | None =>
                 defaultOptions store0 = Some (fresh (dom (heap w))) /\
                 heap w' =
                   <[fresh (dom (heap w)) :=
                       {| Path := "/"; Domain := "";
                          MaxAge := int_Seconds (TTL (Options_TTLOptions o));
                          Secure := false; HttpOnly := false; SameSite := 0 |}]> (heap w)
             end).
  { destruct (EnsureTTLIndex (Options_TTLOptions o)).
    - destruct (head_fault (pop_fault w)); [destruct Hcase as (? & _); discriminate|].
      destruct Hcase as (s0 & E & _ & _ & _ & _ & Hi & _ & Hp).
      exists s0. split; [exact E|]. split; [exact Hi|].
      destruct p; [done|]. destruct Hp as (? & ? & _). done.
    - destruct Hcase as (s0 & E & _ & _ & _ & _ & Hi & _ & Hp).
      exists s0. split; [exact E|]. split; [exact Hi|].
      destruct p; [done|]. destruct Hp as (? & ? & _). done. }
  destruct Hstore as (store0 & [= <-] & Hi & Hp).
  split; [exact Hpos|]. split; [now rewrite Hi, Hidx|]. split; [exact Hwhole|].
  intros ->. destruct Hp as (Hdef & Hheap).
  eexists. rewrite Hdef. simpl. rewrite Hheap. split; [apply lookup_insert_eq | done].
Qed.

(** X16 with a TTL of five seconds and the index asked for. *)
Lemma X16_NewMongoDBStore_ttl_index_witness :
  exists store w',
    NewMongoDBStore
      {| Options_TTLOptions := {| EnsureTTLIndex := true; TTL := 5 * Second |};
         Options_Logging := {| Enabled := false |} |}
      None NopLogger [testCodec] emptyWorld
    = Some ((Some store, None), w') /\
    indexes w' = [{| Keys := [("last_modified", 1)]; ExpireAfterSeconds := 5 |}].
Proof.
  assert (HN : exists store w',
             NewMongoDBStore
               {| Options_TTLOptions := {| EnsureTTLIndex := true; TTL := 5 * Second |};
                  Options_Logging := {| Enabled := false |} |}
               None NopLogger [testCodec] emptyWorld
             = Some ((Some store, None), w')).
  { eexists _, _. vm_compute. reflexivity. }
  destruct HN as (store & w' & HN).
  assert (Hsmall : TTL (Options_TTLOptions
                          {| Options_TTLOptions := {| EnsureTTLIndex := true; TTL := 5 * Second |};
                             Options_Logging := {| Enabled := false |} |})
                   < 2 ^ 24 * Second) by (simpl; unfold Second; lia).
  destruct (X16_NewMongoDBStore_ttl_index _ _ _ _ _ _ _ HN Hsmall) as (_ & Hi & _).
  exists store, w'. split; [exact HN | exact Hi].
Defined.

(** X17.  Session options given to [NewMongoDBStore] are kept by pointer,
    not copied: the store's defaults are the caller's object, nothing is
    allocated, and what the caller later writes through that pointer is what
    [New] copies into the sessions it makes from then on. *)
Theorem X17_NewMongoDBStore_keeps_pointer
    (o : Options) (l : loc) (lg : Logger) (cs : list securecookie_Codec)
    (w w' : World) (store : MongoDBStore) (d : sessions_Options) :
  NewMongoDBStore o (Some l) lg cs w = Some ((Some store, None), w') ->
  heap w !! l = Some d ->
  defaultOptions store = Some l /\ heap w' = heap w /\
  forall o2 r key,
    exists w2 sess err w3,
      put_opts (Some l) o2 w' = Some (tt, w2) /\
      New store r key w2 = Some ((Some sess, err), w3) /\
      opts_at w3 (SOptions sess) = Some o2.
Proof.
  intros HN Hl.
  destruct (NewMongoDBStore_run o (Some l) lg cs w)
    as (res & w1 & HN1 & _ & _ & _ & _ & Hcase).
  rewrite HN in HN1. injection HN1 as <- <-.
  assert (Hp : defaultOptions store = Some l /\ heap w' = heap w).
  { destruct (head_fault w); [destruct Hcase as (? & _); discriminate|].
    destruct (Validate o); [destruct Hcase as (? & _); discriminate|].
    destruct (EnsureTTLIndex (Options_TTLOptions o)).
    - destruct (head_fault (pop_fault w)); [destruct Hcase as (? & _); discriminate|].
      destruct Hcase as (s0 & [= <-] & _ & _ & _ & _ & _ & _ & Hd & Hh & _). done.
    - destruct Hcase as (s0 & [= <-] & _ & _ & _ & _ & _ & _ & Hd & Hh & _). done. }
  destruct Hp as (Hdef & Hheap). split; [exact Hdef|]. split; [exact Hheap|].
  intros o2 r key.
  assert (Ho : opts_at w' (Some l) = Some d) by (simpl; now rewrite Hheap).
  destruct (put_opts_run (Some l) w' d o2 Ho) as (w2 & Hput & Ho2 & _).
  assert (Hd2 : opts_at w2 (defaultOptions store) = Some o2) by now rewrite Hdef.
  destruct (New_run store r key w2 o2 Hd2)
    as (sess & err & w3 & HNew & Hheap3 & _ & Hopt & _).
  exists w2, sess, err, w3. split; [exact Hput|]. split; [exact HNew|].
  rewrite Hopt. simpl. rewrite Hheap3. apply lookup_insert_eq.
Qed.

(** X17 on options with max-age 50 that the caller later sets to 7. *)
Lemma X17_NewMongoDBStore_keeps_pointer_witness :
  exists store w' w2 sess err w3,
    NewMongoDBStore (testStoreOptions (5 * Second)) (Some 0%N) NopLogger [testCodec]
      (testWorld 50 [] [])
    = Some ((Some store, None), w') /\
    put_opts (Some 0%N) (optionsWithMaxAge 7) w' = Some (tt, w2) /\
    New store noCookieRequest "key" w2 = Some ((Some sess, err), w3) /\
    opts_at w3 (SOptions sess) = Some (optionsWithMaxAge 7).
Proof.
  assert (HN : exists store w',
             NewMongoDBStore (testStoreOptions (5 * Second)) (Some 0%N) NopLogger
               [testCodec] (testWorld 50 [] [])
             = Some ((Some store, None), w')).
  { eexists _, _. vm_compute. reflexivity. }
  destruct HN as (store & w' & HN).
  assert (Hl : heap (testWorld 50 [] []) !! 0%N = Some (optionsWithMaxAge 50))
    by reflexivity.
  destruct (X17_NewMongoDBStore_keeps_pointer _ _ _ _ _ _ _ _ HN Hl) as (_ & _ & Hlater).
  destruct (Hlater (optionsWithMaxAge 7) noCookieRequest "key")
    as (w2 & sess & err & w3 & Hput & HNew & Ho).
  exists store, w', w2, sess, err, w3. repeat split; assumption.
Defined.

(** ** Logging *)

Lemma Log_Nop lvl msg w : Log NopLogger lvl msg w = Some (tt, w).
Proof. reflexivity. Qed.

(** A store with the no-op logger: [Save] logs nothing. *)
Lemma Save_Nop_logs store r rw sess w res w' :
  logger store = NopLogger ->
  Save store r rw sess w = Some (res, w') ->
  logs w' = logs w.
Proof.
  intros Hlg. unfold Save, clearSession, save, saveSession, delete,
    sessionFromGorillaSession, updateDocFromSession, currentTime,
    sessions_NewCookie, mongo_UpdateOne, mongo_FindOneAndDelete, next_fault,
    time_Now, primitive_NewObjectID, get_opts.
  rewrite Hlg. unfold_m. unfold Log.
  repeat match goal with
         | |- context [match ?x with _ => _ end] =>
             lazymatch x with
             | context [match _ with _ => _ end] => fail
             | _ => destruct x eqn:?
             end
         end;
    simpl in *; try discriminate;
    try (intros [= <- <-]; reflexivity).
Qed.

(** A store with the no-op logger: [New] logs nothing. *)
Lemma New_Nop_logs store r key w res w' :
  logger store = NopLogger ->
  New store r key w = Some (res, w') ->
  logs w' = logs w.
Proof.
  intros Hlg. unfold New, load, derefOpts, sessions_NewSession, mongo_FindOne,
    next_fault, primitive_NewObjectID, get_opts, alloc_opts.
  rewrite Hlg. unfold_m. unfold Log.
  repeat match goal with
         | |- context [match ?x with _ => _ end] =>
             lazymatch x with
             | context [match _ with _ => _ end] => fail
             | _ => destruct x eqn:?
             end
         end;
    simpl in *; try discriminate;
    try (intros [= <- <-]; reflexivity).
Qed.

(** X18.  With [Logging.Enabled] false the logger handed to
    [NewMongoDBStore] is never used: construction logs nothing whatever its
    outcome, the store gets the no-op logger, and no [Save] and no [New] of
    that store logs anything. *)
Theorem X18_logging_disabled
    (o : Options) (p : ptr) (lg : Logger) (cs : list securecookie_Codec) (w : World) :
  Enabled (Options_Logging o) = false ->
  exists res w',
    NewMongoDBStore o p lg cs w = Some (res, w') /\
    logs w' = logs w /\
    forall store, res = (Some store, None) ->
      logger store = NopLogger /\
      (forall r rw sess w0 res0 w0',
          Save store r rw sess w0 = Some (res0, w0') -> logs w0' = logs w0) /\
      (forall r key w0 res0 w0',
          New store r key w0 = Some (res0, w0') -> logs w0' = logs w0).
Proof.
  intros Hoff.
  destruct (NewMongoDBStore_run o p lg cs w)
    as (res & w' & HN & _ & _ & _ & Hlogs & Hcase).
  exists res, w'. split; [exact HN|]. split; [now apply Hlogs|].
  intros store ->.
  assert (Hlg : logger store = NopLogger).
  { destruct (head_fault w); [destruct Hcase as (? & _); discriminate|].
    destruct (Validate o); [destruct Hcase as (? & _); discriminate|].
    rewrite Hoff in Hcase.
    destruct (EnsureTTLIndex (Options_TTLOptions o)).
    - destruct (head_fault (pop_fault w)); [destruct Hcase as (? & _); discriminate|].
      destruct Hcase as (s0 & [= <-] & _ & _ & _ & Hl & _). exact Hl.
    - destruct Hcase as (s0 & [= <-] & _ & _ & _ & Hl & _). exact Hl. }
  split; [exact Hlg|]. split.
  - intros r rw sess w0 res0 w0'. now apply Save_Nop_logs.
  - intros r key w0 res0 w0'. now apply New_Nop_logs.
Qed.

(** X18 with a sink as logger and a store that refuses the connection. *)
Lemma X18_logging_disabled_witness :
  exists res w',
    NewMongoDBStore (testStoreOptions (5 * Second)) None SinkLogger [testCodec]
      (testWorld 50 [] [Some (DriverError "unreachable")])
    = Some (res, w') /\ logs w' = [].
Proof.
  destruct (X18_logging_disabled (testStoreOptions (5 * Second)) None SinkLogger
              [testCodec] (testWorld 50 [] [Some (DriverError "unreachable")]) eq_refl)
    as (res & w' & HN & Hl & _).
  exists res, w'. split; [exact HN | exact Hl].
Defined.

(** X19.  With logging enabled and a connection that is accepted, an
    invalid TTL is returned without any log line, and a successful
    construction logs exactly the line "cookie options", at level info,
    after the line "nil options found, using defaults", at level debug, when
    the session options were [nil]. *)
Theorem X19_logging_enabled
    (o : Options) (p : ptr) (cs : list securecookie_Codec) (w : World) :
  Enabled (Options_Logging o) = true ->
  head_fault w = None ->
  exists res w',
    NewMongoDBStore o p SinkLogger cs w = Some (res, w') /\
    (TTL (Options_TTLOptions o) <= 0 -> logs w' = logs w) /\
    (forall store, res = (Some store, None) ->
       logger store = SinkLogger /\
       logs w' = logs w ++
                 match p with
                 | Some _ => [(LInfo, "cookie options")]
                 | None => [(LDebug, "nil options found, using defaults");
                            (LInfo, "cookie options")]
                 end).
Proof.
  intros Hon Hf.
  destruct (NewMongoDBStore_run o p SinkLogger cs w)
    as (res & w' & HN & _ & _ & _ & _ & Hcase).
  exists res, w'. split; [exact HN|]. rewrite Hf in Hcase. split.
  - intros Hle. rewrite (Validate_nonpositive o Hle) in Hcase.
    now destruct Hcase as (_ & _ & _ & _ & ?).
  - intros store ->.
    destruct (Validate o); [destruct Hcase as (? & _); discriminate|].
    rewrite Hon in Hcase.
    destruct (EnsureTTLIndex (Options_TTLOptions o)).
    + destruct (head_fault (pop_fault w)); [destruct Hcase as (? & _); discriminate|].
      destruct Hcase as (s0 & [= <-] & _ & _ & _ & Hl & _ & _ & Hp).
      split; [exact Hl|]. destruct p; [now destruct Hp as (_ & _ & ?)|].
      now destruct Hp as (_ & _ & ?).
    + destruct Hcase as (s0 & [= <-] & _ & _ & _ & Hl & _ & _ & Hp).
      split; [exact Hl|]. destruct p; [now destruct Hp as (_ & _ & ?)|].
      now destruct Hp as (_ & _ & ?).
Qed.

(** X19 with [nil] session options: two lines. *)
Lemma X19_logging_enabled_witness :
  exists store w',
    NewMongoDBStore
      {| Options_TTLOptions := {| EnsureTTLIndex := false; TTL := 5 * Second |};
         Options_Logging := {| Enabled := true |} |}
      None SinkLogger [testCodec] emptyWorld
    = Some ((Some store, None), w') /\
    logs w' = [(LDebug, "nil options found, using defaults"); (LInfo, "cookie options")].
Proof.
  destruct (X19_logging_enabled
              {| Options_TTLOptions := {| EnsureTTLIndex := false; TTL := 5 * Second |};
                 Options_Logging := {| Enabled := true |} |}
              None [testCodec] emptyWorld eq_refl eq_refl)
    as (res & w' & HN & _ & Hok).
  assert (Hres : exists store, res = (Some store, None)).
  { vm_compute in HN. injection HN as <- _. eauto. }
  destruct Hres as (store & ->).
  destruct (Hok store eq_refl) as (_ & Hl).
  exists store, w'. split; [exact HN | exact Hl].
Defined.

(** ** A TTL under one second *)

Lemma int_Seconds_subsecond (t : Duration) :
  - Second < t < Second -> int_Seconds t = 0.
Proof.
  intros H. unfold int_Seconds, Second in *.
  destruct (Z.le_gt_cases 0 t).
  - apply Z.quot_small. lia.
  - rewrite <- (Z.opp_involutive t), Z.quot_opp_l by lia.
    rewrite Z.quot_small by lia. reflexivity.
Qed.

Lemma Save_clear_new store r rw sess w o :
  opts_at w (SOptions sess) = Some o ->
  MaxAge o <= 0 ->
  IsNew sess = true ->
  exists c w',
    Save store r rw sess w = Some ((None, http_SetCookie rw c, sess), w') /\
    CValue c = "" /\ CMaxAge c = MaxAge o /\ docs w' = docs w /\ faults w' = faults w.
Proof.
  intros Ho Hle Hnew. unfold Save. unfold mbind at 1, M_bind at 1.
  rewrite (get_opts_run _ _ _ Ho).
  destruct (Z.leb_spec (MaxAge o) 0) as [_|]; [|lia].
  unfold mbind at 1, M_bind at 1.
  destruct (clearSession_run store rw sess w o Ho)
    as (err & c & w' & -> & _ & Hv & Hm & _ & _ & Hn & _).
  destruct (Hn Hnew) as (-> & Hd & Hf).
  unfold_m. exists c, w'. split; [reflexivity|]. done.
Qed.

(** X20.  A TTL above zero and under one second passes [Validate], yet the
    defaults made up for [nil] session options then have a max-age of 0, so
    a session that [New] makes for a first visit is never stored: [Save] of
    it takes the path of an ended session, sets a cookie with an empty
    value and writes no record. *)
Theorem X20_subsecond_ttl_never_stores
    (o : Options) (lg : Logger) (cs : list securecookie_Codec) (w : World)
    (r : Request) (key : string) (rw : ResponseWriter) (e0 : error) :
  0 < TTL (Options_TTLOptions o) < Second ->
  driver_ok 2 w = true ->
  Request_Cookie r key = inl e0 ->
  exists store w1 sess w2 c w3,
    NewMongoDBStore o None lg cs w = Some ((Some store, None), w1) /\
    New store r key w1 = Some ((Some sess, None), w2) /\
    IsNew sess = true /\
    Save store r rw sess w2 = Some ((None, http_SetCookie rw c, sess), w3) /\
    CValue c = "" /\ CMaxAge c = 0 /\
    docs w3 = docs w.
Proof.
  intros Ht Hok Hc.
  destruct (NewMongoDBStore_run o None lg cs w)
    as (res & w1 & HN & Hd1 & _ & _ & _ & Hcase).
  rewrite (driver_ok_head _ _ Hok), (Validate_positive o) in Hcase by lia.
  assert (Hok1 : head_fault (pop_fault w) = None).
  { apply (driver_ok_head 0). now apply driver_ok_pop. }
  rewrite Hok1 in Hcase.
  assert (Hstore : exists store,
             res = (Some store, None) /\
             defaultOptions store = Some (fresh (dom (heap w))) /\
             heap w1 =
               <[fresh (dom (heap w)) :=
                   {| Path := "/"; Domain := "";
                      MaxAge := int_Seconds (TTL (Options_TTLOptions o));
                      Secure := false; HttpOnly := false; SameSite := 0 |}]> (heap w)).
  { destruct (EnsureTTLIndex (Options_TTLOptions o));
      destruct Hcase as (s0 & -> & _ & _ & _ & _ & _ & _ & Hdef & Hh & _); eauto. }
  destruct Hstore as (store & -> & Hdef & Hheap).
  rewrite int_Seconds_subsecond in Hheap by lia.
  set (d := {| Path := "/"; Domain := ""; MaxAge := 0; Secure := false;
               HttpOnly := false; SameSite := 0 |}) in *.
  assert (Hd : opts_at w1 (defaultOptions store) = Some d).
  { rewrite Hdef. simpl. rewrite Hheap. apply lookup_insert_eq. }
  destruct (New_run store r key w1 d Hd)
    as (sess & err & w2 & HNew & Hheap2 & Hdocs2 & Hopt & _ & Hcase2).
  rewrite Hc in Hcase2. destruct Hcase2 as (-> & _ & Hnew & _).
  assert (Ho : opts_at w2 (SOptions sess) = Some d).
  { rewrite Hopt. simpl. rewrite Hheap2. apply lookup_insert_eq. }
  destruct (Save_clear_new store r rw sess w2 d Ho ltac:(simpl; lia) Hnew)
    as (c & w3 & HS & Hv & Hm & Hdocs3 & _).
  exists store, w1, sess, w2, c, w3. split; [exact HN|]. split; [exact HNew|].
  split; [exact Hnew|]. split; [exact HS|]. split; [exact Hv|]. split; [exact Hm|].
  congruence.
Qed.

(** X20 with a TTL of half a second. *)
Lemma X20_subsecond_ttl_witness :
  exists store w1 sess w2 c w3,
    NewMongoDBStore (testStoreOptions 500000000) None NopLogger [testCodec] emptyWorld
    = Some ((Some store, None), w1) /\
    New store noCookieRequest "key" w1 = Some ((Some sess, None), w2) /\
    Save store noCookieRequest emptyResponse sess w2
    = Some ((None, http_SetCookie emptyResponse c, sess), w3) /\
    CValue c = "" /\ docs w3 = [].
Proof.
  assert (Ht : 0 < TTL (Options_TTLOptions (testStoreOptions 500000000)) < Second)
    by (simpl; unfold Second; lia).
  destruct (X20_subsecond_ttl_never_stores (testStoreOptions 500000000) NopLogger
              [testCodec] emptyWorld noCookieRequest "key" emptyResponse ErrNoCookie
              Ht eq_refl eq_refl)
    as (store & w1 & sess & w2 & c & w3 & HN & HNew & _ & HS & Hv & _ & Hd).
  exists store, w1, sess, w2, c, w3. repeat split; assumption.
Defined.

(** ** errs.go *)

(** X21.  A TTL between minus one second (excluded) and zero is refused by
    [Validate], and the message of the error reports a TTL of 0: the message
    carries whole seconds only. *)
Theorem X21_InvalidTTLErr_message (o : Options) :
  - Second < TTL (Options_TTLOptions o) <= 0 ->
  Validate o = Some (InvalidTTLErr (TTL (Options_TTLOptions o))) /\
  InvalidTTLErr_Error (TTL (Options_TTLOptions o))
  = "ttl cannot be 0 or fewer seconds; supplies ttl: 0".
Proof.
  intros H. split; [apply Validate_nonpositive; lia|].
  unfold InvalidTTLErr_Error. rewrite int_Seconds_subsecond; [reflexivity|].
  unfold Second in *. lia.
Qed.

(** X21 with a TTL of minus half a second. *)
Lemma X21_InvalidTTLErr_message_witness :
  InvalidTTLErr_Error (-500000000) = "ttl cannot be 0 or fewer seconds; supplies ttl: 0".
Proof.
  assert (H : - Second < TTL (Options_TTLOptions (testStoreOptions (-500000000))) <= 0)
    by (simpl; unfold Second; lia).
  exact (proj2 (X21_InvalidTTLErr_message (testStoreOptions (-500000000)) H)).
Defined.

(** ** The two revisions of the constructor *)

(** X22.  The revision of [NewMongoDBStore] that reads [EnableLogging] does
    what the revision that reads [Logging.Enabled] does on options whose
    [Logging.Enabled] has the value of [EnableLogging]: the same world, the
    same error, and a store with the same TTL, codecs, default options and
    logger.  In particular the [Logging.Enabled] of its own options has no
    effect on it. *)
Theorem X22_revisions_agree
    (o : Options_v0) (p : ptr) (lg : Logger) (cs : list securecookie_Codec) (w : World) :
  NewMongoDBStore_v0 o p lg cs w =
  match NewMongoDBStore (nested_options o) p lg cs w with
  | Some ((s, e), w') => Some ((option_map (flat_store o) s, e), w')
  | None => None
  end.
Proof.
  unfold NewMongoDBStore_v0, NewMongoDBStore, Validate_v0, Validate, nested_options,
    ensureConnection, ensureTTLIndex, mongo_Ping, mongo_CreateOne, next_fault, alloc_opts.
  unfold_m. simpl.
  destruct (head_fault w).
  { destruct (negb (v0_EnableLogging o)), lg; reflexivity. }
  destruct (Seconds_le_0 (TTL (v0_TTLOptions o))); [reflexivity|].
  destruct (EnsureTTLIndex (v0_TTLOptions o)); simpl.
  - destruct (head_fault (pop_fault w)).
    { destruct (negb (v0_EnableLogging o)), lg; reflexivity. }
    simpl. destruct p; destruct (negb (v0_EnableLogging o)), lg; reflexivity.
  - destruct p; destruct (negb (v0_EnableLogging o)), lg; reflexivity.
Qed.

(** ** The response writer of the tests *)

Lemma mock_run_writes (bs : list (list N)) (m : ResponseWriterMock) :
  mock_Buffer (mock_run (map CallWrite bs) m) = mock_Buffer m ++ concat bs /\
  mock_StatusCode (mock_run (map CallWrite bs) m) = mock_StatusCode m /\
  mock_Headers (mock_run (map CallWrite bs) m) = mock_Headers m.
Proof.
  revert m. induction bs as [|b bs IH]; intros m.
  - simpl. now rewrite app_nil_r.
  - destruct (IH (mock_step m (CallWrite b))) as (Hb & Hs & Hh).
    unfold mock_run in *.
    change (fold_left mock_step (map CallWrite (b :: bs)) m)
      with (fold_left mock_step (map CallWrite bs) (mock_step m (CallWrite b))).
    rewrite Hb, Hs, Hh. simpl. now rewrite <- app_assoc.
Qed.

(** X23.  Whatever was done to the mock before (writes, status codes,
    changes of the headers), after [Reset] and then a series of [Write]s it
    holds exactly the bytes of those writes, in order, a status code of 0
    and no headers; each [Write] reports the length of its argument and no
    error. *)
Theorem X23_mock_reset_then_writes
    (cs : list mock_call) (bs : list (list N)) (m : ResponseWriterMock) :
  mock_GetWrittenBytes (mock_run (cs ++ CallReset :: map CallWrite bs) m) = concat bs /\
  mock_GetStatusCode (mock_run (cs ++ CallReset :: map CallWrite bs) m) = 0 /\
  mock_GetHeaders (mock_run (cs ++ CallReset :: map CallWrite bs) m) = [] /\
  (forall b m0, fst (mock_Write b m0) = (Z.of_nat (length b), None)).
Proof.
  unfold mock_run. rewrite fold_left_app. simpl.
  set (m1 := mock_Reset (fold_left mock_step cs m)).
  destruct (mock_run_writes bs m1) as (Hb & Hs & Hh).
  unfold mock_run in *.
  unfold mock_GetWrittenBytes, mock_GetStatusCode, mock_GetHeaders.
  rewrite Hb, Hs, Hh. repeat split.
Qed.

(** ** Identifiers in upper case *)

Lemma fromHexChar_upper (n : N) :
  (n < 16)%N -> fromHexChar (upper_ascii (hexdigit n)) = Some n.
Proof.
  intros H. destruct n as [|p]; [reflexivity|].
  do 4 (destruct p as [p|p|]; try reflexivity; try lia).
Qed.

Lemma hex_DecodeString_upper (bs : list N) :
  Forall (fun b => (b < 256)%N) bs ->
  hex_DecodeString (upper_string (primitive_Hex bs)) = inr bs.
Proof.
  induction 1 as [|b bs Hb _ IH]; [reflexivity|].
  simpl. rewrite !fromHexChar_upper.
  - rewrite IH. f_equal. f_equal.
    pose proof (N.div_mod b 16 ltac:(lia)). lia.
  - apply N.mod_lt. lia.
  - apply N.Div0.div_lt_upper_bound. lia.
Qed.

(** X24.  Identifiers are read without regard to letter case: a session
    whose identifier is the upper-case form of the hexadecimal identifier of
    a stored record is saved onto that record.  After such a [Save] (which
    succeeds under the conditions of X1) the collection still has exactly
    one record under the identifier, now with the data of this session. *)
Theorem X24_Save_upper_case_identifier
    (store : MongoDBStore) (r : Request) (rw : ResponseWriter)
    (sess : sessions_Session) (w : World) (o : sessions_Options)
    (oid : ObjectID) (old : document) (data tok : string) :
  length oid = 12%nat ->
  Forall (fun b => (b < 256)%N) oid ->
  ID sess = upper_string (primitive_Hex oid) ->
  find_first oid (docs w) = Some old ->
  unique_ids (docs w) ->
  opts_at w (SOptions sess) = Some o ->
  0 < MaxAge o ->
  securecookie_EncodeMulti (name sess) (PValues (SValues sess)) (codecs store) = inr data ->
  securecookie_EncodeMulti (name sess) (PString (ID sess)) (codecs store) = inr tok ->
  driver_ok 1 w = true ->
  exists c sess' w' d,
    Save store r rw sess w = Some ((None, http_SetCookie rw c, sess'), w') /\
    ID sess' = ID sess /\ CValue c = tok /\
    length (docs w') = length (docs w) /\
    count_id oid (docs w') = 1%nat /\
    find_first oid (docs w') = Some d /\ doc_data d = data.
Proof.
  intros Hlen Hbytes HID Hold Hu Ho Hpos Hval Henc Hok.
  assert (Hid : primitive_ObjectIDFromHex (ID sess) = inr oid).
  { rewrite HID. unfold primitive_ObjectIDFromHex.
    rewrite hex_DecodeString_upper by done. now rewrite Hlen. }
  assert (Hsid : saved_ID sess w = ID sess).
  { apply saved_ID_nonempty. now apply (ObjectIDFromHex_nonempty _ oid). }
  rewrite <- Hsid in Hid, Henc.
  destruct (Save_ok_exact store r rw sess w o oid data tok Ho Hpos Hid Hval Hok Henc)
    as (w' & d & HS & Hf & _ & Hdd & _ & Hdocs & _).
  eexists _, _, w', d. split; [exact HS|]. simpl. rewrite Hsid.
  split; [done|]. split; [done|]. split.
  - rewrite Hdocs. unfold upsert.
    destruct (update_first oid data (now w + 1) (docs w)) as [ds|] eqn:E.
    + pose proof (update_first_ids _ _ _ _ _ E) as Hids.
      apply (f_equal (@length _)) in Hids. now rewrite !length_map in Hids.
    + pose proof (update_first_None _ _ _ _ E) as Hnot.
      rewrite (find_first_None_absent oid (docs w) Hnot) in Hold. discriminate.
  - split; [rewrite Hdocs; now apply upsert_count | done].
Qed.

(** X24 on a record whose identifier ends in "ab", saved under the form
    that ends in "AB". *)
Lemma X24_Save_upper_case_witness :
  exists c sess' w' d,
    Save testStore noCookieRequest emptyResponse
      (mkSession "0000000000000000000000AB" "key" {["key" := "new"]} 1%N false)
      (testWorld 50
         [{| doc_id := be_bytes 12 171; doc_data := "vold"; doc_last_modified := 1 |}] [])
    = Some ((None, http_SetCookie emptyResponse c, sess'), w') /\
    length (docs w') = 1%nat /\
    find_first (be_bytes 12 171) (docs w') = Some d /\ doc_data d = "vnew".
Proof.
  assert (Hbytes : Forall (fun b => (b < 256)%N) (be_bytes 12 171)) by apply be_bytes_bound.
  assert (Hu : unique_ids
                 (docs (testWorld 50
                          [{| doc_id := be_bytes 12 171; doc_data := "vold";
                              doc_last_modified := 1 |}] []))).
  { unfold unique_ids. simpl. apply NoDup_singleton. }
  assert (Ho : opts_at (testWorld 50
                          [{| doc_id := be_bytes 12 171; doc_data := "vold";
                              doc_last_modified := 1 |}] [])
                 (SOptions (mkSession "0000000000000000000000AB" "key"
                              {["key" := "new"]} 1%N false))
               = Some (optionsWithMaxAge 50)) by reflexivity.
  assert (Hpos : 0 < MaxAge (optionsWithMaxAge 50)) by (simpl; lia).
  destruct (X24_Save_upper_case_identifier testStore noCookieRequest emptyResponse
              (mkSession "0000000000000000000000AB" "key" {["key" := "new"]} 1%N false)
              (testWorld 50
                 [{| doc_id := be_bytes 12 171; doc_data := "vold";
                     doc_last_modified := 1 |}] [])
              (optionsWithMaxAge 50) (be_bytes 12 171)
              {| doc_id := be_bytes 12 171; doc_data := "vold"; doc_last_modified := 1 |}
              "vnew" "s0000000000000000000000AB"
              eq_refl Hbytes eq_refl eq_refl Hu Ho Hpos eq_refl eq_refl eq_refl)
    as (c & sess' & w' & d & HS & _ & _ & Hl & _ & Hf & Hd).
  exists c, sess', w', d. repeat split; assumption.
Defined.

(** ** A constructed store serves requests *)

(** X25.  A store that [NewMongoDBStore] returns, given [nil] or existing
    session options, never dereferences a missing object: [New] returns a
    session for every request, and [Save] of that session returns. *)
Theorem X25_constructed_store_serves
    (o : Options) (p : ptr) (lg : Logger) (cs : list securecookie_Codec)
    (w w' : World) (store : MongoDBStore) :
  NewMongoDBStore o p lg cs w = Some ((Some store, None), w') ->
  p = None \/ (exists d, opts_at w p = Some d) ->
  forall r key,
    exists sess err w2,
      New store r key w' = Some ((Some sess, err), w2) /\
      name sess = key /\
      forall r' rw, exists res w3, Save store r' rw sess w2 = Some (res, w3).
Proof.
  intros HN Hp r key.
  destruct (NewMongoDBStore_defaults_exist o p lg cs w store w' HN Hp) as ((d & Hd) & _).
  destruct (New_run store r key w' d Hd)
    as (sess & err & w2 & HNew & Hheap & _ & Hopt & Hname & _).
  exists sess, err, w2. split; [exact HNew|]. split; [exact Hname|].
  intros r' rw. apply (Save_returns store r' rw sess w2 d).
  rewrite Hopt. simpl. rewrite Hheap. apply lookup_insert_eq.
Qed.

(** X25 from construction with [nil] session options. *)
Lemma X25_constructed_store_witness :
  exists store w' sess err w2 res w3,
    NewMongoDBStore (testStoreOptions (5 * Second)) None NopLogger [testCodec] emptyWorld
    = Some ((Some store, None), w') /\
    New store noCookieRequest "key" w' = Some ((Some sess, err), w2) /\
    Save store noCookieRequest emptyResponse sess w2 = Some (res, w3).
Proof.
  assert (HN : exists store w',
             NewMongoDBStore (testStoreOptions (5 * Second)) None NopLogger [testCodec]
               emptyWorld = Some ((Some store, None), w')).
  { eexists _, _. vm_compute. reflexivity. }
  destruct HN as (store & w' & HN).
  destruct (X25_constructed_store_serves _ _ _ _ _ _ _ HN (or_introl eq_refl)
              noCookieRequest "key") as (sess & err & w2 & HNew & _ & HSave).
  destruct (HSave noCookieRequest emptyResponse) as (res & w3 & HS).
  exists store, w', sess, err, w2, res, w3. repeat split; assumption.
Defined.

(** ** The invariant of the collection, over requests *)

(** X26.  The identifiers of the collection stay unique through the
    operations of the store: after [Save], whatever its max-age, outcome or
    session, and after [New], which does not write. *)
Theorem X26_unique_ids_invariant
    (store : MongoDBStore) (r : Request) (rw : ResponseWriter)
    (sess : sessions_Session) (key : string) (w : World) (o d : sessions_Options) :
  unique_ids (docs w) ->
  opts_at w (SOptions sess) = Some o ->
  opts_at w (defaultOptions store) = Some d ->
  (forall res w', Save store r rw sess w = Some (res, w') -> unique_ids (docs w')) /\
  (forall res w', New store r key w = Some (res, w') -> unique_ids (docs w')).
Proof.
  intros Hu Ho Hd. split.
  - intros res w' HS. exact (Save_preserves_unique_ids _ _ _ _ _ _ _ _ Ho Hu HS).
  - intros res w' HN.
    destruct (New_effects store r key w d res w' Hd HN) as (Hdocs & _).
    now rewrite Hdocs.
Qed.

(** X26 on the collection of the examples. *)
Lemma X26_unique_ids_invariant_witness :
  exists res w',
    Save testStore noCookieRequest emptyResponse
      (mkSession testID "key" {["key" := "value"]} 1%N false) (testWorld 50 [testDoc] [])
    = Some (res, w') /\
    unique_ids (docs w').
Proof.
  assert (HS : exists res w',
             Save testStore noCookieRequest emptyResponse
               (mkSession testID "key" {["key" := "value"]} 1%N false)
               (testWorld 50 [testDoc] []) = Some (res, w')).
  { eexists _, _. vm_compute. reflexivity. }
  destruct HS as (res & w' & HS).
  assert (Ho : opts_at (testWorld 50 [testDoc] [])
                 (SOptions (mkSession testID "key" {["key" := "value"]} 1%N false))
               = Some (optionsWithMaxAge 50)) by reflexivity.
  assert (Hd : opts_at (testWorld 50 [testDoc] []) (defaultOptions testStore)
               = Some (optionsWithMaxAge 50)) by reflexivity.
  assert (Hu : unique_ids (docs (testWorld 50 [testDoc] []))).
  { unfold unique_ids. simpl. apply NoDup_singleton. }
  destruct (X26_unique_ids_invariant testStore noCookieRequest emptyResponse
              (mkSession testID "key" {["key" := "value"]} 1%N false) "key"
              (testWorld 50 [testDoc] []) (optionsWithMaxAge 50) (optionsWithMaxAge 50)
              Hu Ho Hd) as (HSave & _).
  exists res, w'. split; [exact HS|]. exact (HSave res w' HS).
Defined.
